(** * FileVault: envelope encryption pipeline and MFA-gated authentication

    A shallow embedding of the backend of the FileVault secure file sharing
    system (Node.js / Express / Mongoose) and the properties of its
    specification that are settled against it.

    The runtime's cryptographic primitives are given their standard
    definitions: SHA-256 (FIPS 180-4), HMAC (RFC 2104), PBKDF2 (RFC 8018),
    AES-256 (FIPS 197) and GCM (NIST SP 800-38D).  Buffers are lists of
    bytes, a byte being an integer in [0, 256); 32-bit words are integers
    with the wrap-around written out. *)

From Stdlib Require Import ZArith List Bool String Ascii Lia DecimalString.
Import ListNotations.

Set Warnings "-abstract-large-number".

Open Scope Z_scope.

(* ================================================================== *)
(** * Buffers and their hexadecimal encoding *)
(* ================================================================== *)

Module Buffer.

(** A Node.js [Buffer]: a sequence of bytes. *)
Definition t := list Z.

Definition is_byte (b : Z) : Prop := 0 <= b < 256.

(** [Buffer.from(str)] on the characters of a string (one byte each). *)
Definition of_string (s : string) : t :=
  map (fun c => Z.of_N (N_of_ascii c)) (list_ascii_of_string s).

Definition hex_digit (n : Z) : ascii :=
  match n with
  | 0 => "0" | 1 => "1" | 2 => "2" | 3 => "3" | 4 => "4" | 5 => "5"
  | 6 => "6" | 7 => "7" | 8 => "8" | 9 => "9" | 10 => "a" | 11 => "b"
  | 12 => "c" | 13 => "d" | 14 => "e" | _ => "f"
  end%char.

(** The value of a hexadecimal digit, either case. *)
Definition hex_value (c : ascii) : option Z :=
  let n := Z.of_N (N_of_ascii c) in
  if (48 <=? n) && (n <=? 57) then Some (n - 48)
  else if (97 <=? n) && (n <=? 102) then Some (n - 87)
  else if (65 <=? n) && (n <=? 70) then Some (n - 55)
  else None.

(** [buf.toString('hex')]: two lower-case digits per byte. *)
Fixpoint to_hex (b : t) : string :=
  match b with
  | [] => EmptyString
  | x :: r =>
      String (hex_digit (Z.shiftr (Z.land x 255) 4))
        (String (hex_digit (Z.land x 15)) (to_hex r))
  end.

(** [Buffer.from(str, 'hex')]: decodes pairs of digits and stops at the
    first pair that is not hexadecimal (or at a dangling last digit). *)
Fixpoint of_hex (s : string) : t :=
  match s with
  | String c1 (String c2 r) =>
      match hex_value c1, hex_value c2 with
      | Some h, Some l => (16 * h + l) :: of_hex r
      | _, _ => []
      end
  | _ => []
  end.

Definition xor (a b : t) : t := map (fun p => Z.lxor (fst p) (snd p)) (combine a b).

Fixpoint eqb (a b : t) : bool :=
  match a, b with
  | [], [] => true
  | x :: a', y :: b' => (x =? y) && eqb a' b'
  | _, _ => false
  end.

(** Big-endian bytes of the low [8 * n] bits of [v]. *)
Fixpoint of_uint_be (n : nat) (v : Z) : t :=
  match n with
  | O => []
  | S n' => Z.land (Z.shiftr v (8 * Z.of_nat n')) 255 :: of_uint_be n' v
  end.

Definition to_uint_be (b : t) : Z :=
  fold_left (fun acc x => 256 * acc + x) b 0.

Definition zeros (n : nat) : t := repeat 0 n.

End Buffer.

(* ================================================================== *)
(** * SHA-256 (FIPS 180-4), behind [crypto.createHash('sha256')] *)
(* ================================================================== *)

Module Sha256.

Definition mask32 : Z := 0xffffffff.
Definition add32 (a b : Z) : Z := Z.land (a + b) mask32.
Definition rotr (n x : Z) : Z :=
  Z.lor (Z.shiftr x n) (Z.land (Z.shiftl x (32 - n)) mask32).
Definition not32 (x : Z) : Z := Z.lxor x mask32.

Definition Ch (x y z : Z) : Z := Z.lxor (Z.land x y) (Z.land (not32 x) z).
Definition Maj (x y z : Z) : Z :=
  Z.lxor (Z.lxor (Z.land x y) (Z.land x z)) (Z.land y z).
Definition bsig0 (x : Z) : Z := Z.lxor (Z.lxor (rotr 2 x) (rotr 13 x)) (rotr 22 x).
Definition bsig1 (x : Z) : Z := Z.lxor (Z.lxor (rotr 6 x) (rotr 11 x)) (rotr 25 x).
Definition ssig0 (x : Z) : Z := Z.lxor (Z.lxor (rotr 7 x) (rotr 18 x)) (Z.shiftr x 3).
Definition ssig1 (x : Z) : Z := Z.lxor (Z.lxor (rotr 17 x) (rotr 19 x)) (Z.shiftr x 10).

(** The first sixty-four primes. *)
Definition is_prime (n : Z) : bool :=
  forallb (fun d => negb (n mod Z.of_nat d =? 0)) (seq 2 (Z.to_nat n - 2)).

Definition primes : list Z :=
  Eval vm_compute in filter is_prime (map Z.of_nat (seq 2 310)).

(** The integer cube root, one bit at a time from bit [k - 1] down. *)
Fixpoint cube_root (k : nat) (n r : Z) : Z :=
  match k with
  | O => r
  | S k' =>
      let r' := r + 2 ^ Z.of_nat k' in
      cube_root k' n (if r' * r' * r' <=? n then r' else r)
  end.

(** The round constants: the first 32 bits of the fractional parts of the
    cube roots of the primes. *)
Definition K : list Z :=
  Eval vm_compute in
    map (fun p => Z.land (cube_root 36 (p * 2 ^ 96) 0) mask32) primes.

(** The eight working variables, also the chaining value. *)
Record state := State
  { sa : Z; sb : Z; sc : Z; sd : Z; se : Z; sf : Z; sg : Z; sh : Z }.

(** The initial chaining value: the first 32 bits of the fractional parts
    of the square roots of the first eight primes. *)
Definition frac_sqrt (i : nat) : Z :=
  Z.land (Z.sqrt (nth i primes 0 * 2 ^ 64)) mask32.

Definition H0 : state :=
  Eval vm_compute in
    State (frac_sqrt 0) (frac_sqrt 1) (frac_sqrt 2) (frac_sqrt 3)
          (frac_sqrt 4) (frac_sqrt 5) (frac_sqrt 6) (frac_sqrt 7).

(** The message schedule is kept as a window of sixteen words
    [W(t) .. W(t+15)]; the step appends [W(t+16)]. *)
Definition next_word (win : list Z) : Z :=
  add32 (add32 (ssig1 (nth 14 win 0)) (nth 9 win 0))
        (add32 (ssig0 (nth 1 win 0)) (nth 0 win 0)).

Definition round (k w : Z) (s : state) : state :=
  let t1 := add32 (add32 (add32 (sh s) (bsig1 (se s))) (Ch (se s) (sf s) (sg s)))
                  (add32 k w) in
  let t2 := add32 (bsig0 (sa s)) (Maj (sa s) (sb s) (sc s)) in
  State (add32 t1 t2) (sa s) (sb s) (sc s) (add32 (sd s) t1) (se s) (sf s) (sg s).

Fixpoint rounds (ks win : list Z) (s : state) : state :=
  match ks with
  | [] => s
  | k :: ks' =>
      rounds ks' (tl win ++ [next_word win]) (round k (hd 0 win) s)
  end.

Fixpoint words_be (n : nat) (b : Buffer.t) : list Z :=
  match n with
  | O => []
  | S n' => Buffer.to_uint_be (firstn 4 b) :: words_be n' (skipn 4 b)
  end.

Definition compress (s : state) (block : Buffer.t) : state :=
  let r := rounds K (words_be 16 block) s in
  State (add32 (sa s) (sa r)) (add32 (sb s) (sb r)) (add32 (sc s) (sc r))
        (add32 (sd s) (sd r)) (add32 (se s) (se r)) (add32 (sf s) (sf r))
        (add32 (sg s) (sg r)) (add32 (sh s) (sh r)).

(** Padding: a one bit, zeros, and the bit length on 64 bits. *)
Definition pad (total_len : Z) (tail : Buffer.t) : Buffer.t :=
  tail ++ [128] ++ Buffer.zeros (Z.to_nat ((55 - total_len) mod 64))
       ++ Buffer.of_uint_be 8 (8 * total_len).

Fixpoint blocks (n : nat) (data : Buffer.t) (s : state) : state :=
  match n with
  | O => s
  | S n' => blocks n' (skipn 64 data) (compress s (firstn 64 data))
  end.

Definition output (s : state) : Buffer.t :=
  Buffer.of_uint_be 4 (sa s) ++ Buffer.of_uint_be 4 (sb s)
  ++ Buffer.of_uint_be 4 (sc s) ++ Buffer.of_uint_be 4 (sd s)
  ++ Buffer.of_uint_be 4 (se s) ++ Buffer.of_uint_be 4 (sf s)
  ++ Buffer.of_uint_be 4 (sg s) ++ Buffer.of_uint_be 4 (sh s).

Definition digest (msg : Buffer.t) : Buffer.t :=
  let padded := pad (Z.of_nat (List.length msg)) msg in
  output (blocks (Nat.div (List.length padded) 64) padded H0).

End Sha256.

(* ================================================================== *)
(** * HMAC-SHA-256 (RFC 2104) and PBKDF2 (RFC 8018), behind [crypto.pbkdf2] *)
(* ================================================================== *)

Module Hmac.

Definition block_size : nat := 64.

Definition key_block (key : Buffer.t) : Buffer.t :=
  let k := if (block_size <? List.length key)%nat then Sha256.digest key else key in
  k ++ Buffer.zeros (block_size - List.length k).

Definition hmac_sha256 (key msg : Buffer.t) : Buffer.t :=
  let k := key_block key in
  Sha256.digest (Buffer.xor k (repeat 0x5c block_size)
                 ++ Sha256.digest (Buffer.xor k (repeat 0x36 block_size) ++ msg)).

End Hmac.

Module Pbkdf2.

(** [iterate n u acc]: [n] more applications of the keyed function,
    each result folded into the accumulator. *)
Fixpoint iterate (password : Buffer.t) (n : nat) (u acc : Buffer.t) : Buffer.t :=
  match n with
  | O => acc
  | S n' =>
      let u' := Hmac.hmac_sha256 password u in
      iterate password n' u' (Buffer.xor acc u')
  end.

(** The block [T_idx = U_1 xor ... xor U_c]. *)
Definition block (password salt : Buffer.t) (c : nat) (idx : Z) : Buffer.t :=
  let u1 := Hmac.hmac_sha256 password (salt ++ Buffer.of_uint_be 4 idx) in
  iterate password (c - 1) u1 u1.

Fixpoint blocks_from (n : nat) (password salt : Buffer.t) (c : nat) (idx : Z)
  : Buffer.t :=
  match n with
  | O => []
  | S n' => block password salt c idx ++ blocks_from n' password salt c (idx + 1)
  end.

Definition pbkdf2_sha256 (password salt : Buffer.t) (c dkLen : nat) : Buffer.t :=
  firstn dkLen (blocks_from (Nat.div (dkLen + 31) 32) password salt c 1).

End Pbkdf2.

(* ================================================================== *)
(** * AES-256 (FIPS 197), behind [crypto.createCipheriv('aes-256-gcm')] *)
(* ================================================================== *)

Module Aes.

(** Multiplication by [x] in GF(2^8) modulo [x^8 + x^4 + x^3 + x + 1]. *)
Definition xtime (a : Z) : Z :=
  let d := Z.shiftl a 1 in
  if Z.testbit a 7 then Z.lxor (Z.land d 255) 0x1b else d.

Fixpoint gmul_aux (n : nat) (a b acc : Z) : Z :=
  match n with
  | O => acc
  | S n' =>
      gmul_aux n' (xtime a) (Z.shiftr b 1)
               (if Z.testbit b 0 then Z.lxor acc a else acc)
  end.

Definition gmul (a b : Z) : Z := gmul_aux 8 a b 0.

(** The multiplicative inverse is [a^254] (and 0 for 0). *)
Definition ginv (a : Z) : Z :=
  let a2 := gmul a a in
  let a4 := gmul a2 a2 in
  let a8 := gmul a4 a4 in
  let a16 := gmul a8 a8 in
  let a32 := gmul a16 a16 in
  let a64 := gmul a32 a32 in
  let a128 := gmul a64 a64 in
  gmul a128 (gmul a64 (gmul a32 (gmul a16 (gmul a8 (gmul a4 a2))))).

Definition rotl8 (b n : Z) : Z :=
  Z.land (Z.lor (Z.shiftl b n) (Z.shiftr b (8 - n))) 255.

Definition sbox_of (a : Z) : Z :=
  let b := ginv a in
  Z.lxor (Z.lxor (Z.lxor (Z.lxor (Z.lxor b (rotl8 b 1)) (rotl8 b 2)) (rotl8 b 3))
            (rotl8 b 4)) 0x63.

Definition sbox_table : list Z :=
  Eval vm_compute in map (fun i => sbox_of (Z.of_nat i)) (seq 0 256).

Definition sbox (a : Z) : Z := nth (Z.to_nat a) sbox_table 0.

Definition sub_bytes (s : Buffer.t) : Buffer.t := map sbox s.

(** The state is held in input order, byte [r + 4c] being row [r] of
    column [c]; row [r] is rotated left by [r] columns. *)
Definition shift_rows (s : Buffer.t) : Buffer.t :=
  map (fun i => nth i s 0) [0; 5; 10; 15; 4; 9; 14; 3; 8; 13; 2; 7; 12; 1; 6; 11]%nat.

Definition mix_column (a0 a1 a2 a3 : Z) : Buffer.t :=
  [ Z.lxor (Z.lxor (Z.lxor (xtime a0) (Z.lxor (xtime a1) a1)) a2) a3;
    Z.lxor (Z.lxor (Z.lxor a0 (xtime a1)) (Z.lxor (xtime a2) a2)) a3;
    Z.lxor (Z.lxor (Z.lxor a0 a1) (xtime a2)) (Z.lxor (xtime a3) a3);
    Z.lxor (Z.lxor (Z.lxor (Z.lxor (xtime a0) a0) a1) a2) (xtime a3) ].

Fixpoint mix_columns (s : Buffer.t) : Buffer.t :=
  match s with
  | a0 :: a1 :: a2 :: a3 :: r => mix_column a0 a1 a2 a3 ++ mix_columns r
  | _ => []
  end.

(** Key expansion for a 256-bit key: 60 words, kept as 4-byte buffers. *)
Definition sub_word (w : Buffer.t) : Buffer.t := map sbox w.
Definition rot_word (w : Buffer.t) : Buffer.t := tl w ++ firstn 1 w.

(** [expand n i rc prev]: [prev] holds the words so far, newest first. *)
Fixpoint expand (n : nat) (i : nat) (rc : Z) (prev : list Buffer.t)
  : list Buffer.t :=
  match n with
  | O => prev
  | S n' =>
      let last := nth 0 prev [] in
      let temp :=
        if (i mod 8 =? 0)%nat
        then Buffer.xor (sub_word (rot_word last)) [rc; 0; 0; 0]
        else if (i mod 8 =? 4)%nat then sub_word last else last in
      let w := Buffer.xor (nth 7 prev []) temp in
      expand n' (S i) (if (i mod 8 =? 0)%nat then xtime rc else rc) (w :: prev)
  end.

Fixpoint chunks (n : nat) (size : nat) (b : Buffer.t) : list Buffer.t :=
  match n with
  | O => []
  | S n' => firstn size b :: chunks n' size (skipn size b)
  end.

(** The fifteen round keys of 16 bytes. *)
Definition round_keys (key : Buffer.t) : list Buffer.t :=
  chunks 15 16 (List.concat (rev (expand 52 8 1 (rev (chunks 8 4 key))))).

Fixpoint middle_rounds (rks : list Buffer.t) (s : Buffer.t) : Buffer.t :=
  match rks with
  | [] => s
  | [last] => Buffer.xor (shift_rows (sub_bytes s)) last
  | rk :: rks' =>
      middle_rounds rks' (Buffer.xor (mix_columns (shift_rows (sub_bytes s))) rk)
  end.

Definition encrypt_with (rks : list Buffer.t) (block : Buffer.t) : Buffer.t :=
  match rks with
  | [] => block
  | rk0 :: rest => middle_rounds rest (Buffer.xor block rk0)
  end.

Definition encrypt_block (key block : Buffer.t) : Buffer.t :=
  encrypt_with (round_keys key) block.

End Aes.

(* ================================================================== *)
(** * Galois/Counter Mode (NIST SP 800-38D) over AES-256 *)
(* ================================================================== *)

Module Gcm.

(** A 128-bit block as an integer, its first byte being the most
    significant one; a short block is padded with zeros on the right. *)
Definition block_int (b : Buffer.t) : Z :=
  Buffer.to_uint_be (b ++ Buffer.zeros (16 - List.length b)).

Definition R : Z := Z.shiftl 0xe1 120.

(** Multiplication in GF(2^128): the bits of [x] are read from the most
    significant one, [v] is divided by the indeterminate at each step. *)
Fixpoint gf_mul_aux (n : nat) (x v z : Z) : Z :=
  match n with
  | O => z
  | S n' =>
      gf_mul_aux n' x
        (if Z.testbit v 0 then Z.lxor (Z.shiftr v 1) R else Z.shiftr v 1)
        (if Z.testbit x (Z.of_nat n') then Z.lxor z v else z)
  end.

Definition gf_mul (x y : Z) : Z := gf_mul_aux 128 x y 0.

Definition ghash (h : Z) (blocks : list Z) : Z :=
  fold_left (fun y x => gf_mul (Z.lxor y x) h) blocks 0.

Fixpoint blocks16 (n : nat) (b : Buffer.t) : list Z :=
  match n with
  | O => []
  | S n' => block_int (firstn 16 b) :: blocks16 n' (skipn 16 b)
  end.

Definition nblocks (b : Buffer.t) : nat := Nat.div (List.length b + 15) 16.

Definition blocks_of (b : Buffer.t) : list Z := blocks16 (nblocks b) b.

(** The lengths, in bits, of the additional data and of the ciphertext. *)
Definition len_block (a c : Buffer.t) : Z :=
  Z.lor (Z.shiftl (8 * Z.of_nat (List.length a)) 64) (8 * Z.of_nat (List.length c)).

Definition ghash_bytes (h : Z) (aad c : Buffer.t) : Z :=
  ghash h (blocks_of aad ++ blocks_of c ++ [len_block aad c]).

Definition hash_subkey (key : Buffer.t) : Z :=
  Buffer.to_uint_be (Aes.encrypt_block key (Buffer.zeros 16)).

(** The pre-counter block. *)
Definition j0 (h : Z) (iv : Buffer.t) : Buffer.t :=
  if (List.length iv =? 12)%nat then iv ++ [0; 0; 0; 1]
  else Buffer.of_uint_be 16 (ghash_bytes h [] iv).

Definition inc32 (cb : Buffer.t) : Buffer.t :=
  firstn 12 cb ++ Buffer.of_uint_be 4 (Buffer.to_uint_be (skipn 12 cb) + 1).

(** Counter mode from the counter block [cb]; the last block of the data
    may be short, the key stream is then cut to it. *)
Fixpoint ctr (n : nat) (key cb data : Buffer.t) : Buffer.t :=
  match n with
  | O => []
  | S n' =>
      Buffer.xor (firstn 16 data) (Aes.encrypt_block key cb)
      ++ ctr n' key (inc32 cb) (skipn 16 data)
  end.

Definition crypt (key iv data : Buffer.t) : Buffer.t :=
  ctr (nblocks data) key (inc32 (j0 (hash_subkey key) iv)) data.

(** The 16-byte tag of a ciphertext, without additional data. *)
Definition tag (key iv c : Buffer.t) : Buffer.t :=
  let h := hash_subkey key in
  Buffer.xor (Aes.encrypt_block key (j0 h iv))
             (Buffer.of_uint_be 16 (ghash_bytes h [] c)).

Definition encrypt (key iv plain : Buffer.t) : Buffer.t * Buffer.t :=
  let c := crypt key iv plain in (c, tag key iv c).

(** [None] when the tag does not verify. *)
Definition decrypt (key iv c t : Buffer.t) : option Buffer.t :=
  if Buffer.eqb (tag key iv c) t then Some (crypt key iv c) else None.

End Gcm.


(* ================================================================== *)
(** * The JavaScript runtime as the code uses it *)
(* ================================================================== *)

Module Js.

(** The result of a call that may throw: a value, or the message of the
    [Error] thrown. *)
Inductive outcome (A : Type) : Type :=
| Ok (a : A)
| Throw (msg : string).
Arguments Ok {A} a.
Arguments Throw {A} msg.

Definition bind {A B : Type} (m : outcome A) (k : A -> outcome B) : outcome B :=
  match m with
  | Ok a => k a
  | Throw msg => Throw msg
  end.

Definition is_ok {A : Type} (m : outcome A) : bool :=
  match m with Ok _ => true | Throw _ => false end.

(** Truthiness of a value that is a string or [undefined]/[null]. *)
Definition truthy (v : option string) : bool :=
  match v with
  | Some (String _ _) => true
  | _ => false
  end.

(** [a || b] on such values. *)
Definition or_else (a b : option string) : option string :=
  if truthy a then a else b.

(** [hay.includes(needle)]. *)
Fixpoint includes (needle hay : string) : bool :=
  String.prefix needle hay
  || match hay with
     | EmptyString => false
     | String _ rest => includes needle rest
     end.

Definition decimal (n : nat) : string :=
  DecimalString.NilZero.string_of_uint (Nat.to_uint n).

End Js.

Notation "x <- m ;; k" := (Js.bind m (fun x => k))
  (at level 61, m at next level, right associativity).

Module Node.
Import Js.

(** The values the CSPRNG will return, as a stream; a call consumes a
    prefix of it. *)
Definition entropy := nat -> Z.

(** [crypto.randomBytes(n)]. *)
Definition randomBytes (n : nat) (e : entropy) : Buffer.t * entropy :=
  (map (fun i => e i mod 256) (seq 0 n), fun i => e (n + i)%nat).

(** [createCipheriv('aes-256-gcm', key, iv)], [update], [final] and
    [getAuthTag] in one step: ciphertext and tag. *)
Definition gcm_encrypt (key iv plain : Buffer.t) : outcome (Buffer.t * Buffer.t) :=
  if negb (List.length key =? 32)%nat then Throw "Invalid key length"
  else if (List.length iv =? 0)%nat then Throw "Invalid initialization vector"
  else Ok (Gcm.encrypt key iv plain).

(** [createDecipheriv('aes-256-gcm', key, iv, { authTagLength })]. *)
Definition createDecipheriv (key iv : Buffer.t) : outcome unit :=
  if negb (List.length key =? 32)%nat then Throw "Invalid key length"
  else if (List.length iv =? 0)%nat then Throw "Invalid initialization vector"
  else Ok tt.

(** [decipher.setAuthTag(tag)] when [authTagLength] was given. *)
Definition setAuthTag (authTagLength : nat) (tag : Buffer.t) : outcome unit :=
  if (List.length tag =? authTagLength)%nat then Ok tt
  else Throw ("Invalid authentication tag length: " ++ decimal (List.length tag)).

(** [decipher.update(data)] followed by [decipher.final()], which throws
    when the tag does not verify. *)
Definition decipher_final (key iv data tag : Buffer.t) : outcome Buffer.t :=
  match Gcm.decrypt key iv data tag with
  | Some plain => Ok plain
  | None => Throw "Unsupported state or unable to authenticate data"
  end.

(** [crypto.createHash('sha256').update(buffer).digest('hex')]. *)
Definition sha256_hex (b : Buffer.t) : string := Buffer.to_hex (Sha256.digest b).

(** [crypto.timingSafeEqual(a, b)]: throws on buffers of different
    lengths. *)
Definition timingSafeEqual (a b : Buffer.t) : outcome bool :=
  if (List.length a =? List.length b)%nat then Ok (Buffer.eqb a b)
  else Throw "Input buffers must have the same byte length".

Definition base64_alphabet : string :=
  "ABCDEFGHIJKLMNOPQRSTUVWXYZabcdefghijklmnopqrstuvwxyz0123456789+/".

Definition base64_char (n : Z) : ascii :=
  match String.get (Z.to_nat n) base64_alphabet with
  | Some c => c
  | None => "="%char
  end.

(** [buf.toString('base64')]. *)
Fixpoint to_base64 (b : Buffer.t) : string :=
  match b with
  | [] => EmptyString
  | [x] =>
      String (base64_char (Z.shiftr x 2))
        (String (base64_char (Z.shiftl (Z.land x 3) 4)) "==")
  | [x; y] =>
      String (base64_char (Z.shiftr x 2))
        (String (base64_char (Z.lor (Z.shiftl (Z.land x 3) 4) (Z.shiftr y 4)))
           (String (base64_char (Z.shiftl (Z.land y 15) 2)) "="))
  | x :: y :: z :: r =>
      String (base64_char (Z.shiftr x 2))
        (String (base64_char (Z.lor (Z.shiftl (Z.land x 3) 4) (Z.shiftr y 4)))
           (String (base64_char (Z.lor (Z.shiftl (Z.land y 15) 2) (Z.shiftr z 6)))
              (String (base64_char (Z.land z 63)) (to_base64 r))))
  end.

End Node.

(* ================================================================== *)
(** * utils/encryption.js: AES-256-GCM and SHA-256 helpers *)
(* ================================================================== *)

Module Encryption.
Import Js.

Definition ALGORITHM : string := "aes-256-gcm".
Definition IV_LENGTH : nat := 12.
Definition AUTH_TAG_LENGTH : nat := 16.
Definition KEY_LENGTH : nat := 32.

Definition key_length_message : string :=
  "Key must be " ++ decimal KEY_LENGTH ++ " bytes ("
  ++ decimal (KEY_LENGTH * 8) ++ " bits)".

Definition AUTH_FAILED : string := "AUTH_FAILED: Decryption authentication failed".

Definition generateKey (e : Node.entropy) : Buffer.t * Node.entropy :=
  Node.randomBytes KEY_LENGTH e.

Definition generateIV (e : Node.entropy) : Buffer.t * Node.entropy :=
  Node.randomBytes IV_LENGTH e.

Record encrypted := Encrypted
  { encryptedData : Buffer.t; iv : Buffer.t; authTag : Buffer.t }.

Definition encryptFile (plainBuffer key : Buffer.t) (e : Node.entropy)
  : outcome encrypted * Node.entropy :=
  if negb (List.length key =? KEY_LENGTH)%nat then (Throw key_length_message, e)
  else
    let (iv, e') := generateIV e in
    (r <- Node.gcm_encrypt key iv plainBuffer ;;
     Ok (Encrypted (fst r) iv (snd r)), e').

Definition decryptFile (encryptedBuffer iv authTag key : Buffer.t)
  : outcome Buffer.t :=
  if negb (List.length key =? KEY_LENGTH)%nat then Throw key_length_message
  else
    _ <- Node.createDecipheriv key iv ;;
    _ <- Node.setAuthTag AUTH_TAG_LENGTH authTag ;;
    match Node.decipher_final key iv encryptedBuffer authTag with
    | Ok decryptedData => Ok decryptedData
    | Throw message =>
        if includes "Unsupported state" message || includes "auth" message
        then Throw AUTH_FAILED
        else Throw message
    end.

Definition encryptKey (fileKey masterKey : Buffer.t) (e : Node.entropy)
  : outcome encrypted * Node.entropy :=
  encryptFile fileKey masterKey e.

Definition decryptKey (encryptedKey iv authTag masterKey : Buffer.t)
  : outcome Buffer.t :=
  decryptFile encryptedKey iv authTag masterKey.

Definition calculateHash (buffer : Buffer.t) : string := Node.sha256_hex buffer.

Definition verifyIntegrity (buffer : Buffer.t) (expectedHash : string)
  : outcome bool :=
  let calculatedHash := calculateHash buffer in
  Node.timingSafeEqual (Buffer.of_hex calculatedHash) (Buffer.of_hex expectedHash).

End Encryption.

(* ================================================================== *)
(** * utils/keyDerivation.js: PBKDF2 key derivation and tokens *)
(* ================================================================== *)

Module KeyDerivation.

Definition SALT_LENGTH : nat := 32.
Definition KEY_LENGTH : nat := 32.
(** The iteration count is sealed: it is the number given here, and no
    reduction unrolls the hundred thousand rounds of a derivation. *)
Definition ITERATIONS_sealed : { n : nat | n = 100000%nat }.
Proof. exists 100000%nat. reflexivity. Qed.

Definition ITERATIONS : nat := proj1_sig ITERATIONS_sealed.

Definition generateSalt (e : Node.entropy) : string * Node.entropy :=
  let (b, e') := Node.randomBytes SALT_LENGTH e in (Buffer.to_hex b, e').

(** The password is hashed as the bytes of the string, the salt is
    decoded from its hexadecimal form. *)
Definition deriveKey (password salt : string) : Buffer.t :=
  Pbkdf2.pbkdf2_sha256 (Buffer.of_string password) (Buffer.of_hex salt)
                       ITERATIONS KEY_LENGTH.

Definition generateSecureToken (bytes : nat) (e : Node.entropy)
  : string * Node.entropy :=
  let (b, e') := Node.randomBytes bytes e in (Buffer.to_hex b, e').

(** [now] is the value of [Date.now()], in milliseconds. *)
Definition generateExpiringToken (expiryMinutes : Z) (now : Z) (e : Node.entropy)
  : (string * Z) * Node.entropy :=
  let (token, e') := generateSecureToken 32 e in
  ((token, now + expiryMinutes * 60 * 1000), e').

End KeyDerivation.

(* ================================================================== *)
(** * utils/keyExchange.js and the other collaborators of the controllers *)
(* ================================================================== *)

(** The libraries whose internals the controllers never look into: bcrypt,
    speakeasy (TOTP), RSA key generation and OAEP encryption, UUIDs, the QR
    code renderer and the e-mail pattern of the user schema.  The
    controllers are written over any implementation of them; those that
    draw random values take the random source and return what is left. *)
Module Runtime.

Record t := Make
  { (** [bcrypt.genSalt(12)] then [bcrypt.hash(password, salt)] *)
    bcrypt_hash : string -> Node.entropy -> string * Node.entropy;
    (** [bcrypt.compare(candidate, hash)] *)
    bcrypt_compare : string -> string -> bool;
    (** [speakeasy.generateSecret({ name, length: 20 }).base32] *)
    generateSecret : string -> Node.entropy -> string * Node.entropy;
    (** [speakeasy.totp.verify({ secret, encoding, token, window: 1 })] at
        a given time *)
    totp_verify : string -> string -> Z -> bool;
    (** [crypto.generateKeyPairSync('rsa', ...)]: public and private PEM *)
    generateKeyPairSync : Node.entropy -> (string * string) * Node.entropy;
    (** [crypto.publicEncrypt({ key, padding: OAEP, oaepHash }, data)] *)
    publicEncrypt : string -> Buffer.t -> Node.entropy
                    -> Js.outcome Buffer.t * Node.entropy;
    uuidv4 : Node.entropy -> string * Node.entropy;
    generateMFAQRCode : string -> string -> Js.outcome string;
    generateShareQRCode : string -> Js.outcome string;
    (** the [match] pattern of the e-mail field *)
    email_matches : string -> bool }.

End Runtime.

Module KeyExchange.
Import Js.

Record aes_payload := AesPayload { data : string; iv : string; authTag : string }.

Section WithRuntime.
Variable rt : Runtime.t.

Definition generateKeyPair (e : Node.entropy) : (string * string) * Node.entropy :=
  Runtime.generateKeyPairSync rt e.

(** RSA-OAEP under the given public key, in base64. *)
Definition encryptWithPublicKey (data : Buffer.t) (publicKeyPem : string)
  (e : Node.entropy) : outcome string * Node.entropy :=
  let (r, e') := Runtime.publicEncrypt rt publicKeyPem data e in
  (encrypted <- r ;; Ok (Node.to_base64 encrypted), e').

Definition encryptWithAES (data aesKey : Buffer.t) (e : Node.entropy)
  : outcome aes_payload * Node.entropy :=
  let (iv, e') := Node.randomBytes 12 e in
  (r <- Node.gcm_encrypt aesKey iv data ;;
   Ok (AesPayload (Buffer.to_hex (fst r)) (Buffer.to_hex iv) (Buffer.to_hex (snd r))),
   e').

Definition generateAESKey (e : Node.entropy) : Buffer.t * Node.entropy :=
  Node.randomBytes 32 e.

Record exchange := Exchange { encryptedFile : aes_payload; encryptedAESKey : string }.

Definition encryptForKeyExchange (fileData : Buffer.t) (guestPublicKey : string)
  (e : Node.entropy) : outcome exchange * Node.entropy :=
  let (aesKey, e1) := generateAESKey e in
  let (encryptedFile, e2) := encryptWithAES fileData aesKey e1 in
  match encryptedFile with
  | Throw msg => (Throw msg, e2)
  | Ok encryptedFile =>
      let (encryptedAESKey, e3) := encryptWithPublicKey aesKey guestPublicKey e2 in
      (k <- encryptedAESKey ;; Ok (Exchange encryptedFile k), e3)
  end.

End WithRuntime.
End KeyExchange.

(* ================================================================== *)
(** * models: User, File, AuditLog *)
(* ================================================================== *)

Module Role.

Inductive t := admin | premium | guest.

Definition eqb (a b : t) : bool :=
  match a, b with
  | admin, admin | premium, premium | guest, guest => true
  | _, _ => false
  end.

Definition name (r : t) : string :=
  match r with admin => "admin" | premium => "premium" | guest => "guest" end.

(** The role a registration is given: the requested one when it is one
    of the three role names, [guest] otherwise, also when none is sent. *)
Definition allowed (requested : option string) : t :=
  match requested with
  | None => guest
  | Some s =>
      if (s =? "admin")%string then admin
      else if (s =? "premium")%string then premium
      else guest
  end.

End Role.

Module User.

(** A document of the users collection.  Dates are milliseconds since the
    epoch.  Handles and e-mail addresses are taken in the normal form that
    the schema stores (trimmed, e-mail in lower case). *)
Record t := Make
  { _id : Z;
    username : string;
    email : string;
    password : string;
    role : Role.t;
    mfaSecret : string;
    mfaEnabled : bool;
    mfaVerified : bool;
    encryptionSalt : option string;
    ecdhPublicKey : option string;
    ecdhPrivateKey : option string;
    lastLogin : option Z;
    loginAttempts : Z;
    lockUntil : option Z;
    createdAt : Z;
    updatedAt : Z }.

Definition set_login (attempts : Z) (lock : option Z) (u : t) : t :=
  Make (_id u) (username u) (email u) (password u) (role u) (mfaSecret u)
       (mfaEnabled u) (mfaVerified u) (encryptionSalt u) (ecdhPublicKey u)
       (ecdhPrivateKey u) (lastLogin u) attempts lock (createdAt u) (updatedAt u).

Definition set_mfaVerified (v : bool) (u : t) : t :=
  Make (_id u) (username u) (email u) (password u) (role u) (mfaSecret u)
       (mfaEnabled u) v (encryptionSalt u) (ecdhPublicKey u)
       (ecdhPrivateKey u) (lastLogin u) (loginAttempts u) (lockUntil u)
       (createdAt u) (updatedAt u).

Definition set_lastLogin (d : Z) (u : t) : t :=
  Make (_id u) (username u) (email u) (password u) (role u) (mfaSecret u)
       (mfaEnabled u) (mfaVerified u) (encryptionSalt u) (ecdhPublicKey u)
       (ecdhPrivateKey u) (Some d) (loginAttempts u) (lockUntil u)
       (createdAt u) (updatedAt u).

(** The schema keeps [updatedAt] ([timestamps: true]). *)
Definition touch (now : Z) (u : t) : t :=
  Make (_id u) (username u) (email u) (password u) (role u) (mfaSecret u)
       (mfaEnabled u) (mfaVerified u) (encryptionSalt u) (ecdhPublicKey u)
       (ecdhPrivateKey u) (lastLogin u) (loginAttempts u) (lockUntil u)
       (createdAt u) now.

(** [isLocked]: a lock date is set and lies in the future. *)
Definition isLocked (this : t) (now : Z) : bool :=
  match lockUntil this with
  | Some l => now <? l
  | None => false
  end.

Definition LOCK_TIME : Z := 2 * 60 * 60 * 1000.

(** [incrementLoginAttempts]: the update sent to the collection for this
    document.  It is chosen from the document in memory ([this]) and is
    applied to the stored one: either [$set] the counter to 1 and [$unset]
    the lock, or [$inc] the counter and, from the fifth failure on, [$set]
    the lock. *)
Definition lock_expired (this : t) (now : Z) : bool :=
  match lockUntil this with
  | Some l => l <? now
  | None => false
  end.

Definition incrementLoginAttempts (this : t) (now : Z) : t -> t :=
  if lock_expired this now then set_login 1 None
  else
    fun stored =>
      set_login (loginAttempts stored + 1)
        (if loginAttempts this + 1 >=? 5 then Some (now + LOCK_TIME)
         else lockUntil stored) stored.

(** The validators of the schema that a registration can fail. *)
Definition valid (email_ok : string -> bool) (u : t) : bool :=
  (3 <=? String.length (username u))%nat && (String.length (username u) <=? 30)%nat
  && email_ok (email u) && (8 <=? String.length (password u))%nat.

End User.

Module AccessLevel.

Inductive t := vault | public.

Definition eqb (a b : t) : bool :=
  match a, b with
  | vault, vault | public, public => true
  | _, _ => false
  end.

(** The values the schema accepts. *)
Definition of_string (s : string) : option t :=
  if (s =? "vault")%string then Some vault
  else if (s =? "public")%string then Some public
  else None.

End AccessLevel.

Module File.

(** The stored form of the wrapped per-file key: the JSON text of an
    object with three hexadecimal fields, or a text that [JSON.parse]
    rejects. *)
Inductive key_json :=
| KeyJson (data iv authTag : string)
| NotJson (text : string).

(** A document of the files collection. *)
Record t := Make
  { _id : Z;
    originalName : string;
    mimeType : string;
    size : Z;
    encryptedPath : string;
    owner : Z;
    accessLevel : AccessLevel.t;
    iv : string;
    authTag : string;
    encryptedKey : key_json;
    fileSalt : option string;
    sha256Hash : string;
    keyExchangeEnabled : bool;
    ownerPublicKey : option string;
    shareToken : option string;
    shareExpiry : option Z;
    downloadCount : Z;
    description : string;
    isDeleted : bool;
    deletedAt : option Z;
    createdAt : Z;
    updatedAt : Z }.

Definition set_downloadCount (n : Z) (f : t) : t :=
  Make (_id f) (originalName f) (mimeType f) (size f) (encryptedPath f) (owner f)
       (accessLevel f) (iv f) (authTag f) (encryptedKey f) (fileSalt f)
       (sha256Hash f) (keyExchangeEnabled f) (ownerPublicKey f) (shareToken f)
       (shareExpiry f) n (description f) (isDeleted f) (deletedAt f)
       (createdAt f) (updatedAt f).

Definition set_share (token : option string) (expiry : option Z) (f : t) : t :=
  Make (_id f) (originalName f) (mimeType f) (size f) (encryptedPath f) (owner f)
       (accessLevel f) (iv f) (authTag f) (encryptedKey f) (fileSalt f)
       (sha256Hash f) (keyExchangeEnabled f) (ownerPublicKey f) token
       expiry (downloadCount f) (description f) (isDeleted f) (deletedAt f)
       (createdAt f) (updatedAt f).

Definition set_deleted (flag : bool) (at_ : option Z) (f : t) : t :=
  Make (_id f) (originalName f) (mimeType f) (size f) (encryptedPath f) (owner f)
       (accessLevel f) (iv f) (authTag f) (encryptedKey f) (fileSalt f)
       (sha256Hash f) (keyExchangeEnabled f) (ownerPublicKey f) (shareToken f)
       (shareExpiry f) (downloadCount f) (description f) flag at_
       (createdAt f) (updatedAt f).

(** The schema keeps [updatedAt] ([timestamps: true]): a [save] that
    changes the document sets it. *)
Definition touch (now : Z) (f : t) : t :=
  Make (_id f) (originalName f) (mimeType f) (size f) (encryptedPath f) (owner f)
       (accessLevel f) (iv f) (authTag f) (encryptedKey f) (fileSalt f)
       (sha256Hash f) (keyExchangeEnabled f) (ownerPublicKey f) (shareToken f)
       (shareExpiry f) (downloadCount f) (description f) (isDeleted f)
       (deletedAt f) (createdAt f) now.

(** The condition that the hook on the find family of queries adds:
    [{ isDeleted: { $ne: true } }]. *)
Definition pre_find (query : t -> bool) : t -> bool :=
  fun f => negb (isDeleted f) && query f.

End File.

Module AuditLog.

Inductive action :=
| LOGIN_SUCCESS | LOGIN_FAILED | LOGOUT | MFA_SETUP | MFA_VERIFIED | MFA_FAILED
| PASSWORD_CHANGE | ACCOUNT_LOCKED
| FILE_UPLOAD | FILE_DOWNLOAD | FILE_DELETE | FILE_SHARE | FILE_UNSHARE
| KEY_EXCHANGE_DOWNLOAD | INTEGRITY_CHECK_PASSED | INTEGRITY_CHECK_FAILED
| ACCESS_GRANTED | ACCESS_DENIED
| USER_CREATED | USER_DELETED | ROLE_CHANGED | SYSTEM_CONFIG_CHANGED.

Inductive status := SUCCESS | FAILED | DENIED | ERROR.

(** An event as the controllers emit it. *)
Record t := Make
  { actor : Z;
    actorUsername : string;
    actorRole : Role.t;
    act : action;
    target : string;
    targetType : string;
    outcome : status;
    details : list (string * string);
    ipAddress : string;
    userAgent : option string }.

Definition is_integrity_failure (e : t) : bool :=
  match act e with INTEGRITY_CHECK_FAILED => true | _ => false end.

End AuditLog.

(* ================================================================== *)
(** * The record store, the upload directory and the audit trail *)
(* ================================================================== *)

Module World.

(** What the controllers read and change: the two collections, the files
    of the upload directory by name, the audit events emitted so far, the
    password comparisons made so far, the random source and the next
    object identifier. *)
Record t := Make
  { users : list User.t;
    files : list File.t;
    uploads : list (string * Buffer.t);
    auditLog : list AuditLog.t;
    compared : list (string * string);
    random : Node.entropy;
    nextId : Z }.

Definition set_users (us : list User.t) (w : t) : t :=
  Make us (files w) (uploads w) (auditLog w) (compared w) (random w) (nextId w).

Definition set_files (fs : list File.t) (w : t) : t :=
  Make (users w) fs (uploads w) (auditLog w) (compared w) (random w) (nextId w).

Definition set_uploads (up : list (string * Buffer.t)) (w : t) : t :=
  Make (users w) (files w) up (auditLog w) (compared w) (random w) (nextId w).

Definition set_random (e : Node.entropy) (w : t) : t :=
  Make (users w) (files w) (uploads w) (auditLog w) (compared w) e (nextId w).

Definition fresh_id (w : t) : Z * t :=
  (nextId w,
   Make (users w) (files w) (uploads w) (auditLog w) (compared w) (random w)
        (nextId w + 1)).

(** [AuditLog.log(data)]: the event joins the trail; it never throws. *)
Definition log (e : AuditLog.t) (w : t) : t :=
  Make (users w) (files w) (uploads w) (auditLog w ++ [e]) (compared w)
       (random w) (nextId w).

(** A call of [bcrypt.compare(candidate, hash)] is recorded. *)
Definition note_compare (candidate hash : string) (w : t) : t :=
  Make (users w) (files w) (uploads w) (auditLog w)
       (compared w ++ [(candidate, hash)]) (random w) (nextId w).

(** ** Queries on the users collection *)

Definition User_findOne (q : User.t -> bool) (w : t) : option User.t :=
  find q (users w).

Definition User_findById (id : Z) (w : t) : option User.t :=
  User_findOne (fun u => User._id u =? id) w.

(** An update of the stored document with that identifier; the schema
    sets [updatedAt]. *)
Definition User_update (id : Z) (now : Z) (f : User.t -> User.t) (w : t) : t :=
  set_users
    (map (fun u => if User._id u =? id then User.touch now (f u) else u) (users w))
    w.

(** ** Queries on the files collection *)

(** The find family runs the hook of the schema first. *)
Definition File_find (q : File.t -> bool) (w : t) : list File.t :=
  filter (File.pre_find q) (files w).

Definition File_findOne (q : File.t -> bool) (w : t) : option File.t :=
  find (File.pre_find q) (files w).

Definition File_findById (id : Z) (w : t) : option File.t :=
  File_findOne (fun f => File._id f =? id) w.

(** [countDocuments] is not of the find family: no hook runs. *)
Definition File_countDocuments (q : File.t -> bool) (w : t) : nat :=
  List.length (filter q (files w)).

(** [doc.save()] on a loaded document whose fields were changed by [f]. *)
Definition File_save (id : Z) (now : Z) (f : File.t -> File.t) (w : t) : t :=
  set_files
    (map (fun d => if File._id d =? id then File.touch now (f d) else d) (files w))
    w.

(** ** The upload directory *)

Definition readFile (path : string) (w : t) : Js.outcome Buffer.t :=
  match find (fun p => (fst p =? path)%string) (uploads w) with
  | Some p => Js.Ok (snd p)
  | None => Js.Throw "ENOENT: no such file or directory"
  end.

Definition writeFile (path : string) (data : Buffer.t) (w : t) : t :=
  set_uploads
    ((path, data) :: filter (fun p => negb (fst p =? path)%string) (uploads w)) w.

(** [fs.unlink]: the failure on a missing file is caught by its caller,
    which goes on. *)
Definition unlink (path : string) (w : t) : t :=
  set_uploads (filter (fun p => negb (fst p =? path)%string) (uploads w)) w.

End World.

(* ================================================================== *)
(** * Requests and responses *)
(* ================================================================== *)

Module Http.

(** The address and user agent of the client, for the audit trail. *)
Record client := Client { ip : string; agent : option string }.

(** A session token: the payload that [jwt.sign] signs; [expires] is the
    time after which [jwt.verify] refuses it. *)
Record token := Token
  { id : Z; role : option Role.t; mfaPending : bool; expires : Z }.

Record file_info := FileInfo
  { file_id : Z; name : string; file_size : Z; file_mimeType : string }.

Record file_entry := FileEntry
  { entry : file_info;
    entry_accessLevel : AccessLevel.t;
    entry_owner : option string;
    isOwner : bool;
    entry_downloadCount : Z;
    entry_createdAt : Z }.

(** The [data] (or [integrity]) member of a JSON body. *)
Inductive data :=
| NoData
| Registered (userId : Z) (username email : string) (role : Role.t)
             (qrCode secret : string)
| MfaRequired (userId : Z)
| LoggedIn (userId : Z) (username email : string) (role : Role.t)
           (mfaEnabled : bool)
| Integrity (status reason : string)
| Uploaded (file : file_info) (accessLevel : AccessLevel.t) (createdAt : Z)
           (hashPrefix : string)
| Listing (files : list file_entry) (page limit : positive) (total : nat)
| ShareLink (shareUrl qrCode : string) (expiresAt : Z) (token : string)
| SharedFile (file : file_info) (owner : option string) (expiresAt : option Z)
| KeyExchanged (file : file_info) (encryptedFile : KeyExchange.aes_payload)
               (encryptedAESKey : string) (originalIv originalAuthTag : string)
               (sha256Hash : string).

Inductive body :=
| Json (success : bool) (message : string) (payload : data)
| Send (content : Buffer.t).

(** Cookies set ([Some]) or cleared ([None]) by the response. *)
Record response := Response
  { status : Z;
    headers : list (string * string);
    cookies : list (string * option token);
    content : body }.

Definition json (status : Z) (success : bool) (message : string) (payload : data)
  : response :=
  Response status [] [] (Json success message payload).

Definition fail (status : Z) (message : string) : response :=
  json status false message NoData.

Definition message_of (r : response) : option string :=
  match content r with
  | Json _ m _ => Some m
  | Send _ => None
  end.

End Http.

(* ================================================================== *)
(** * middleware/authMiddleware.js and middleware/aclMiddleware.js *)
(* ================================================================== *)

Module Middleware.
Import Http.

(** The outcome of a middleware: the response it sent, or the user it
    attached to the request before calling [next]. *)
Inductive gate :=
| Rejected (r : response)
| Next (user : User.t).

(** [verifyToken]: the access token of the cookie must verify, must not be
    an MFA-pending one, and must name a stored user who is not locked. *)
Definition verifyToken (accessToken : option token) (now : Z) (w : World.t) : gate :=
  match accessToken with
  | None => Rejected (fail 401 "Access denied. No token provided.")
  | Some t =>
      if expires t <=? now
      then Rejected (fail 401 "Token expired. Please login again.")
      else if mfaPending t
      then Rejected (fail 403 "MFA verification required.")
      else
        match World.User_findById (id t) w with
        | None => Rejected (fail 401 "User not found. Token invalid.")
        | Some user =>
            if User.isLocked user now
            then Rejected (fail 423 "Account is temporarily locked. Try again later.")
            else Next user
        end
  end.

(** [verifyMFAToken]: the MFA-pending token of the cookie. *)
Definition verifyMFAToken (mfaToken : option token) (now : Z) (w : World.t) : gate :=
  match mfaToken with
  | None => Rejected (fail 401 "MFA session expired. Please login again.")
  | Some t =>
      if expires t <=? now
      then Rejected (fail 401 "MFA session expired. Please login again.")
      else if negb (mfaPending t)
      then Rejected (fail 400 "Invalid MFA token.")
      else
        match World.User_findById (id t) w with
        | None => Rejected (fail 401 "User not found.")
        | Some user => Next user
        end
  end.

(** [verifyRole(allowedRoles)] for an authenticated user; the refusal is
    audited by [logDeniedAccess]. *)
Definition verifyRole (allowedRoles : list Role.t) (user : User.t) (c : client)
  (url : string) (w : World.t) : option response * World.t :=
  if existsb (Role.eqb (User.role user)) allowedRoles then (None, w)
  else
    (Some (fail 403 "You do not have permission to perform this action."),
     World.log
       (AuditLog.Make (User._id user) (User.username user) (User.role user)
          AuditLog.ACCESS_DENIED url "resource" AuditLog.DENIED
          [("status", "FORBIDDEN")]%string (ip c) (agent c)) w).

End Middleware.

(* ================================================================== *)
(** * controllers/authController.js *)
(* ================================================================== *)

Module AuthController.
Import Http.

(** The hash the login compares against when no account has the e-mail. *)
Definition DUMMY_HASH : string := "$2a$12$dummy.hash.to.prevent.timing.attacks".

Definition MFA_TOKEN_LIFE : Z := 5 * 60 * 1000.
Definition ACCESS_TOKEN_LIFE : Z := 24 * 60 * 60 * 1000.

Definition audit (user : User.t) (a : AuditLog.action) (s : AuditLog.status)
  (details : list (string * string)) (c : client) : AuditLog.t :=
  AuditLog.Make (User._id user) (User.username user) (User.role user) a
    (Js.decimal (Z.to_nat (User._id user))) "user" s details (ip c) (agent c).

Section WithRuntime.
Variable rt : Runtime.t.

(** The body of a registration request; [role] defaults to ['guest']. *)
Record registration := Registration
  { reg_username : option string;
    reg_email : option string;
    reg_password : option string;
    reg_role : option string }.

(** [register]: POST /api/auth/register. *)
Definition register (req : registration) (c : client) (now : Z) (w : World.t)
  : response * World.t :=
  match reg_username req, reg_email req, reg_password req with
  | Some (String _ _ as username), Some (String _ _ as email),
    Some (String _ _ as password) =>
      if (String.length password <? 8)%nat
      then (fail 400 "Password must be at least 8 characters long.", w)
      else
        match World.User_findOne
                (fun u => (User.email u =? email)%string
                          || (User.username u =? username)%string) w with
        | Some _ =>
            (fail 400 "User with this email or username already exists.", w)
        | None =>
            let (mfaSecret, e1) :=
              Runtime.generateSecret rt ("SecureFileShare:" ++ email)%string (World.random w) in
            let (encryptionSalt, e2) := KeyDerivation.generateSalt e1 in
            let (ecdhKeyPair, e3) := KeyExchange.generateKeyPair rt e2 in
            let w1 := World.set_random e3 w in
            let allowedRole := Role.allowed (reg_role req) in
            match
              (if Role.eqb allowedRole Role.admin
               then World.User_findOne (fun u => Role.eqb (User.role u) Role.admin) w1
               else None)
            with
            | Some _ =>
                (fail 400 "Admin account already exists. Only one admin is allowed.",
                 w1)
            | None =>
                let (id, w2) := World.fresh_id w1 in
                let doc :=
                  User.Make id username email password allowedRole mfaSecret
                    true false (Some encryptionSalt) (Some (fst ecdhKeyPair))
                    (Some (snd ecdhKeyPair)) None 0 None now now in
                if negb (User.valid (Runtime.email_matches rt) doc)
                then (fail 500 "Registration failed. Please try again.", w2)
                else
                  let (hash, e4) :=
                    Runtime.bcrypt_hash rt password (World.random w2) in
                  let user :=
                    User.Make id username email hash allowedRole mfaSecret
                      true false (Some encryptionSalt) (Some (fst ecdhKeyPair))
                      (Some (snd ecdhKeyPair)) None 0 None now now in
                  let w3 :=
                    World.set_users (World.users w2 ++ [user])
                                    (World.set_random e4 w2) in
                  match Runtime.generateMFAQRCode rt mfaSecret email with
                  | Js.Throw _ =>
                      (fail 500 "Registration failed. Please try again.", w3)
                  | Js.Ok qrCode =>
                      (json 201 true "Registration successful. Please set up MFA."
                         (Registered id username email allowedRole qrCode mfaSecret),
                       World.log
                         (audit user AuditLog.USER_CREATED AuditLog.SUCCESS [] c) w3)
                  end
            end
        end
  | _, _, _ => (fail 400 "Please provide username, email, and password.", w)
  end.

(** [login]: POST /api/auth/login, the password step. *)
Definition login (email password : option string) (c : client) (now : Z)
  (w : World.t) : response * World.t :=
  match email, password with
  | Some (String _ _ as email), Some (String _ _ as password) =>
      match World.User_findOne (fun u => (User.email u =? email)%string) w with
      | None =>
          (fail 401 "Invalid credentials.",
           World.note_compare password DUMMY_HASH w)
      | Some user =>
          if User.isLocked user now
          then
            (fail 423 "Account is temporarily locked. Try again later.",
             World.log
               (audit user AuditLog.LOGIN_FAILED AuditLog.DENIED
                  [("reason", "Account locked")]%string c) w)
          else
            let isMatch := Runtime.bcrypt_compare rt password (User.password user) in
            let w1 := World.note_compare password (User.password user) w in
            if negb isMatch
            then
              (fail 401 "Invalid credentials.",
               World.log
                 (audit user AuditLog.LOGIN_FAILED AuditLog.FAILED
                    [("reason", "Invalid password")]%string c)
                 (World.User_update (User._id user) now
                    (User.incrementLoginAttempts user now) w1))
            else
              (Response 200 []
                 [("mfaToken"%string,
                   Some (Token (User._id user) None true (now + MFA_TOKEN_LIFE)))]
                 (Json true "Password verified. Please enter MFA code."
                       (MfaRequired (User._id user))),
               w1)
      end
  | _, _ => (fail 400 "Please provide email and password.", w)
  end.

(** [verifyMFA]: POST /api/auth/verify-mfa, after [verifyMFAToken] has put
    the account of the pending token in [user]. *)
Definition verifyMFA (token : option string) (user : User.t) (c : client)
  (now : Z) (w : World.t) : response * World.t :=
  match token with
  | Some (String _ _ as token) =>
      if negb (Runtime.totp_verify rt (User.mfaSecret user) token now)
      then
        (fail 401 "Invalid MFA code. Please try again.",
         World.log (audit user AuditLog.MFA_FAILED AuditLog.FAILED [] c) w)
      else
        let w1 :=
          if negb (User.mfaVerified user)
          then
            World.log (audit user AuditLog.MFA_SETUP AuditLog.SUCCESS [] c)
              (World.User_update (User._id user) now (User.set_mfaVerified true) w)
          else w in
        let reset :=
          if User.loginAttempts user >? 0 then User.set_login 0 None
          else fun stored => stored in
        let w2 :=
          World.User_update (User._id user) now
            (fun stored => User.set_lastLogin now (reset stored)) w1 in
        (Response 200 []
           [("mfaToken"%string, None);
            ("accessToken"%string,
             Some (Token (User._id user) (Some (User.role user)) false
                         (now + ACCESS_TOKEN_LIFE)))]
           (Json true "Login successful."
                 (LoggedIn (User._id user) (User.username user) (User.email user)
                           (User.role user) (User.mfaEnabled user))),
         World.log (audit user AuditLog.LOGIN_SUCCESS AuditLog.SUCCESS [] c) w2)
  | _ => (fail 400 "Please provide MFA token.", w)
  end.

(** The route [POST /verify-mfa]: the middleware, then the controller. *)
Definition verify_mfa_route (mfaToken : option token) (code : option string)
  (c : client) (now : Z) (w : World.t) : response * World.t :=
  match Middleware.verifyMFAToken mfaToken now w with
  | Middleware.Rejected r => (r, w)
  | Middleware.Next user => verifyMFA code user c now w
  end.

End WithRuntime.
End AuthController.

(* ================================================================== *)
(** * controllers/fileController.js *)
(* ================================================================== *)

Module FileController.
Import Http.

Definition FRONTEND_URL : string := "http://localhost:5173".

Definition audit (user : User.t) (a : AuditLog.action) (file : File.t)
  (s : AuditLog.status) (details : list (string * string)) (c : client)
  : AuditLog.t :=
  AuditLog.Make (User._id user) (User.username user) (User.role user) a
    (Js.decimal (Z.to_nat (File._id file))) "file" s details (ip c) (agent c).

Definition info (f : File.t) : file_info :=
  FileInfo (File._id f) (File.originalName f) (File.size f) (File.mimeType f).

(** Owner or administrator. *)
Definition owner_or_admin (user : User.t) (file : File.t) : bool :=
  Role.eqb (User.role user) Role.admin || (File.owner file =? User._id user).

(** The multipart file of an upload request. *)
Record upload := Upload
  { originalname : string; mimetype : string; upload_size : Z; buffer : Buffer.t }.

(** The validators of the file schema that a new document can fail. *)
Definition valid (originalName mimeType description : string) : bool :=
  negb (originalName =? EmptyString)%string
  && negb (mimeType =? EmptyString)%string
  && (String.length description <=? 500)%nat.

Definition quote : string := String (ascii_of_nat 34) EmptyString.

(** The headers of a successful download. *)
Definition download_headers (file : File.t) : list (string * string) :=
  [ ("Content-Type", File.mimeType file);
    ("Content-Disposition",
     "attachment; filename=" ++ quote ++ File.originalName file ++ quote);
    ("X-Integrity-Status", "PASSED");
    ("X-Encryption-Algorithm", "AES-256-GCM") ]%string.

Section WithRuntime.
Variable rt : Runtime.t.

(** [uploadFile]: POST /api/files/upload. *)
Definition uploadFile (file : option upload) (accessLevel description : option string)
  (body_password header_password : option string) (user : User.t) (c : client)
  (now : Z) (w : World.t) : response * World.t :=
  match file with
  | None => (fail 400 "No file uploaded.", w)
  | Some file =>
      match World.User_findById (User._id user) w with
      | None => (fail 500 "File upload failed.", w)
      | Some account =>
          if negb (Js.truthy (User.encryptionSalt account))
          then (fail 500 "User encryption not configured.", w)
          else
            let sha256Hash := Encryption.calculateHash (buffer file) in
            let (fileKey, e1) := Encryption.generateKey (World.random w) in
            let (encryptedFile, e2) := Encryption.encryptFile (buffer file) fileKey e1 in
            match encryptedFile with
            | Js.Throw _ => (fail 500 "File upload failed.", World.set_random e2 w)
            | Js.Ok encryptedFile =>
                match Js.or_else body_password header_password with
                | Some (String _ _ as userPassword) =>
                    let (fileSalt, e3) := KeyDerivation.generateSalt e2 in
                    let masterKey := KeyDerivation.deriveKey userPassword fileSalt in
                    let (encryptedKeyData, e4) :=
                      Encryption.encryptKey fileKey masterKey e3 in
                    match encryptedKeyData with
                    | Js.Throw _ =>
                        (fail 500 "File upload failed.", World.set_random e4 w)
                    | Js.Ok encryptedKeyData =>
                        let (uuid, e5) := Runtime.uuidv4 rt e4 in
                        let encryptedFilename := (uuid ++ ".enc")%string in
                        let w1 :=
                          World.writeFile encryptedFilename
                            (Encryption.encryptedData encryptedFile)
                            (World.set_random e5 w) in
                        let description :=
                          match description with Some d => d | None => EmptyString end in
                        match AccessLevel.of_string
                                (match accessLevel with
                                 | Some a => a
                                 | None => "vault"%string
                                 end) with
                        | None => (fail 500 "File upload failed.", w1)
                        | Some level =>
                            if negb (valid (originalname file) (mimetype file) description)
                            then (fail 500 "File upload failed.", w1)
                            else
                              let (id, w2) := World.fresh_id w1 in
                              let doc :=
                                File.Make id (originalname file) (mimetype file)
                                  (upload_size file) encryptedFilename (User._id user)
                                  level
                                  (Buffer.to_hex (Encryption.iv encryptedFile))
                                  (Buffer.to_hex (Encryption.authTag encryptedFile))
                                  (File.KeyJson
                                     (Buffer.to_hex
                                        (Encryption.encryptedData encryptedKeyData))
                                     (Buffer.to_hex (Encryption.iv encryptedKeyData))
                                     (Buffer.to_hex
                                        (Encryption.authTag encryptedKeyData)))
                                  (Some fileSalt) sha256Hash true
                                  (User.ecdhPublicKey user) None None 0 description
                                  false None now now in
                              (json 201 true "File uploaded and encrypted successfully."
                                 (Uploaded (info doc) level now
                                    (String.substring 0 16 sha256Hash ++ "...")%string),
                               World.log
                                 (audit user AuditLog.FILE_UPLOAD doc AuditLog.SUCCESS
                                    [("filename", originalname file);
                                     ("algorithm", "AES-256-GCM")]%string c)
                                 (World.set_files (World.files w2 ++ [doc]) w2))
                        end
                    end
                | _ => (fail 400 "Encryption password required.", World.set_random e2 w)
                end
            end
      end
  end.

(** The salt of the key derivation: the salt of the file, else the salt
    of the account of the owner, else none. *)
Definition resolve_salt (file : File.t) (w : World.t) : option string :=
  if Js.truthy (File.fileSalt file) then File.fileSalt file
  else
    match World.User_findById (File.owner file) w with
    | Some owner =>
        if Js.truthy (User.encryptionSalt owner) then User.encryptionSalt owner
        else None
    | None => None
    end.

(** [downloadFile]: POST /api/files/:id/download, the password path. *)
Definition downloadFile (id : Z) (body_password header_password : option string)
  (user : User.t) (c : client) (now : Z) (w : World.t) : response * World.t :=
  match World.File_findById id w with
  | None => (fail 404 "File not found.", w)
  | Some file =>
      if AccessLevel.eqb (File.accessLevel file) AccessLevel.vault
         && negb (owner_or_admin user file)
      then (fail 403 "Access denied.", w)
      else
        match Js.or_else body_password header_password with
        | Some (String _ _ as userPassword) =>
            match resolve_salt file w with
            | None => (fail 500 "File encryption metadata missing.", w)
            | Some saltToUse =>
                let masterKey := KeyDerivation.deriveKey userPassword saltToUse in
                match File.encryptedKey file with
                | File.NotJson _ => (fail 500 "File download failed.", w)
                | File.KeyJson data iv authTag =>
                    match Encryption.decryptKey (Buffer.of_hex data) (Buffer.of_hex iv)
                            (Buffer.of_hex authTag) masterKey with
                    | Js.Throw _ => (fail 401 "Invalid decryption password.", w)
                    | Js.Ok fileKey =>
                        match World.readFile (File.encryptedPath file) w with
                        | Js.Throw _ => (fail 500 "File download failed.", w)
                        | Js.Ok encryptedData =>
                            match Encryption.decryptFile encryptedData
                                    (Buffer.of_hex (File.iv file))
                                    (Buffer.of_hex (File.authTag file)) fileKey with
                            | Js.Throw _ =>
                                (json 500 false
                                   "File integrity check failed. File may be corrupted."
                                   (Integrity "FAILED" "Encryption authentication failed"),
                                 World.log
                                   (audit user AuditLog.INTEGRITY_CHECK_FAILED file
                                      AuditLog.FAILED
                                      [("reason", "GCM authentication failed")]%string c)
                                   w)
                            | Js.Ok decryptedData =>
                                match Encryption.verifyIntegrity decryptedData
                                        (File.sha256Hash file) with
                                | Js.Throw _ => (fail 500 "File download failed.", w)
                                | Js.Ok integrityPassed =>
                                    let w1 :=
                                      World.log
                                        (audit user
                                           (if integrityPassed
                                            then AuditLog.INTEGRITY_CHECK_PASSED
                                            else AuditLog.INTEGRITY_CHECK_FAILED) file
                                           (if integrityPassed then AuditLog.SUCCESS
                                            else AuditLog.FAILED) [] c) w in
                                    if negb integrityPassed
                                    then
                                      (json 500 false
                                         "File integrity check failed. File has been tampered with."
                                         (Integrity "FAILED" "SHA-256 hash mismatch"),
                                       w1)
                                    else
                                      let w2 :=
                                        World.File_save (File._id file) now
                                          (File.set_downloadCount
                                             (File.downloadCount file + 1)) w1 in
                                      (Response 200
                                         (download_headers file)
                                         [] (Send decryptedData),
                                       World.log
                                         (audit user AuditLog.FILE_DOWNLOAD file
                                            AuditLog.SUCCESS
                                            [("filename", File.originalName file)]%string
                                            c) w2)
                                end
                            end
                        end
                    end
                end
            end
        | _ => (fail 400 "Decryption password required.", w)
        end
  end.

(** Documents by decreasing creation date (the order of equal dates is
    that of the collection). *)
Fixpoint insert_by_date (f : File.t) (l : list File.t) : list File.t :=
  match l with
  | [] => [f]
  | g :: r =>
      if File.createdAt g <? File.createdAt f then f :: l
      else g :: insert_by_date f r
  end.

Definition sort_newest_first (l : list File.t) : list File.t :=
  fold_right insert_by_date [] l.

(** The query of a listing, by role; [accessLevel] is honoured for an
    administrator only. *)
Definition listing_query (user : User.t) (accessLevel : option string)
  : File.t -> bool :=
  match User.role user with
  | Role.admin =>
      match accessLevel with
      | Some (String _ _ as a) =>
          fun f =>
            match AccessLevel.of_string a with
            | Some l => AccessLevel.eqb (File.accessLevel f) l
            | None => false
            end
      | _ => fun _ => true
      end
  | Role.premium =>
      fun f => (File.owner f =? User._id user)
               || AccessLevel.eqb (File.accessLevel f) AccessLevel.public
  | Role.guest => fun f => AccessLevel.eqb (File.accessLevel f) AccessLevel.public
  end.

Definition entry_of (user : User.t) (w : World.t) (f : File.t) : file_entry :=
  let owner := World.User_findById (File.owner f) w in
  FileEntry (info f) (File.accessLevel f) (option_map User.username owner)
    (match owner with
     | Some o => User._id o =? User._id user
     | None => false
     end)
    (File.downloadCount f) (File.createdAt f).

(** [getFiles]: GET /api/files.  The page and the page size are positive
    numbers. *)
Definition getFiles (accessLevel : option string) (page limit : positive)
  (user : User.t) (w : World.t) : response * World.t :=
  let query := listing_query user accessLevel in
  let files :=
    firstn (Pos.to_nat limit)
      (skipn ((Pos.to_nat page - 1) * Pos.to_nat limit)
         (sort_newest_first (World.File_find query w))) in
  let total := World.File_countDocuments query w in
  (json 200 true EmptyString
     (Listing (map (entry_of user w) files) page limit total), w).

(** [shareFile]: POST /api/files/:id/share. *)
Definition shareFile (id : Z) (expiryMinutes : option Z) (user : User.t)
  (c : client) (now : Z) (w : World.t) : response * World.t :=
  match World.File_findById id w with
  | None => (fail 404 "File not found.", w)
  | Some file =>
      if negb (owner_or_admin user file) then (fail 403 "Access denied.", w)
      else
        let minutes :=
          match expiryMinutes with
          | Some m => if m =? 0 then 60 else m
          | None => 60
          end in
        let '((token, expiry), e') :=
          KeyDerivation.generateExpiringToken minutes now (World.random w) in
        let w1 :=
          World.File_save (File._id file) now
            (File.set_share (Some token) (Some expiry)) (World.set_random e' w) in
        let shareUrl := (FRONTEND_URL ++ "/share/" ++ token)%string in
        match Runtime.generateShareQRCode rt shareUrl with
        | Js.Throw _ => (fail 500 "Failed to generate share link.", w1)
        | Js.Ok qrCode =>
            (json 200 true "Share link generated successfully."
               (ShareLink shareUrl qrCode expiry token),
             World.log
               (audit user AuditLog.FILE_SHARE file AuditLog.SUCCESS
                  [("filename", File.originalName file)]%string c) w1)
        end
  end.

(** [deleteFile]: DELETE /api/files/:id. *)
Definition deleteFile (id : Z) (user : User.t) (c : client) (now : Z)
  (w : World.t) : response * World.t :=
  match World.File_findById id w with
  | None => (fail 404 "File not found.", w)
  | Some file =>
      if negb (owner_or_admin user file) then (fail 403 "Access denied.", w)
      else
        let w1 :=
          World.File_save (File._id file) now (File.set_deleted true (Some now)) w in
        let w2 := World.unlink (File.encryptedPath file) w1 in
        (json 200 true "File deleted successfully." NoData,
         World.log
           (audit user AuditLog.FILE_DELETE file AuditLog.SUCCESS
              [("filename", File.originalName file)]%string c) w2)
  end.

(** [getSharedFile]: GET /api/files/share/:token, without authentication. *)
Definition getSharedFile (token : string) (now : Z) (w : World.t)
  : response * World.t :=
  match World.File_findOne
          (fun f =>
             match File.shareToken f, File.shareExpiry f with
             | Some t, Some expiry => (t =? token)%string && (now <? expiry)
             | _, _ => false
             end) w with
  | None => (fail 404 "Share link expired or invalid.", w)
  | Some file =>
      (json 200 true EmptyString
         (SharedFile (info file)
            (option_map User.username (World.User_findById (File.owner file) w))
            (File.shareExpiry file)), w)
  end.

(** [keyExchangeDownload]: POST /api/files/:id/key-exchange. *)
Definition keyExchangeDownload (id : Z) (guestPublicKey : option string)
  (user : User.t) (c : client) (now : Z) (w : World.t) : response * World.t :=
  match guestPublicKey with
  | Some (String _ _ as guestPublicKey) =>
      match World.File_findById id w with
      | None => (fail 404 "File not found.", w)
      | Some file =>
          if negb (File.keyExchangeEnabled file)
          then
            (fail 400
               "Key exchange not available for this file. Use password-based download.",
             w)
          else
            match World.readFile (File.encryptedPath file) w with
            | Js.Throw msg =>
                (fail 500 ("Key exchange download failed: " ++ msg)%string, w)
            | Js.Ok encryptedData =>
                let (result, e') :=
                  KeyExchange.encryptForKeyExchange rt encryptedData guestPublicKey
                    (World.random w) in
                let w1 := World.set_random e' w in
                match result with
                | Js.Throw msg =>
                    (fail 500 ("Key exchange download failed: " ++ msg)%string, w1)
                | Js.Ok result =>
                    let w2 :=
                      World.log
                        (audit user AuditLog.KEY_EXCHANGE_DOWNLOAD file AuditLog.SUCCESS
                           [("filename", File.originalName file);
                            ("method", "RSA-2048-OAEP + AES-256-GCM")]%string c) w1 in
                    let w3 :=
                      World.File_save (File._id file) now
                        (File.set_downloadCount (File.downloadCount file + 1)) w2 in
                    (json 200 true
                       "Key exchange successful. File encrypted with RSA-exchanged key."
                       (KeyExchanged (info file)
                          (KeyExchange.encryptedFile result)
                          (KeyExchange.encryptedAESKey result)
                          (File.iv file) (File.authTag file) (File.sha256Hash file)),
                     w3)
                end
            end
      end
  | _ => (fail 400 "Guest public key is required for key exchange.", w)
  end.

End WithRuntime.
End FileController.

(* ================================================================== *)
(** * routes/fileRoutes.js: the file endpoints behind their middleware *)
(* ================================================================== *)

Module FileRoutes.
Import Http.

Section WithRuntime.
Variable rt : Runtime.t.

(** Every route below [router.use(verifyToken)] starts with it. *)
Definition authenticated (accessToken : option token) (now : Z) (w : World.t)
  (k : User.t -> response * World.t) : response * World.t :=
  match Middleware.verifyToken accessToken now w with
  | Middleware.Rejected r => (r, w)
  | Middleware.Next user => k user
  end.

Definition with_role (allowedRoles : list Role.t) (user : User.t) (c : client)
  (url : string) (w : World.t) (k : World.t -> response * World.t)
  : response * World.t :=
  match Middleware.verifyRole allowedRoles user c url w with
  | (Some r, w') => (r, w')
  | (None, w') => k w'
  end.

(** [router.post('/:id/download', downloadFile)] *)
Definition post_download (accessToken : option token) (id : Z)
  (body_password header_password : option string) (c : client) (now : Z)
  (w : World.t) : response * World.t :=
  authenticated accessToken now w
    (fun user =>
       FileController.downloadFile id body_password header_password user c now w).

(** [router.post('/:id/key-exchange', keyExchangeDownload)] *)
Definition post_key_exchange (accessToken : option token) (id : Z)
  (guestPublicKey : option string) (c : client) (now : Z) (w : World.t)
  : response * World.t :=
  authenticated accessToken now w
    (fun user => FileController.keyExchangeDownload rt id guestPublicKey user c now w).

(** [router.post('/:id/share', verifyRole(['admin', 'premium']), shareFile)] *)
Definition post_share (accessToken : option token) (id : Z)
  (expiryMinutes : option Z) (c : client) (now : Z) (w : World.t)
  : response * World.t :=
  authenticated accessToken now w
    (fun user =>
       with_role [Role.admin; Role.premium] user c "/api/files/share" w
         (fun w' => FileController.shareFile rt id expiryMinutes user c now w')).

(** [router.delete('/:id', verifyRole(['admin', 'premium']), deleteFile)] *)
Definition delete_file (accessToken : option token) (id : Z) (c : client)
  (now : Z) (w : World.t) : response * World.t :=
  authenticated accessToken now w
    (fun user =>
       with_role [Role.admin; Role.premium] user c "/api/files" w
         (fun w' => FileController.deleteFile id user c now w')).

(** [router.get('/', getFiles)] *)
Definition get_files (accessToken : option token) (accessLevel : option string)
  (page limit : positive) (now : Z) (w : World.t) : response * World.t :=
  authenticated accessToken now w
    (fun user => FileController.getFiles accessLevel page limit user w).

End WithRuntime.
End FileRoutes.

(* ================================================================== *)
(** * Answers with a profile, a public key or a role change *)
(* ================================================================== *)

Module Reply.

(** The [data] member of the answers of the profile and administration
    endpoints. *)
Inductive data :=
| Profile (id : Z) (username email : string) (role : Role.t) (mfaEnabled : bool)
          (createdAt : Z) (lastLogin : option Z)
| PublicKey (userId : Z) (username publicKey : string)
| RoleChanged (userId : Z) (username : string) (oldRole newRole : Role.t).

(** An answer: one of the plain ones, or a success with such a [data]
    member and, for some, a message. *)
Inductive t :=
| Plain (r : Http.response)
| Data (status : Z) (message : option string) (payload : data).

Definition status (r : t) : Z :=
  match r with
  | Plain p => Http.status p
  | Data s _ _ => s
  end.

End Reply.

(* ================================================================== *)
(** * middleware/authMiddleware.js: optional authentication *)
(* ================================================================== *)

Module AuthMiddleware.
Import Http.

(** [optionalAuth]: the user attached to the request, if any; the request
    always goes on.  A token that does not verify makes [jwt.verify] throw,
    which is caught. *)
Definition optionalAuth (accessToken : option token) (now : Z) (w : World.t)
  : option User.t :=
  match accessToken with
  | None => None
  | Some t =>
      if expires t <=? now then None
      else if mfaPending t then None
      else
        match World.User_findById (id t) w with
        | Some user => if User.isLocked user now then None else Some user
        | None => None
        end
  end.

End AuthMiddleware.

(* ================================================================== *)
(** * middleware/aclMiddleware.js: the access control matrix *)
(* ================================================================== *)

Module Acl.
Import Http.

(** The resources of [ACL_RULES] and the actions on them. *)
Inductive resource :=
| system_logs | encrypted_vault | public_repository | user_management | own_profile.

Inductive action := read | write | delete.

Definition resource_name (r : resource) : string :=
  match r with
  | system_logs => "system-logs"
  | encrypted_vault => "encrypted-vault"
  | public_repository => "public-repository"
  | user_management => "user-management"
  | own_profile => "own-profile"
  end.

Definition action_name (a : action) : string :=
  match a with read => "read" | write => "write" | delete => "delete" end.

Definition ACL_RULES (r : resource) (a : action) : list Role.t :=
  match r, a with
  | system_logs, _ => [Role.admin]
  | encrypted_vault, _ => [Role.admin; Role.premium]
  | public_repository, read => [Role.admin; Role.premium; Role.guest]
  | public_repository, write => [Role.admin; Role.premium]
  | public_repository, delete => [Role.admin]
  | user_management, _ => [Role.admin]
  | own_profile, read => [Role.admin; Role.premium; Role.guest]
  | own_profile, write => [Role.admin; Role.premium; Role.guest]
  | own_profile, delete => []
  end.

(** What the middleware reads of a request besides its user. *)
Record request := Request
  { originalUrl : string;
    method : string;
    body_keys : list string;
    from : client }.

(** [logDeniedAccess].  Without a user the document has no [actor], which
    the audit schema requires, and its role is ['none'], which the schema
    does not list: [AuditLog.log] catches the validation error and nothing is
    recorded. *)
Definition logDeniedAccess (user : option User.t) (req : request) (reason : string)
  (w : World.t) : World.t :=
  match user with
  | None => w
  | Some u =>
      World.log
        (AuditLog.Make (User._id u)
           (match User.username u with
            | EmptyString => "Anonymous"
            | name => name
            end)
           (User.role u) AuditLog.ACCESS_DENIED (originalUrl req) "resource"
           AuditLog.DENIED
           [("reason", reason); ("method", method req);
            ("body", String.concat "," (body_keys req))]%string
           (ip (from req)) (agent (from req))) w
  end.

Definition denied : response :=
  fail 403 "You do not have permission to perform this action.".

(** [verifyRole(allowedRoles)], also for a request without a user. *)
Definition verifyRole (allowedRoles : list Role.t) (user : option User.t)
  (req : request) (w : World.t) : option response * World.t :=
  match user with
  | None =>
      (Some (fail 401 "Authentication required."),
       logDeniedAccess None req "No user session" w)
  | Some u =>
      if existsb (Role.eqb (User.role u)) allowedRoles then (None, w)
      else
        (Some denied,
         logDeniedAccess user req
           ("Role " ++ Role.name (User.role u) ++ " not in "
            ++ String.concat "," (map Role.name allowedRoles)) w)
  end.

(** [verifyResourceAccess(resource, action)] for a resource of the table. *)
Definition verifyResourceAccess (r : resource) (a : action) (user : option User.t)
  (req : request) (w : World.t) : option response * World.t :=
  match user with
  | None =>
      (Some (fail 401 "Authentication required."),
       logDeniedAccess None req
         ("Unauthenticated access to " ++ resource_name r) w)
  | Some u =>
      if existsb (Role.eqb (User.role u)) (ACL_RULES r a) then (None, w)
      else
        (Some denied,
         logDeniedAccess user req (action_name a ++ " on " ++ resource_name r) w)
  end.

(** [verifyOwnership(getOwnerId)]; [ownerId] is what [getOwnerId(req)]
    resolves to, asked for only when the user is no administrator. *)
Definition verifyOwnership (ownerId : option Z) (user : option User.t)
  (req : request) (w : World.t) : option response * World.t :=
  match user with
  | None => (Some (fail 401 "Authentication required."), w)
  | Some u =>
      if Role.eqb (User.role u) Role.admin then (None, w)
      else
        match ownerId with
        | None => (Some (fail 404 "Resource not found."), w)
        | Some owner =>
            if negb (User._id u =? owner)
            then
              (Some (fail 403 "You do not have permission to access this resource."),
               logDeniedAccess user req "Not owner of resource" w)
            else (None, w)
        end
  end.

End Acl.

(* ================================================================== *)
(** * controllers/authController.js: profile, logout, public key *)
(* ================================================================== *)

Module AuthProfile.
Import Http.

(** [getMe]: GET /api/auth/me, for the user that [verifyToken] attached. *)
Definition getMe (user : User.t) : Reply.t :=
  Reply.Data 200 None
    (Reply.Profile (User._id user) (User.username user) (User.email user)
       (User.role user) (User.mfaEnabled user) (User.createdAt user)
       (User.lastLogin user)).

(** [logout]: POST /api/auth/logout.  The event is recorded and the two
    cookies are cleared. *)
Definition logout (user : User.t) (c : client) (w : World.t) : response * World.t :=
  (Response 200 []
     [("accessToken"%string, None); ("mfaToken"%string, None)]
     (Json true "Logged out successfully." NoData),
   World.log (AuthController.audit user AuditLog.LOGOUT AuditLog.SUCCESS [] c) w).

(** [getPublicKey]: GET /api/auth/public-key/:userId. *)
Definition getPublicKey (userId : Z) (w : World.t) : Reply.t :=
  match World.User_findById userId w with
  | Some user =>
      match User.ecdhPublicKey user with
      | Some (String _ _ as key) =>
          Reply.Data 200 None (Reply.PublicKey (User._id user) (User.username user) key)
      | _ => Reply.Plain (fail 404 "User public key not found.")
      end
  | None => Reply.Plain (fail 404 "User public key not found.")
  end.

(** The routes: [verifyToken], then the controller. *)
Definition get_me (accessToken : option token) (now : Z) (w : World.t) : Reply.t :=
  match Middleware.verifyToken accessToken now w with
  | Middleware.Rejected r => Reply.Plain r
  | Middleware.Next user => getMe user
  end.

Definition post_logout (accessToken : option token) (c : client) (now : Z)
  (w : World.t) : response * World.t :=
  match Middleware.verifyToken accessToken now w with
  | Middleware.Rejected r => (r, w)
  | Middleware.Next user => logout user c w
  end.

Definition get_public_key (accessToken : option token) (userId : Z) (now : Z)
  (w : World.t) : Reply.t :=
  match Middleware.verifyToken accessToken now w with
  | Middleware.Rejected r => Reply.Plain r
  | Middleware.Next _ => getPublicKey userId w
  end.

End AuthProfile.

(* ================================================================== *)
(** * controllers/adminController.js: roles and locks *)
(* ================================================================== *)

Module AdminController.
Import Http.

(** [['admin', 'premium', 'guest'].includes(role)], with the role. *)
Definition role_of (role : option string) : option Role.t :=
  match role with
  | None => None
  | Some s =>
      if (s =? "admin")%string then Some Role.admin
      else if (s =? "premium")%string then Some Role.premium
      else if (s =? "guest")%string then Some Role.guest
      else None
  end.

Definition set_role (r : Role.t) (u : User.t) : User.t :=
  User.Make (User._id u) (User.username u) (User.email u) (User.password u) r
    (User.mfaSecret u) (User.mfaEnabled u) (User.mfaVerified u)
    (User.encryptionSalt u) (User.ecdhPublicKey u) (User.ecdhPrivateKey u)
    (User.lastLogin u) (User.loginAttempts u) (User.lockUntil u)
    (User.createdAt u) (User.updatedAt u).

Definition audit (actor : User.t) (a : AuditLog.action) (target : User.t)
  (details : list (string * string)) (c : client) : AuditLog.t :=
  AuditLog.Make (User._id actor) (User.username actor) (User.role actor) a
    (Js.decimal (Z.to_nat (User._id target))) "user" AuditLog.SUCCESS details
    (ip c) (agent c).

(** [updateUserRole]: PUT /api/admin/users/:id/role.  A [save] that changes
    no field sends nothing to the collection. *)
Definition updateUserRole (id : Z) (role : option string) (actor : User.t)
  (c : client) (now : Z) (w : World.t) : Reply.t * World.t :=
  match role_of role with
  | None => (Reply.Plain (fail 400 "Invalid role specified."), w)
  | Some newRole =>
      match World.User_findById id w with
      | None => (Reply.Plain (fail 404 "User not found."), w)
      | Some user =>
          let oldRole := User.role user in
          let w1 :=
            if Role.eqb oldRole newRole then w
            else World.User_update (User._id user) now (set_role newRole) w in
          (Reply.Data 200 (Some "User role updated successfully."%string)
             (Reply.RoleChanged (User._id user) (User.username user) oldRole newRole),
           World.log
             (audit actor AuditLog.ROLE_CHANGED user
                [("username", User.username user); ("oldRole", Role.name oldRole);
                 ("newRole", Role.name newRole)]%string c) w1)
      end
  end.

(** [unlockUser]: POST /api/admin/users/:id/unlock.  The event has the
    action ['ACCOUNT_LOCKED'] and says ['unlocked'] in its details. *)
Definition unlockUser (id : Z) (actor : User.t) (c : client) (now : Z)
  (w : World.t) : Reply.t * World.t :=
  match World.User_findById id w with
  | None => (Reply.Plain (fail 404 "User not found."), w)
  | Some user =>
      let unchanged :=
        (User.loginAttempts user =? 0)
        && match User.lockUntil user with None => true | Some _ => false end in
      let w1 :=
        if unchanged then w
        else World.User_update (User._id user) now (User.set_login 0 None) w in
      (Reply.Plain (json 200 true "User account unlocked successfully." NoData),
       World.log
         (audit actor AuditLog.ACCOUNT_LOCKED user
            [("action", "unlocked"); ("username", User.username user)]%string c) w1)
  end.

End AdminController.

(* ================================================================== *)
(** * routes/adminRoutes.js *)
(* ================================================================== *)

Module AdminRoutes.
Import Http.

(** [router.use(verifyToken)], [router.use(verifyRole(['admin']))], then
    the check of the route on a resource, then the controller. *)
Definition guarded (r : Acl.resource) (a : Acl.action) (accessToken : option token)
  (req : Acl.request) (now : Z) (w : World.t)
  (k : User.t -> World.t -> Reply.t * World.t) : Reply.t * World.t :=
  match Middleware.verifyToken accessToken now w with
  | Middleware.Rejected r => (Reply.Plain r, w)
  | Middleware.Next user =>
      match Acl.verifyRole [Role.admin] (Some user) req w with
      | (Some r, w1) => (Reply.Plain r, w1)
      | (None, w1) =>
          match Acl.verifyResourceAccess r a (Some user) req w1 with
          | (Some r, w2) => (Reply.Plain r, w2)
          | (None, w2) => k user w2
          end
      end
  end.

(** [router.put('/users/:id/role', ...)] *)
Definition put_user_role (accessToken : option token) (id : Z) (role : option string)
  (req : Acl.request) (now : Z) (w : World.t) : Reply.t * World.t :=
  guarded Acl.user_management Acl.write accessToken req now w
    (fun actor w' => AdminController.updateUserRole id role actor (Acl.from req) now w').

(** [router.post('/users/:id/unlock', ...)] *)
Definition post_user_unlock (accessToken : option token) (id : Z)
  (req : Acl.request) (now : Z) (w : World.t) : Reply.t * World.t :=
  guarded Acl.user_management Acl.write accessToken req now w
    (fun actor w' => AdminController.unlockUser id actor (Acl.from req) now w').

End AdminRoutes.

(* ================================================================== *)
(** * The requests that reach the users collection *)
(* ================================================================== *)

Module Accounts.
Import Http.

(** What names an account. *)
Definition ident (u : User.t) : Z * string * string :=
  (User._id u, User.username u, User.email u).

Definition names (w : World.t) : list (Z * string * string) :=
  map ident (World.users w).

(** No two accounts with one e-mail address, none with one handle. *)
Definition distinct (w : World.t) : Prop :=
  NoDup (map User.email (World.users w))
  /\ NoDup (map User.username (World.users w)).

(** The requests that write to the users collection or pass the guards of
    the admin routes. *)
Inductive request :=
| Register (req : AuthController.registration) (c : client)
| Login (email password : option string) (c : client)
| VerifyMfa (mfaToken : option token) (code : option string) (c : client)
| Logout (accessToken : option token) (c : client)
| ChangeRole (accessToken : option token) (id : Z) (role : option string)
    (req : Acl.request)
| Unlock (accessToken : option token) (id : Z) (req : Acl.request).

Definition serve (rt : Runtime.t) (r : request) (now : Z) (w : World.t) : World.t :=
  match r with
  | Register req c => snd (AuthController.register rt req c now w)
  | Login email password c => snd (AuthController.login rt email password c now w)
  | VerifyMfa t code c => snd (AuthController.verify_mfa_route rt t code c now w)
  | Logout t c => snd (AuthProfile.post_logout t c now w)
  | ChangeRole t id role req => snd (AdminRoutes.put_user_role t id role req now w)
  | Unlock t id req => snd (AdminRoutes.post_user_unlock t id req now w)
  end.

(** Requests in a row, each with the time at which it is served. *)
Definition run (rt : Runtime.t) (rs : list (request * Z)) (w : World.t) : World.t :=
  fold_left (fun acc r => serve rt (fst r) (snd r) acc) rs w.

End Accounts.

(* ================================================================== *)
(** * Sample data: a runtime, accounts and requests *)
(* ================================================================== *)

(** A stand-in for the collaborators, used where a property is shown on
    sample data: the password hash is the password behind a prefix, the
    one-time code of a secret is the secret itself, RSA-OAEP returns the
    data reversed. *)
Module Sample.

Definition bcrypt_hash (password : string) (e : Node.entropy)
: string * Node.entropy :=
(("$2a$12$" ++ password)%string, e).

Definition bcrypt_compare (candidate hash : string) : bool :=
(hash =? "$2a$12$" ++ candidate)%string.

Definition generateSecret (name : string) (e : Node.entropy)
: string * Node.entropy :=
let (b, e') := Node.randomBytes 20 e in (Buffer.to_hex b, e').

Definition totp_verify (secret token : string) (now : Z) : bool :=
(token =? secret)%string.

Definition generateKeyPairSync (e : Node.entropy)
: (string * string) * Node.entropy :=
let (b, e') := Node.randomBytes 8 e in
((("PUBLIC " ++ Buffer.to_hex b)%string, ("PRIVATE " ++ Buffer.to_hex b)%string), e').

Definition publicEncrypt (pem : string) (data : Buffer.t) (e : Node.entropy)
: Js.outcome Buffer.t * Node.entropy :=
if String.prefix "PUBLIC" pem then (Js.Ok (rev data), e)
else (Js.Throw "error:1E08010C:DECODER routines::unsupported", e).

Definition uuidv4 (e : Node.entropy) : string * Node.entropy :=
let (b, e') := Node.randomBytes 16 e in (Buffer.to_hex b, e').

Definition runtime : Runtime.t :=
Runtime.Make bcrypt_hash bcrypt_compare generateSecret totp_verify
  generateKeyPairSync publicEncrypt uuidv4
  (fun secret email => Js.Ok ("qr:" ++ secret)%string)
  (fun url => Js.Ok ("qr:" ++ url)%string)
  (Js.includes "@").

Definition source : Node.entropy := fun i => Z.of_nat (7 * i + 3).

Definition client : Http.client := Http.Client "203.0.113.7" (Some "curl/8"%string).

(** An empty system. *)
Definition empty : World.t := World.Make [] [] [] [] [] source 1.

Definition admin_request (n : string) : AuthController.registration :=
AuthController.Registration (Some n) (Some (n ++ "@example.org")%string)
  (Some "correct horse"%string) (Some "admin"%string).

Definition register_admin (n : string) (now : Z) (w : World.t)
: Http.response * World.t :=
AuthController.register runtime (admin_request n) client now w.

(** Five registrations in a row, each asking for the administrator role:
  the statuses, the roles that were stored and the final state. *)
Definition five_admin_requests : list Z * World.t :=
fold_left
  (fun acc n =>
     let r := register_admin n 1000 (snd acc) in
     (fst acc ++ [Http.status (fst r)], snd r))
  ["ann"; "bob"; "cyd"; "dan"; "eve"]%string ([], empty).

Definition count_role (r : Role.t) (w : World.t) : nat :=
List.length (filter (fun u => Role.eqb (User.role u) r) (World.users w)).

End Sample.

(** A key, a random source and a two-block plaintext for the cipher. *)
Module C2Data.
Definition key : Buffer.t := map Z.of_nat (seq 0 32).
Definition source : Node.entropy := fun i => Z.of_nat (i + 100).
Definition plain : Buffer.t := Buffer.of_string "0123456789abcdef0123456789abcdef".
Definition original : Buffer.t :=
  Buffer.of_hex "782aec554ddc60a9065b3e8ab9010f9b72f33439bf59c5459fe8cd2a98c7c02e".
Definition iv : Buffer.t := map Z.of_nat (seq 100 12).
Definition authTag : Buffer.t := Buffer.of_hex "8416190f4b6e3cadd337ce3a86c1cfb3".
(** The original with its first byte changed by one bit and its second
    block changed by that difference times the hash subkey. *)
Definition forged : Buffer.t :=
  Buffer.of_hex "792aec554ddc60a9065b3e8ab9010f9b73161438d30d567a3ebb2a1e4d7d9cc1".
End C2Data.

(** An account and the state in which it has just registered. *)
Module SampleAccount.

Definition world : World.t := snd (Sample.register_admin "ann" 1000 Sample.empty).

Definition ann : User.t :=
  Eval vm_compute in
    match World.users world with
    | u :: _ => u
    | [] =>
        User.Make 0 EmptyString EmptyString EmptyString Role.guest EmptyString
          false false None None None None 0 None 0 0
    end.

Definition email : string := "ann@example.org".

(** An MFA-pending token for that account. *)
Definition pending : Http.token := Http.Token 1 None true 10000000.

End SampleAccount.

(** The state of the sample account after five failed attempts. *)
Definition locked_world : World.t :=
  fold_left
    (fun w t =>
       snd (AuthController.login Sample.runtime (Some SampleAccount.email)
              (Some "wrong guess"%string) Sample.client t w))
    [2000; 3000; 4000; 5000; 6000] SampleAccount.world.

(** A guest, and a vault file of another account with its ciphertext in
    the upload directory. *)
Module KeyExchangeSample.

Definition owner : User.t :=
  User.Make 1 "ann" "ann@example.org" "$2a$12$correct horse" Role.premium
    "JBSWY3DPEHPK3PXP" true true (Some "00112233"%string) None None None 0 None
    1000 1000.

Definition guest : User.t :=
  User.Make 2 "gus" "gus@example.org" "$2a$12$battery staple" Role.guest
    "KRSXG5CTMVRXEZLU" true true (Some "44556677"%string) None None None 0 None
    1500 1500.

Definition blob : Buffer.t := Buffer.of_hex "782aec554ddc60a9065b3e8ab9010f9b".

Definition doc : File.t :=
  File.Make 7 "plan.txt" "text/plain" 16 "0f0e0d0c.enc" 1 AccessLevel.vault
    "6465666768696a6b6c6d6e6f" "8416190f4b6e3cadd337ce3a86c1cfb3"
    (File.KeyJson "00" "01" "02") (Some "a1b2c3d4"%string)
    "not the digest of anything" true None None None 0 EmptyString false None
    2000 2000.

Definition world : World.t :=
  World.Make [owner; guest] [doc] [("0f0e0d0c.enc"%string, blob)] [] []
    Sample.source 8.

Definition token : Http.token := Http.Token 2 (Some Role.guest) false 10000000.

End KeyExchangeSample.

(** A public file with a share link, its owner and a guest. *)
Module DeleteSample.

Definition doc : File.t :=
  File.Make 7 "plan.txt" "text/plain" 16 "0f0e0d0c.enc" 1 AccessLevel.public
    "6465666768696a6b6c6d6e6f" "8416190f4b6e3cadd337ce3a86c1cfb3"
    (File.KeyJson "00" "01" "02") (Some "a1b2c3d4"%string)
    "not the digest of anything" true None (Some "c0ffee"%string) (Some 9000) 0
    EmptyString false None 2000 2000.

Definition world : World.t :=
  World.Make [KeyExchangeSample.owner; KeyExchangeSample.guest] [doc]
    [("0f0e0d0c.enc"%string, KeyExchangeSample.blob)] [] [] Sample.source 8.

Definition owner_token : Http.token :=
  Http.Token 1 (Some Role.premium) false 10000000.

(** The state after the owner has deleted the file. *)
Definition after : World.t :=
  snd (FileRoutes.delete_file (Some owner_token) 7 Sample.client 3000 world).

End DeleteSample.

(** An upload by the owner of the sample, and records made by hand: a
    legacy record without a salt of its own, sealed under the salt of the
    account of its owner, and a record for which no salt is left. *)
Module UploadSample.

Definition before : World.t :=
  World.Make [KeyExchangeSample.owner; KeyExchangeSample.guest] [] [] [] []
    Sample.source 1.

Definition content : Buffer.t := Buffer.of_string "0123456789abcdef0123456789abcdef".

Definition request : FileController.upload :=
  FileController.Upload "plan.txt" "text/plain" 32 content.

(** The state after the upload, at time 1000. *)
Definition after : World.t :=
  snd (FileController.uploadFile Sample.runtime (Some request)
         (Some "vault"%string) None (Some "correct horse"%string) None
         KeyExchangeSample.owner Sample.client 1000 before).

(** The same state after the accounts have been replaced: the owner has
    gone and the guest has become an administrator with another salt. *)
Definition other_accounts : list User.t :=
  [User.Make 2 "gus" "gus@example.org" "$2a$12$battery staple" Role.admin
     "KRSXG5CTMVRXEZLU" true true (Some "8899aabb"%string) None None None 0 None
     1500 1600].

Definition fileKey : Buffer.t := map Z.of_nat (seq 0 32).
Definition keyIv : Buffer.t := map Z.of_nat (seq 200 12).
Definition iv : Buffer.t := map Z.of_nat (seq 100 12).

(** The ciphertext of [content] under [fileKey] and [iv]. *)
Definition blob : Buffer.t :=
  Buffer.of_hex "782aec554ddc60a9065b3e8ab9010f9b72f33439bf59c5459fe8cd2a98c7c02e".

(** A record of [content] as an upload under a password and a salt leaves
    it, with [own] as the salt of the record. *)
Definition record (password salt : string) (own : option string) : File.t :=
  File.Make 7 "plan.txt" "text/plain" 32 "0f0e0d0c.enc" 1 AccessLevel.vault
    "6465666768696a6b6c6d6e6f" "8416190f4b6e3cadd337ce3a86c1cfb3"
    (File.KeyJson
       (Buffer.to_hex
          (Gcm.crypt (KeyDerivation.deriveKey password salt) keyIv fileKey))
       (Buffer.to_hex keyIv)
       (Buffer.to_hex
          (Gcm.tag (KeyDerivation.deriveKey password salt) keyIv
             (Gcm.crypt (KeyDerivation.deriveKey password salt) keyIv fileKey))))
    own
    "3eb1bd439947eb762998e566ccc2e099c791118b2f40579cc4f7da2b5061b7f9"
    true None None None 0 EmptyString false None 2000 2000.

Definition legacy : File.t := record "correct horse" "00112233" None.

(** The state in which a record is the only one, with its ciphertext. *)
Definition world_of (file : File.t) : World.t :=
  World.Make [KeyExchangeSample.owner; KeyExchangeSample.guest] [file]
    [("0f0e0d0c.enc"%string, blob)] [] [] Sample.source 8.

Definition legacy_world : World.t := world_of legacy.

(** The same record when the account of its owner has no salt. *)
Definition unsalted : User.t :=
  User.Make 1 "ann" "ann@example.org" "$2a$12$correct horse" Role.premium
    "JBSWY3DPEHPK3PXP" true true None None None None 0 None 1000 1000.

Definition unsalted_world : World.t :=
  World.Make [unsalted] [legacy] [("0f0e0d0c.enc"%string, blob)] [] []
    Sample.source 8.

(** The record that the upload has stored. *)
Definition stored : File.t := nth 0 (World.files after) legacy.

Definition admin : User.t := nth 0 other_accounts unsalted.

End UploadSample.

(** Two records that differ in the stored tag of the wrapped key only, so
    that no master key opens both; and the legacy record of the sample with
    one bit of its ciphertext changed. *)
Module FailureSample.

Definition record (id : Z) (keyTag : string) : File.t :=
  File.Make id "plan.txt" "text/plain" 32 "0f0e0d0c.enc" 1 AccessLevel.public
    "6465666768696a6b6c6d6e6f" "8416190f4b6e3cadd337ce3a86c1cfb3"
    (File.KeyJson "00112233445566778899aabbccddeeff00112233445566778899aabbccddeeff"
       "c8c9cacbcccdcecfd0d1d2d3" keyTag)
    (Some "a1b2c3d4"%string)
    "3eb1bd439947eb762998e566ccc2e099c791118b2f40579cc4f7da2b5061b7f9"
    true None None None 0 EmptyString false None 2000 2000.

Definition first : File.t := record 1 "000102030405060708090a0b0c0d0e0f".
Definition second : File.t := record 2 "000102030405060708090a0b0c0d0eff".

Definition world : World.t :=
  World.Make [KeyExchangeSample.owner; KeyExchangeSample.guest] [first; second]
    [("0f0e0d0c.enc"%string, UploadSample.blob)] [] [] Sample.source 8.

Definition tampered : Buffer.t :=
  Buffer.of_hex "792aec554ddc60a9065b3e8ab9010f9b72f33439bf59c5459fe8cd2a98c7c02e".

Definition tampered_world : World.t :=
  World.Make [KeyExchangeSample.owner; KeyExchangeSample.guest]
    [UploadSample.legacy] [("0f0e0d0c.enc"%string, tampered)] [] []
    Sample.source 8.

End FailureSample.

(** An administrator, a premium user and a guest whose account is locked
    after five failures, with a request to the administration routes. *)
Module AdminSample.

Definition root : User.t :=
  User.Make 1 "root" "root@example.org" "$2a$12$correct horse" Role.admin
    "JBSWY3DPEHPK3PXP" true true (Some "00112233"%string) None None (Some 500) 0
    None 100 500.

Definition ann : User.t :=
  User.Make 2 "ann" "ann@example.org" "$2a$12$correct horse" Role.premium
    "JBSWY3DPEHPK3PXQ" true true (Some "8899aabb"%string) None None None 0 None
    1000 1000.

Definition gus : User.t :=
  User.Make 3 "gus" "gus@example.org" "$2a$12$battery staple" Role.guest
    "KRSXG5CTMVRXEZLU" true true (Some "44556677"%string) None None None 5
    (Some 9000000) 1500 1800000.

Definition world : World.t :=
  World.Make [root; ann; gus] [] [] [] [] Sample.source 4.

Definition request : Acl.request :=
  Acl.Request "/api/admin/users/3/role" "PUT" ["role"%string] Sample.client.

Definition root_token : Http.token := Http.Token 1 (Some Role.admin) false 10000000.
Definition ann_token : Http.token := Http.Token 2 (Some Role.premium) false 10000000.

End AdminSample.

(** The sample account as it is stored in [locked_world]. *)
Definition locked_ann : User.t :=
  Eval vm_compute in
    match World.users locked_world with
    | u :: _ => u
    | [] => SampleAccount.ann
    end.

(** A key exchange on the sample ciphertext, for a key that the sample
    runtime accepts. *)
Module ExchangeSample.

Definition guestPublicKey : string := "PUBLIC 0a0b0c0d".

Definition result : KeyExchange.exchange :=
  Eval vm_compute in
    match
      fst (KeyExchange.encryptForKeyExchange Sample.runtime KeyExchangeSample.blob
             guestPublicKey Sample.source)
    with
    | Js.Ok r => r
    | Js.Throw _ =>
        KeyExchange.Exchange
          (KeyExchange.AesPayload EmptyString EmptyString EmptyString) EmptyString
    end.

End ExchangeSample.

(** Requests in a row on the empty system: two registrations of one
    handle, a login, a wrong MFA code and an attempt to change a role. *)
Module SequenceSample.

Definition requests : list (Accounts.request * Z) :=
  [ (Accounts.Register (Sample.admin_request "ann") Sample.client, 1000);
    (Accounts.Register (Sample.admin_request "ann") Sample.client, 1100);
    (Accounts.Register (Sample.admin_request "bob") Sample.client, 1200);
    (Accounts.Login (Some "ann@example.org"%string) (Some "wrong guess"%string)
       Sample.client, 2000);
    (Accounts.VerifyMfa (Some SampleAccount.pending) (Some "000000"%string)
       Sample.client, 3000);
    (Accounts.ChangeRole (Some AdminSample.root_token) 1 (Some "guest"%string)
       AdminSample.request, 4000) ].

End SequenceSample.
Example sha256_abc :
  Buffer.to_hex (Sha256.digest (Buffer.of_string "abc"))
  = "ba7816bf8f01cfea414140de5dae2223b00361a396177a9cb410ff61f20015ad"%string.
Proof. vm_compute. reflexivity. Qed.

Example sha256_two_blocks :
  Buffer.to_hex (Sha256.digest (Buffer.of_string
     "abcdbcdecdefdefgefghfghighijhijkijkljklmklmnlmnomnopnopq"))
  = "248d6a61d20638b8e5c026930c3e6039a33ce45964ff2167f6ecedd419db06c1"%string.
Proof. vm_compute. reflexivity. Qed.

Example pbkdf2_two_iterations :
  Buffer.to_hex (Pbkdf2.pbkdf2_sha256 (Buffer.of_string "password")
                   (Buffer.of_string "salt") 2 32)
  = "ae4d0c95af6b46d32d0adff928f06dd02a303f8ef3c251dfd6e2d85a95474c43"%string.
Proof. vm_compute. reflexivity. Qed.

Example pbkdf2_long_output :
  Buffer.to_hex (Pbkdf2.pbkdf2_sha256 (Buffer.of_string "password")
                   (Buffer.of_string "salt") 2 40)
  = "ae4d0c95af6b46d32d0adff928f06dd02a303f8ef3c251dfd6e2d85a95474c43830651afcb5c862f"%string.
Proof. vm_compute. reflexivity. Qed.

Example aes256_fips197 :
  Buffer.to_hex (Aes.encrypt_block
                   (Buffer.of_hex "000102030405060708090a0b0c0d0e0f101112131415161718191a1b1c1d1e1f")
                   (Buffer.of_hex "00112233445566778899aabbccddeeff"))
  = "8ea2b7ca516745bfeafc49904b496089"%string.
Proof. vm_compute. reflexivity. Qed.

Example gcm_nist_case_14 :
  let r := Gcm.encrypt (Buffer.zeros 32) (Buffer.zeros 12) (Buffer.zeros 16) in
  (Buffer.to_hex (fst r), Buffer.to_hex (snd r))
  = ("cea7403d4d606b6e074ec5d3baf39d18", "d0d1c8a799996bf0265b98b5d48ab919")%string.
Proof. vm_compute. reflexivity. Qed.

Example gcm_nist_case_13 :
  Buffer.to_hex (snd (Gcm.encrypt (Buffer.zeros 32) (Buffer.zeros 12) []))
  = "530f8afbc74536b9a963b4f1c4cb738b"%string.
Proof. vm_compute. reflexivity. Qed.

Example sha256_constants :
  List.length Sha256.K = 64%nat
  /\ nth 0 Sha256.K 0 = 0x428a2f98 /\ nth 63 Sha256.K 0 = 0xc67178f2
  /\ Sha256.sa Sha256.H0 = 0x6a09e667 /\ Sha256.sh Sha256.H0 = 0x5be0cd19.
Proof. repeat split; reflexivity. Qed.

(* ================================================================== *)
(** * Properties of the runtime primitives *)
(* ================================================================== *)

Module BufferFacts.

Lemma eqb_refl (a : Buffer.t) : Buffer.eqb a a = true.
Proof.
  induction a as [|x a IH]; simpl; [reflexivity|].
  rewrite Z.eqb_refl, IH. reflexivity.
Qed.

Lemma eqb_eq (a b : Buffer.t) : Buffer.eqb a b = true <-> a = b.
Proof.
  split.
  - revert b. induction a as [|x a IH]; intros [|y b] H; simpl in H;
      try discriminate; [reflexivity|].
    apply andb_true_iff in H. destruct H as [Hx Hr].
    apply Z.eqb_eq in Hx. apply IH in Hr. congruence.
  - intros ->. apply eqb_refl.
Qed.

Lemma eqb_neq (a b : Buffer.t) : a <> b -> Buffer.eqb a b = false.
Proof.
  intros H. destruct (Buffer.eqb a b) eqn:E; [|reflexivity].
  apply eqb_eq in E. contradiction.
Qed.

Lemma xor_length (a b : Buffer.t) :
  List.length (Buffer.xor a b) = Nat.min (List.length a) (List.length b).
Proof.
  unfold Buffer.xor. rewrite length_map, length_combine. reflexivity.
Qed.

(** Masking twice with the same key stream gives the data back. *)
Lemma xor_involutive (a k : Buffer.t) :
  (List.length a <= List.length k)%nat ->
  Buffer.xor (Buffer.xor a k) k = a.
Proof.
  revert k. induction a as [|x a IH]; intros [|y k] H; simpl in *;
    try reflexivity; try lia.
  unfold Buffer.xor in *. simpl. f_equal.
  - rewrite Z.lxor_assoc, Z.lxor_nilpotent, Z.lxor_0_r. reflexivity.
  - apply IH. lia.
Qed.

Lemma xor_nil_l (k : Buffer.t) : Buffer.xor [] k = [].
Proof. reflexivity. Qed.

Lemma of_uint_be_length (n : nat) (v : Z) :
  List.length (Buffer.of_uint_be n v) = n.
Proof. induction n as [|n IH]; simpl; [reflexivity | now rewrite IH]. Qed.

Lemma land_255_byte (x : Z) : Buffer.is_byte (Z.land x 255).
Proof.
  unfold Buffer.is_byte. change 255 with (Z.ones 8).
  rewrite Z.land_ones by lia. apply Z.mod_pos_bound. lia.
Qed.

Lemma of_uint_be_bytes (n : nat) (v : Z) :
  Forall Buffer.is_byte (Buffer.of_uint_be n v).
Proof.
  induction n as [|n IH]; simpl; constructor; [apply land_255_byte | exact IH].
Qed.

End BufferFacts.

Module AesFacts.

(** The cipher maps a 16-byte block to a 16-byte block, under any
    32-byte key: the shape of the computation does not depend on the
    bytes. *)
Lemma encrypt_block_length (key block : Buffer.t) :
  List.length key = 32%nat -> List.length block = 16%nat ->
  List.length (Aes.encrypt_block key block) = 16%nat.
Proof.
  intros Hk Hb.
  do 32 (destruct key as [|? key]; [discriminate Hk|]).
  destruct key; [|discriminate Hk].
  do 16 (destruct block as [|? block]; [discriminate Hb|]).
  destruct block; [|discriminate Hb].
  reflexivity.
Qed.
End AesFacts.

Module ListFacts.

Lemma firstn_add {A : Type} (a b : nat) (l : list A) :
  firstn (a + b) l = firstn a l ++ firstn b (skipn a l).
Proof.
  revert l. induction a as [|a IH]; intros l; simpl; [reflexivity|].
  destruct l as [|x l]; simpl.
  - now rewrite firstn_nil.
  - now rewrite IH.
Qed.

Lemma firstn_short {A : Type} (n : nat) (l : list A) :
  (List.length l <= n)%nat -> firstn n l = l.
Proof. intros H. apply firstn_all2. exact H. Qed.

Lemma skipn_short {A : Type} (n : nat) (l : list A) :
  (List.length l <= n)%nat -> skipn n l = [].
Proof. intros H. apply skipn_all2. exact H. Qed.

End ListFacts.

Module GcmFacts.
Import BufferFacts ListFacts.

Lemma inc32_length (cb : Buffer.t) :
  List.length cb = 16%nat -> List.length (Gcm.inc32 cb) = 16%nat.
Proof.
  intros H. unfold Gcm.inc32.
  rewrite length_app, length_firstn, of_uint_be_length. lia.
Qed.

Lemma j0_length (h : Z) (iv : Buffer.t) : List.length (Gcm.j0 h iv) = 16%nat.
Proof.
  unfold Gcm.j0. destruct (List.length iv =? 12)%nat eqn:E.
  - apply Nat.eqb_eq in E. rewrite length_app, E. reflexivity.
  - apply of_uint_be_length.
Qed.

Lemma ctr_nil (n : nat) (key cb : Buffer.t) : Gcm.ctr n key cb [] = [].
Proof.
  revert cb. induction n as [|n IH]; intros cb; simpl; [reflexivity|].
  rewrite IH. reflexivity.
Qed.

Section Ctr.
Variable key : Buffer.t.
Hypothesis key_length : List.length key = 32%nat.

Lemma ctr_length (n : nat) (cb data : Buffer.t) :
  List.length cb = 16%nat ->
  List.length (Gcm.ctr n key cb data) = Nat.min (List.length data) (16 * n).
Proof.
  revert cb data. induction n as [|n IH]; intros cb data Hcb.
  - simpl. lia.
  - cbn [Gcm.ctr]. rewrite length_app, xor_length, length_firstn.
    rewrite AesFacts.encrypt_block_length by assumption.
    rewrite IH by (apply inc32_length; assumption).
    rewrite length_skipn. lia.
Qed.

(** Counter mode is its own inverse on the bytes it covers. *)
Lemma ctr_involutive (n : nat) (cb data : Buffer.t) :
  List.length cb = 16%nat ->
  Gcm.ctr n key cb (Gcm.ctr n key cb data) = firstn (16 * n) data.
Proof.
  revert cb data. induction n as [|n IH]; intros cb data Hcb.
  - reflexivity.
  - cbn [Gcm.ctr].
    set (ks := Aes.encrypt_block key cb).
    assert (Hks : List.length ks = 16%nat)
      by (apply AesFacts.encrypt_block_length; assumption).
    set (X := Buffer.xor (firstn 16 data) ks).
    assert (HX : List.length X = Nat.min 16 (List.length data)).
    { unfold X. rewrite xor_length, length_firstn. lia. }
    assert (Hinv : Buffer.xor X ks = firstn 16 data).
    { unfold X. apply xor_involutive. rewrite length_firstn. lia. }
    replace (16 * S n)%nat with (16 + 16 * n)%nat by lia.
    rewrite firstn_add.
    destruct (Nat.le_gt_cases 16 (List.length data)) as [Hlong | Hshort].
    + assert (HX16 : List.length X = 16%nat) by lia.
      rewrite firstn_app, HX16, Nat.sub_diag, firstn_O, app_nil_r.
      rewrite (firstn_short 16 X) by lia.
      rewrite skipn_app, HX16, Nat.sub_diag, skipn_O.
      rewrite (skipn_short 16 X) by lia. cbn [app].
      rewrite Hinv, IH by (apply inc32_length; assumption). reflexivity.
    + rewrite (skipn_short 16 data) by lia.
      rewrite ctr_nil, app_nil_r, firstn_nil, app_nil_r.
      rewrite (firstn_short 16 X) by lia.
      rewrite (skipn_short 16 X) by lia.
      rewrite ctr_nil, app_nil_r. exact Hinv.
Qed.

Lemma nblocks_covers (data : Buffer.t) :
  (List.length data <= 16 * Gcm.nblocks data)%nat.
Proof.
  unfold Gcm.nblocks.
  pose proof (Nat.div_mod (List.length data + 15) 16 ltac:(lia)) as H.
  pose proof (Nat.mod_upper_bound (List.length data + 15) 16 ltac:(lia)) as H'.
  lia.
Qed.

Lemma crypt_length (iv data : Buffer.t) :
  List.length (Gcm.crypt key iv data) = List.length data.
Proof.
  unfold Gcm.crypt.
  rewrite ctr_length by (apply inc32_length, j0_length).
  pose proof (nblocks_covers data). lia.
Qed.

Lemma nblocks_crypt (iv data : Buffer.t) :
  Gcm.nblocks (Gcm.crypt key iv data) = Gcm.nblocks data.
Proof. unfold Gcm.nblocks. rewrite crypt_length. reflexivity. Qed.

Lemma crypt_involutive (iv data : Buffer.t) :
  Gcm.crypt key iv (Gcm.crypt key iv data) = data.
Proof.
  unfold Gcm.crypt at 1. rewrite nblocks_crypt. unfold Gcm.crypt.
  rewrite ctr_involutive by (apply inc32_length, j0_length).
  apply firstn_short, nblocks_covers.
Qed.

Lemma tag_length (iv c : Buffer.t) : List.length (Gcm.tag key iv c) = 16%nat.
Proof.
  unfold Gcm.tag. rewrite xor_length, of_uint_be_length.
  rewrite AesFacts.encrypt_block_length by (try assumption; apply j0_length).
  reflexivity.
Qed.

(** Decryption under the same key and IV, with the tag that encryption
    produced, gives the plaintext back. *)
Lemma decrypt_encrypt (iv plain : Buffer.t) :
  let r := Gcm.encrypt key iv plain in
  Gcm.decrypt key iv (fst r) (snd r) = Some plain.
Proof.
  unfold Gcm.encrypt, Gcm.decrypt. cbn [fst snd].
  rewrite eqb_refl, crypt_involutive. reflexivity.
Qed.

End Ctr.

End GcmFacts.

(* ================================================================== *)
(** * utils/encryption.js: round trip and tamper evidence *)
(* ================================================================== *)

Module EncryptionFacts.
Import Js BufferFacts.

Lemma randomBytes_length (n : nat) (e : Node.entropy) :
  List.length (fst (Node.randomBytes n e)) = n.
Proof. unfold Node.randomBytes. cbn [fst]. now rewrite length_map, length_seq. Qed.

Lemma randomBytes_bytes (n : nat) (e : Node.entropy) :
  Forall Buffer.is_byte (fst (Node.randomBytes n e)).
Proof.
  unfold Node.randomBytes. cbn [fst]. apply Forall_forall. intros x Hx.
  apply in_map_iff in Hx. destruct Hx as [i [<- _]].
  apply Z.mod_pos_bound. lia.
Qed.

Lemma generateIV_length (e : Node.entropy) :
  List.length (fst (Encryption.generateIV e)) = 12%nat.
Proof. apply randomBytes_length. Qed.

Lemma generateKey_length (e : Node.entropy) :
  List.length (fst (Encryption.generateKey e)) = 32%nat.
Proof. apply randomBytes_length. Qed.

(** What [encryptFile] returns under a key of the right length. *)
Lemma encryptFile_ok (plain key : Buffer.t) (e : Node.entropy) :
  List.length key = 32%nat ->
  Encryption.encryptFile plain key e
  = (let iv := fst (Encryption.generateIV e) in
     (Ok (Encryption.Encrypted (Gcm.crypt key iv plain) iv
                               (Gcm.tag key iv (Gcm.crypt key iv plain))),
      snd (Encryption.generateIV e))).
Proof.
  intros Hk. unfold Encryption.encryptFile, Encryption.KEY_LENGTH.
  rewrite Hk. cbn [Nat.eqb negb].
  pose proof (generateIV_length e) as Hiv.
  destruct (Encryption.generateIV e) as [iv e'] eqn:E. cbn [fst snd] in *.
  unfold Node.gcm_encrypt. rewrite Hk, Hiv. reflexivity.
Qed.

Lemma encryptFile_bad_key (plain key : Buffer.t) (e : Node.entropy) :
  List.length key <> 32%nat ->
  Encryption.encryptFile plain key e = (Throw Encryption.key_length_message, e).
Proof.
  intros Hk. unfold Encryption.encryptFile, Encryption.KEY_LENGTH.
  apply Nat.eqb_neq in Hk. rewrite Hk. reflexivity.
Qed.

(** What [decryptFile] returns once its arguments have the lengths the
    runtime accepts: the tag decides alone. *)
Lemma decryptFile_checked (c iv t key : Buffer.t) :
  List.length key = 32%nat -> List.length iv <> 0%nat ->
  List.length t = 16%nat ->
  Encryption.decryptFile c iv t key
  = if Buffer.eqb (Gcm.tag key iv c) t
    then Ok (Gcm.crypt key iv c)
    else Throw Encryption.AUTH_FAILED.
Proof.
  intros Hk Hiv Ht.
  unfold Encryption.decryptFile, Encryption.KEY_LENGTH, Node.createDecipheriv,
    Node.setAuthTag, Encryption.AUTH_TAG_LENGTH, Node.decipher_final, Gcm.decrypt.
  apply Nat.eqb_neq in Hiv. rewrite Hk, Hiv, Ht. cbn [Nat.eqb negb bind].
  destruct (Buffer.eqb (Gcm.tag key iv c) t); reflexivity.
Qed.

Lemma decryptFile_bad_tag_length (c iv t key : Buffer.t) :
  List.length key = 32%nat -> List.length iv <> 0%nat ->
  List.length t <> 16%nat ->
  Encryption.decryptFile c iv t key
  = Throw ("Invalid authentication tag length: " ++ decimal (List.length t)).
Proof.
  intros Hk Hiv Ht.
  unfold Encryption.decryptFile, Encryption.KEY_LENGTH, Node.createDecipheriv,
    Node.setAuthTag, Encryption.AUTH_TAG_LENGTH.
  apply Nat.eqb_neq in Hiv, Ht. rewrite Hk, Hiv, Ht. reflexivity.
Qed.

(** A result of [decryptFile] is never accompanied by plaintext when it
    is an error: the two cases are exclusive by construction; what is
    returned, when something is, is the counter-mode image. *)
Lemma decryptFile_ok_inv (c iv t key plain : Buffer.t) :
  Encryption.decryptFile c iv t key = Ok plain ->
  Gcm.tag key iv c = t /\ plain = Gcm.crypt key iv c.
Proof.
  unfold Encryption.decryptFile, Node.createDecipheriv, Node.setAuthTag,
    Node.decipher_final, Gcm.decrypt.
  destruct (negb (List.length key =? Encryption.KEY_LENGTH)%nat); [discriminate|].
  destruct (negb (List.length key =? 32)%nat); [discriminate|].
  destruct (List.length iv =? 0)%nat; [discriminate|].
  destruct (List.length t =? Encryption.AUTH_TAG_LENGTH)%nat; [|discriminate].
  cbn [bind]. destruct (Buffer.eqb (Gcm.tag key iv c) t) eqn:E.
  - intros H. injection H as <-. apply eqb_eq in E. split; [exact E | reflexivity].
  - destruct (_ || _); discriminate.
Qed.

Section RoundTrip.
Variables (plain key : Buffer.t) (e : Node.entropy).
Hypothesis key_length : List.length key = 32%nat.

Let iv := fst (Encryption.generateIV e).
Let c := Gcm.crypt key iv plain.
Let t := Gcm.tag key iv c.

Lemma iv_nonempty : List.length iv <> 0%nat.
Proof. unfold iv. rewrite generateIV_length. discriminate. Qed.

Lemma decryptFile_encryptFile :
  Encryption.decryptFile c iv t key = Ok plain.
Proof.
  rewrite decryptFile_checked;
    [| assumption | apply iv_nonempty | apply GcmFacts.tag_length; assumption].
  unfold t. rewrite eqb_refl. unfold c.
  rewrite GcmFacts.crypt_involutive by assumption. reflexivity.
Qed.

Lemma decryptFile_other_tag (t' : Buffer.t) :
  List.length t' = 16%nat -> t' <> t ->
  Encryption.decryptFile c iv t' key = Throw Encryption.AUTH_FAILED.
Proof.
  intros Hl Hne.
  rewrite decryptFile_checked; [| assumption | apply iv_nonempty | assumption].
  rewrite eqb_neq; [reflexivity |].
  intros Heq. apply Hne. symmetry. exact Heq.
Qed.

Lemma decryptFile_other_ciphertext (c' : Buffer.t) :
  Gcm.tag key iv c' <> t ->
  Encryption.decryptFile c' iv t key = Throw Encryption.AUTH_FAILED.
Proof.
  intros Hne.
  rewrite decryptFile_checked;
    [| assumption | apply iv_nonempty | apply GcmFacts.tag_length; assumption].
  rewrite eqb_neq; [reflexivity | assumption].
Qed.

Lemma decryptFile_forged_ciphertext (c' : Buffer.t) :
  Gcm.tag key iv c' = t ->
  Encryption.decryptFile c' iv t key = Ok (Gcm.crypt key iv c').
Proof.
  intros Heq.
  rewrite decryptFile_checked;
    [| assumption | apply iv_nonempty | apply GcmFacts.tag_length; assumption].
  rewrite Heq, eqb_refl. reflexivity.
Qed.

End RoundTrip.

End EncryptionFacts.





(* ================================================================== *)
(** * Content digest: hexadecimal form, verification, collisions *)
(* ================================================================== *)

Module HexFacts.
Import BufferFacts.

Lemma hex_value_digit (n : Z) :
  0 <= n < 16 -> Buffer.hex_value (Buffer.hex_digit n) = Some n.
Proof.
  intros H.
  destruct n as [|q|q]; [reflexivity | | lia].
  do 4 (destruct q as [q|q|]; try lia; try reflexivity).
Qed.

Lemma byte_nibbles (x : Z) :
  Buffer.is_byte x ->
  0 <= Z.shiftr (Z.land x 255) 4 < 16 /\ 0 <= Z.land x 15 < 16
  /\ 16 * Z.shiftr (Z.land x 255) 4 + Z.land x 15 = x.
Proof.
  unfold Buffer.is_byte. intros H.
  change 255 with (Z.ones 8). change 15 with (Z.ones 4).
  rewrite !Z.land_ones by lia. rewrite Z.shiftr_div_pow2 by lia.
  change (2 ^ 8) with 256. change (2 ^ 4) with 16.
  rewrite (Z.mod_small x 256) by lia.
  pose proof (Z.div_mod x 16 ltac:(lia)).
  pose proof (Z.mod_pos_bound x 16 ltac:(lia)).
  assert (0 <= x / 16 < 16)
    by (split; [apply Z.div_pos; lia | apply Z.div_lt_upper_bound; lia]).
  lia.
Qed.

(** Decoding the hexadecimal form of a buffer of bytes gives it back. *)
Lemma of_hex_to_hex (b : Buffer.t) :
  Forall Buffer.is_byte b -> Buffer.of_hex (Buffer.to_hex b) = b.
Proof.
  induction 1 as [|x b Hx _ IH]; [reflexivity|].
  cbn [Buffer.to_hex Buffer.of_hex].
  destruct (byte_nibbles x Hx) as (Hh & Hl & Hsum).
  rewrite !hex_value_digit by assumption. rewrite Hsum, IH. reflexivity.
Qed.

Lemma to_hex_length (b : Buffer.t) :
  String.length (Buffer.to_hex b) = (2 * List.length b)%nat.
Proof. induction b as [|x b IH]; simpl; [reflexivity | rewrite IH; lia]. Qed.

End HexFacts.

Module Sha256Facts.
Import BufferFacts.

Lemma output_length (s : Sha256.state) : List.length (Sha256.output s) = 32%nat.
Proof. unfold Sha256.output. rewrite !length_app, !of_uint_be_length. reflexivity. Qed.

Lemma output_bytes (s : Sha256.state) : Forall Buffer.is_byte (Sha256.output s).
Proof.
  unfold Sha256.output. rewrite !Forall_app.
  repeat split; apply of_uint_be_bytes.
Qed.

Lemma digest_length (m : Buffer.t) : List.length (Sha256.digest m) = 32%nat.
Proof. apply output_length. Qed.

Lemma digest_bytes (m : Buffer.t) : Forall Buffer.is_byte (Sha256.digest m).
Proof. apply output_bytes. Qed.

End Sha256Facts.

Module DigestFacts.
Import Js BufferFacts.

Lemma calculateHash_decodes (b : Buffer.t) :
  Buffer.of_hex (Encryption.calculateHash b) = Sha256.digest b.
Proof. apply HexFacts.of_hex_to_hex, Sha256Facts.digest_bytes. Qed.

(** Verification against a digest made by [calculateHash] compares the
    two SHA-256 values. *)
Lemma verifyIntegrity_calculateHash (p p' : Buffer.t) :
  Encryption.verifyIntegrity p' (Encryption.calculateHash p)
  = Ok (Buffer.eqb (Sha256.digest p') (Sha256.digest p)).
Proof.
  unfold Encryption.verifyIntegrity, Node.timingSafeEqual.
  rewrite !calculateHash_decodes, !Sha256Facts.digest_length. reflexivity.
Qed.

End DigestFacts.

(** ** Counting: a 256-bit digest cannot separate all inputs *)

Module Pigeonhole.

(** A bounded search is decidable. *)
Lemma bounded_search (Q : Z -> Prop) (dec : forall x, {Q x} + {~ Q x}) (m : Z) :
  0 <= m ->
  (exists x, 0 <= x < m /\ Q x) \/ (forall x, 0 <= x < m -> ~ Q x).
Proof.
  revert m. apply (natlike_ind (fun m =>
    (exists x, 0 <= x < m /\ Q x) \/ (forall x, 0 <= x < m -> ~ Q x))).
  - right. intros x Hx. lia.
  - intros m Hm [(x & Hx & HQ) | Hnone].
    + left. exists x. split; [lia | exact HQ].
    + destruct (dec m) as [HQ | HnQ].
      * left. exists m. split; [lia | exact HQ].
      * right. intros x Hx. destruct (Z.eq_dec x m) as [-> | Hne];
          [exact HnQ | apply Hnone; lia].
Qed.

(** No map from [m + 1] values into [m] values is one-to-one. *)
Lemma collision (m : Z) :
  0 <= m ->
  forall f : Z -> Z,
    (forall x, 0 <= x <= m -> 0 <= f x < m) ->
    exists x y, 0 <= x < y /\ y <= m /\ f x = f y.
Proof.
  revert m. apply (natlike_ind (fun m => forall f : Z -> Z,
    (forall x, 0 <= x <= m -> 0 <= f x < m) ->
    exists x y, 0 <= x < y /\ y <= m /\ f x = f y)).
  - intros f Hf. specialize (Hf 0). lia.
  - intros m Hm IH f Hf.
    destruct (bounded_search (fun x => f x = f (Z.succ m))
                (fun x => Z.eq_dec (f x) (f (Z.succ m))) (Z.succ m) ltac:(lia))
      as [(x & Hx & Heq) | Hnone].
    + exists x, (Z.succ m). repeat split; lia.
    + set (g := fun x => if Z.eq_dec (f x) m then f (Z.succ m) else f x).
      destruct (IH g) as (x & y & Hxy & Hy & Hg).
      * intros x Hx. unfold g.
        pose proof (Hf x ltac:(lia)) as Hfx.
        pose proof (Hf (Z.succ m) ltac:(lia)) as Hfm.
        pose proof (Hnone x ltac:(lia)) as Hn.
        destruct (Z.eq_dec (f x) m); lia.
      * exists x, y. repeat split; try lia.
        unfold g in Hg.
        pose proof (Hnone x ltac:(lia)) as Hnx.
        pose proof (Hnone y ltac:(lia)) as Hny.
        destruct (Z.eq_dec (f x) m), (Z.eq_dec (f y) m); congruence.
Qed.

End Pigeonhole.

Module NumberFacts.
Import BufferFacts.

Lemma to_uint_be_acc (b : Buffer.t) (acc : Z) :
  fold_left (fun a x => 256 * a + x) b acc
  = acc * 256 ^ Z.of_nat (List.length b) + Buffer.to_uint_be b.
Proof.
  unfold Buffer.to_uint_be. revert acc.
  induction b as [|x b IH]; intros acc.
  - simpl. lia.
  - cbn [fold_left List.length]. rewrite IH, (IH (256 * 0 + x)).
    rewrite Nat2Z.inj_succ, Z.pow_succ_r by lia. ring.
Qed.

Lemma to_uint_be_cons (x : Z) (b : Buffer.t) :
  Buffer.to_uint_be (x :: b)
  = x * 256 ^ Z.of_nat (List.length b) + Buffer.to_uint_be b.
Proof.
  unfold Buffer.to_uint_be at 1. cbn [fold_left].
  rewrite to_uint_be_acc. f_equal.
Qed.

Lemma to_uint_be_bound (b : Buffer.t) :
  Forall Buffer.is_byte b ->
  0 <= Buffer.to_uint_be b < 256 ^ Z.of_nat (List.length b).
Proof.
  induction 1 as [|x b Hx _ IH].
  - cbn. lia.
  - rewrite to_uint_be_cons. cbn [List.length].
    rewrite Nat2Z.inj_succ, Z.pow_succ_r by lia.
    unfold Buffer.is_byte in Hx. nia.
Qed.

(** The big-endian bytes of a number, read back, give the number modulo
    the capacity. *)
Lemma to_of_uint_be (n : nat) (v : Z) :
  Buffer.to_uint_be (Buffer.of_uint_be n v) = v mod 256 ^ Z.of_nat n.
Proof.
  induction n as [|n IH].
  - cbn. now rewrite Z.mod_1_r.
  - cbn [Buffer.of_uint_be]. rewrite to_uint_be_cons, of_uint_be_length, IH.
    change 255 with (Z.ones 8). rewrite Z.land_ones by lia.
    rewrite Z.shiftr_div_pow2 by lia.
    rewrite Nat2Z.inj_succ, Z.pow_succ_r by lia.
    replace (2 ^ (8 * Z.of_nat n)) with (256 ^ Z.of_nat n)
      by (change 256 with (2 ^ 8); rewrite <- Z.pow_mul_r by lia; reflexivity).
    change (2 ^ 8) with 256.
    assert (Hp : 0 < 256 ^ Z.of_nat n) by (apply Z.pow_pos_nonneg; lia).
    rewrite (Z.mul_comm 256 (256 ^ Z.of_nat n)).
    rewrite (Z.rem_mul_r v (256 ^ Z.of_nat n) 256) by lia.
    ring.
Qed.

End NumberFacts.

Module CollisionFacts.
Import Js BufferFacts NumberFacts.

Lemma to_uint_be_inj (a b : Buffer.t) :
  Forall Buffer.is_byte a -> Forall Buffer.is_byte b ->
  List.length a = List.length b ->
  Buffer.to_uint_be a = Buffer.to_uint_be b -> a = b.
Proof.
  intros Ha. revert b. induction Ha as [|x a Hx Ha IH]; intros b Hb Hl Heq.
  - destruct b; [reflexivity | discriminate Hl].
  - destruct Hb as [|y b Hy Hb]; [discriminate Hl|].
    injection Hl as Hl. rewrite !to_uint_be_cons, <- Hl in Heq.
    pose proof (to_uint_be_bound a Ha) as Ba.
    pose proof (to_uint_be_bound b Hb) as Bb. rewrite <- Hl in Bb.
    assert (Hxy : x = y) by (unfold Buffer.is_byte in *; nia).
    subst y. f_equal. apply IH; [assumption | assumption | lia].
Qed.

(** The digest of the 33-byte big-endian form of a number, as a number,
    is below [2 ^ 256]. *)
Lemma digest_number_range (n : Z) :
  0 <= Buffer.to_uint_be (Sha256.digest (Buffer.of_uint_be 33 n)) < 2 ^ 256.
Proof.
  pose proof (to_uint_be_bound _ (Sha256Facts.digest_bytes (Buffer.of_uint_be 33 n)))
    as H.
  rewrite Sha256Facts.digest_length in H.
  change (256 ^ Z.of_nat 32) with (2 ^ 256) in H. exact H.
Qed.

Lemma digest_number_inj (a b : Buffer.t) :
  Buffer.to_uint_be (Sha256.digest a) = Buffer.to_uint_be (Sha256.digest b) ->
  Sha256.digest a = Sha256.digest b.
Proof.
  intros Heq. apply to_uint_be_inj.
  - apply Sha256Facts.digest_bytes.
  - apply Sha256Facts.digest_bytes.
  - rewrite !Sha256Facts.digest_length. reflexivity.
  - assumption.
Qed.

Lemma of_uint_be_33_inj (x y : Z) :
  0 <= x < y -> y <= 2 ^ 256 ->
  Buffer.of_uint_be 33 y <> Buffer.of_uint_be 33 x.
Proof.
  intros Hxy Hy Hsame. apply (f_equal Buffer.to_uint_be) in Hsame.
  rewrite !to_of_uint_be in Hsame.
  change (256 ^ Z.of_nat 33) with (2 ^ 264) in Hsame.
  rewrite !Z.mod_small in Hsame by lia. lia.
Qed.

(** Two distinct 33-byte inputs have the same SHA-256 digest. *)
Lemma sha256_collision :
  exists p p' : Buffer.t,
    Forall Buffer.is_byte p /\ Forall Buffer.is_byte p' /\ p' <> p
    /\ Sha256.digest p' = Sha256.digest p.
Proof.
  destruct (Pigeonhole.collision (2 ^ 256) ltac:(lia)
              (fun n => Buffer.to_uint_be (Sha256.digest (Buffer.of_uint_be 33 n)))
              (fun x _ => digest_number_range x)) as (x & y & Hxy & Hy & Heq).
  cbv beta in Heq.
  exists (Buffer.of_uint_be 33 x), (Buffer.of_uint_be 33 y).
  split; [apply of_uint_be_bytes|]. split; [apply of_uint_be_bytes|]. split.
  - apply of_uint_be_33_inj; assumption.
  - apply digest_number_inj. symmetry. assumption.
Qed.

End CollisionFacts.

(** C7 (as amended): the digest is a function of the content;
    [verifyIntegrity] accepts a content against its own digest; and against
    the digest of [p] it answers, for any [p'], whether the SHA-256 values of
    [p'] and [p] are equal: it rejects every [p'] whose SHA-256 value
    differs, and accepts only contents with the same SHA-256 value. *)
Theorem C7_digest_verification (p p' : Buffer.t) :
  Encryption.calculateHash p = Encryption.calculateHash p
  /\ Encryption.verifyIntegrity p (Encryption.calculateHash p) = Js.Ok true
  /\ Encryption.verifyIntegrity p' (Encryption.calculateHash p)
     = Js.Ok (Buffer.eqb (Sha256.digest p') (Sha256.digest p))
  /\ (Sha256.digest p' <> Sha256.digest p ->
      Encryption.verifyIntegrity p' (Encryption.calculateHash p) = Js.Ok false)
  /\ (Encryption.verifyIntegrity p' (Encryption.calculateHash p) = Js.Ok true ->
      Sha256.digest p' = Sha256.digest p).
Proof.
  split; [reflexivity|].
  rewrite !DigestFacts.verifyIntegrity_calculateHash.
  split; [now rewrite BufferFacts.eqb_refl|].
  split; [reflexivity|]. split.
  - intros H. now rewrite BufferFacts.eqb_neq.
  - intros H. apply BufferFacts.eqb_eq.
    destruct (Buffer.eqb (Sha256.digest p') (Sha256.digest p));
      [reflexivity | discriminate H].
Qed.

(** C7, as stated, fails: it is not the case that verification against the
    digest of [p] rejects every content different from [p].  Digests have
    256 bits and there are more 33-byte contents than that, so two of them
    have the same digest and each verifies against the digest of the
    other. *)
Lemma C7_distinct_contents_verify :
  ~ (forall p p' : Buffer.t,
        Forall Buffer.is_byte p -> Forall Buffer.is_byte p' -> p' <> p ->
        Encryption.verifyIntegrity p' (Encryption.calculateHash p) = Js.Ok false).
Proof.
  intros claim.
  destruct CollisionFacts.sha256_collision as (p & p' & Hp & Hp' & Hne & Heq).
  specialize (claim p p' Hp Hp' Hne).
  rewrite DigestFacts.verifyIntegrity_calculateHash, Heq, BufferFacts.eqb_refl in claim.
  discriminate claim.
Qed.

(** A single-bit difference in a short content is caught. *)
Example digest_single_bit :
  Encryption.calculateHash (Buffer.of_string "HELLOWRLD")
  = "b28bae89063c8c7a807487ae20ef087e392649a5faff4721382f7eedaa5d1115"%string
  /\ Encryption.verifyIntegrity (Buffer.of_string "HELLOWRLE")
       (Encryption.calculateHash (Buffer.of_string "HELLOWRLD")) = Js.Ok false.
Proof. vm_compute. split; reflexivity. Qed.

(* ================================================================== *)
(** * The primitives return bytes *)
(* ================================================================== *)

Module ByteFacts.
Import BufferFacts.

Lemma zero_byte : Buffer.is_byte 0.
Proof. unfold Buffer.is_byte. lia. Qed.

Lemma byte_log2 (a : Z) : Buffer.is_byte a -> Z.log2 a < 8.
Proof.
  unfold Buffer.is_byte. intros [H0 H1].
  destruct (Z.eq_dec a 0) as [-> | Hne]; [cbn; lia|].
  apply (proj1 (Z.log2_lt_pow2 a 8 ltac:(lia))). change (2 ^ 8) with 256. lia.
Qed.

Lemma lxor_byte (a b : Z) :
  Buffer.is_byte a -> Buffer.is_byte b -> Buffer.is_byte (Z.lxor a b).
Proof.
  intros Ha Hb. pose proof (byte_log2 a Ha). pose proof (byte_log2 b Hb).
  unfold Buffer.is_byte in *.
  assert (Hnn : 0 <= Z.lxor a b) by (apply Z.lxor_nonneg; lia).
  split; [exact Hnn|].
  destruct (Z.eq_dec (Z.lxor a b) 0) as [-> | Hne]; [lia|].
  change 256 with (2 ^ 8).
  apply (proj2 (Z.log2_lt_pow2 (Z.lxor a b) 8 ltac:(lia))).
  pose proof (Z.log2_lxor a b ltac:(lia) ltac:(lia)). lia.
Qed.

Lemma xor_bytes (a b : Buffer.t) :
  Forall Buffer.is_byte a -> Forall Buffer.is_byte b ->
  Forall Buffer.is_byte (Buffer.xor a b).
Proof.
  intros Ha. revert b. induction Ha as [|x a Hx Ha IH]; intros b Hb.
  - constructor.
  - destruct Hb as [|y b Hy Hb]; [constructor|].
    unfold Buffer.xor in *. cbn. constructor.
    + apply lxor_byte; assumption.
    + apply IH. exact Hb.
Qed.

Lemma firstn_bytes (n : nat) (b : Buffer.t) :
  Forall Buffer.is_byte b -> Forall Buffer.is_byte (firstn n b).
Proof.
  intros H. revert n. induction H as [|x b Hx _ IH]; intros [|n]; cbn;
    constructor; [exact Hx | apply IH].
Qed.

Lemma skipn_bytes (n : nat) (b : Buffer.t) :
  Forall Buffer.is_byte b -> Forall Buffer.is_byte (skipn n b).
Proof.
  intros H. revert n. induction H as [|x b Hx Hb IH]; intros [|n]; cbn;
    try constructor; try assumption. apply IH.
Qed.

Lemma nth_byte (i : nat) (b : Buffer.t) :
  Forall Buffer.is_byte b -> Buffer.is_byte (nth i b 0).
Proof.
  intros H. destruct (Nat.lt_ge_cases i (List.length b)) as [Hlt | Hge].
  - apply (proj1 (Forall_forall _ _) H). apply nth_In. exact Hlt.
  - rewrite nth_overflow by exact Hge. apply zero_byte.
Qed.

Lemma zeros_bytes (n : nat) : Forall Buffer.is_byte (Buffer.zeros n).
Proof.
  unfold Buffer.zeros. apply Forall_forall. intros x Hx.
  apply repeat_spec in Hx. subst x. apply zero_byte.
Qed.

End ByteFacts.

Module AesBytes.
Import BufferFacts ByteFacts.

Definition byteb (x : Z) : bool := (0 <=? x) && (x <? 256).

Lemma byteb_spec (x : Z) : byteb x = true -> Buffer.is_byte x.
Proof. unfold byteb, Buffer.is_byte. intros H. apply andb_true_iff in H. lia. Qed.

Lemma sbox_table_bytes : Forall Buffer.is_byte Aes.sbox_table.
Proof.
  apply Forall_forall. intros x Hx. apply byteb_spec.
  assert (H : forallb byteb Aes.sbox_table = true) by (vm_compute; reflexivity).
  rewrite forallb_forall in H. apply H. exact Hx.
Qed.

Lemma sbox_byte (a : Z) : Buffer.is_byte (Aes.sbox a).
Proof. unfold Aes.sbox. apply nth_byte, sbox_table_bytes. Qed.

Lemma sub_bytes_bytes (s : Buffer.t) : Forall Buffer.is_byte (Aes.sub_bytes s).
Proof.
  unfold Aes.sub_bytes. apply Forall_forall. intros x Hx.
  apply in_map_iff in Hx. destruct Hx as [a [<- _]]. apply sbox_byte.
Qed.

Lemma shift_rows_bytes (s : Buffer.t) :
  Forall Buffer.is_byte s -> Forall Buffer.is_byte (Aes.shift_rows s).
Proof.
  intros H. unfold Aes.shift_rows. apply Forall_forall. intros x Hx.
  apply in_map_iff in Hx. destruct Hx as [i [<- _]]. apply nth_byte. exact H.
Qed.

Lemma xtime_byte (a : Z) : Buffer.is_byte a -> Buffer.is_byte (Aes.xtime a).
Proof.
  intros Ha. unfold Aes.xtime. destruct (Z.testbit a 7) eqn:E.
  - apply lxor_byte; [apply land_255_byte | unfold Buffer.is_byte; lia].
  - unfold Buffer.is_byte in *. rewrite Z.shiftl_mul_pow2 by lia.
    assert (a < 128).
    { destruct (Z.lt_ge_cases a 128) as [Hlt | Hge]; [exact Hlt|].
      assert (Z.testbit a 7 = true); [|congruence].
      rewrite Z.testbit_true by lia. change (2 ^ 7) with 128.
      assert (a / 128 = 1)
        by (symmetry; apply Z.div_unique with (r := a - 128); lia).
      rewrite H. reflexivity. }
    change (2 ^ 1) with 2. lia.
Qed.

(** The last round: the bytes of the S-box under the last round key. *)
Lemma last_round_bytes (s rk : Buffer.t) :
  Forall Buffer.is_byte rk ->
  Forall Buffer.is_byte (Buffer.xor (Aes.shift_rows (Aes.sub_bytes s)) rk).
Proof.
  intros H. apply xor_bytes; [|exact H].
  apply shift_rows_bytes, sub_bytes_bytes.
Qed.

Lemma middle_rounds_bytes (rks : list Buffer.t) (s : Buffer.t) :
  rks <> [] -> Forall (Forall Buffer.is_byte) rks ->
  Forall Buffer.is_byte (Aes.middle_rounds rks s).
Proof.
  revert s. induction rks as [|rk rks IH]; intros s Hne H; [contradiction|].
  destruct rks as [|rk' rks].
  - cbn. apply last_round_bytes. exact (Forall_inv H).
  - cbn [Aes.middle_rounds]. apply IH; [discriminate | exact (Forall_inv_tail H)].
Qed.

Lemma sub_word_bytes (w : Buffer.t) : Forall Buffer.is_byte (Aes.sub_word w).
Proof. apply sub_bytes_bytes. Qed.

Lemma expand_bytes (n i : nat) (rc : Z) (prev : list Buffer.t) :
  Buffer.is_byte rc -> Forall (Forall Buffer.is_byte) prev ->
  Forall (Forall Buffer.is_byte) (Aes.expand n i rc prev).
Proof.
  revert i rc prev. induction n as [|n IH]; intros i rc prev Hrc H; [exact H|].
  cbn [Aes.expand]. apply IH.
  - destruct (i mod 8 =? 0)%nat; [apply xtime_byte|]; exact Hrc.
  - constructor; [|exact H].
    assert (Hnth : forall k, Forall Buffer.is_byte (nth k prev [])).
    { intros k. destruct (Nat.lt_ge_cases k (List.length prev)) as [Hlt | Hge].
      - apply (proj1 (Forall_forall _ _) H). apply nth_In. exact Hlt.
      - rewrite nth_overflow by exact Hge. constructor. }
    apply xor_bytes; [apply Hnth|].
    destruct (i mod 8 =? 0)%nat.
    + apply xor_bytes; [apply sub_word_bytes|].
      constructor; [exact Hrc|].
      do 3 (constructor; [apply zero_byte|]). constructor.
    + destruct (i mod 8 =? 4)%nat; [apply sub_word_bytes | apply Hnth].
Qed.

Lemma chunks_bytes (n size : nat) (b : Buffer.t) :
  Forall Buffer.is_byte b -> Forall (Forall Buffer.is_byte) (Aes.chunks n size b).
Proof.
  revert b. induction n as [|n IH]; intros b H; cbn; constructor.
  - apply firstn_bytes. exact H.
  - apply IH, skipn_bytes. exact H.
Qed.

Lemma concat_bytes (l : list Buffer.t) :
  Forall (Forall Buffer.is_byte) l -> Forall Buffer.is_byte (List.concat l).
Proof.
  induction 1 as [|b l Hb _ IH]; cbn; [constructor|].
  apply Forall_app. split; assumption.
Qed.

Lemma round_keys_bytes (key : Buffer.t) :
  Forall Buffer.is_byte key -> Forall (Forall Buffer.is_byte) (Aes.round_keys key).
Proof.
  intros H. unfold Aes.round_keys. apply chunks_bytes, concat_bytes.
  apply Forall_rev. apply expand_bytes; [unfold Buffer.is_byte; lia|].
  apply Forall_rev. apply chunks_bytes. exact H.
Qed.

(** Under a key made of bytes the cipher returns bytes, whatever the
    block. *)
Lemma encrypt_block_bytes (key block : Buffer.t) :
  Forall Buffer.is_byte key -> Forall Buffer.is_byte (Aes.encrypt_block key block).
Proof.
  intros H. unfold Aes.encrypt_block.
  pose proof (round_keys_bytes key H) as Hrk.
  unfold Aes.round_keys in *.
  set (material := List.concat _) in *.
  change (Aes.chunks 15 16 material)
    with (firstn 16 material :: Aes.chunks 14 16 (skipn 16 material)) in *.
  cbn [Aes.encrypt_with]. apply middle_rounds_bytes.
  - discriminate.
  - exact (Forall_inv_tail Hrk).
Qed.

End AesBytes.

Module GcmBytes.
Import BufferFacts ByteFacts.

Section WithKey.
Variable key : Buffer.t.
Hypothesis key_bytes : Forall Buffer.is_byte key.

Lemma ctr_bytes (n : nat) (cb data : Buffer.t) :
  Forall Buffer.is_byte data -> Forall Buffer.is_byte (Gcm.ctr n key cb data).
Proof.
  revert cb data. induction n as [|n IH]; intros cb data H; cbn [Gcm.ctr];
    [constructor|].
  apply Forall_app. split.
  - apply xor_bytes; [apply firstn_bytes; exact H|].
    apply AesBytes.encrypt_block_bytes. exact key_bytes.
  - apply IH, skipn_bytes. exact H.
Qed.

(** Ciphertext and tag are made of bytes when key and plaintext are. *)
Lemma crypt_bytes (iv data : Buffer.t) :
  Forall Buffer.is_byte data -> Forall Buffer.is_byte (Gcm.crypt key iv data).
Proof. intros H. apply ctr_bytes. exact H. Qed.

Lemma tag_bytes (iv c : Buffer.t) : Forall Buffer.is_byte (Gcm.tag key iv c).
Proof.
  unfold Gcm.tag. apply xor_bytes.
  - apply AesBytes.encrypt_block_bytes. exact key_bytes.
  - apply of_uint_be_bytes.
Qed.

End WithKey.
End GcmBytes.

(* ================================================================== *)
(** * The derived key: 32 bytes *)
(* ================================================================== *)

Module KdfFacts.
Import BufferFacts ByteFacts.

Lemma hmac_length (key msg : Buffer.t) :
  List.length (Hmac.hmac_sha256 key msg) = 32%nat.
Proof. apply Sha256Facts.digest_length. Qed.

Lemma hmac_bytes (key msg : Buffer.t) :
  Forall Buffer.is_byte (Hmac.hmac_sha256 key msg).
Proof. apply Sha256Facts.digest_bytes. Qed.

Lemma iterate_shape (password : Buffer.t) (n : nat) (u acc : Buffer.t) :
  List.length acc = 32%nat -> Forall Buffer.is_byte acc ->
  List.length (Pbkdf2.iterate password n u acc) = 32%nat
  /\ Forall Buffer.is_byte (Pbkdf2.iterate password n u acc).
Proof.
  revert u acc. induction n as [|n IH]; intros u acc Hl Hb; cbn [Pbkdf2.iterate].
  - split; assumption.
  - apply IH.
    + rewrite xor_length, Hl, hmac_length. reflexivity.
    + apply xor_bytes; [exact Hb | apply hmac_bytes].
Qed.

Lemma block_shape (password salt : Buffer.t) (c : nat) (idx : Z) :
  List.length (Pbkdf2.block password salt c idx) = 32%nat
  /\ Forall Buffer.is_byte (Pbkdf2.block password salt c idx).
Proof.
  unfold Pbkdf2.block. apply iterate_shape; [apply hmac_length | apply hmac_bytes].
Qed.

(** The master key has 32 bytes, whatever the password, the salt and the
    iteration count. *)
Lemma pbkdf2_32 (password salt : Buffer.t) (c : nat) :
  List.length (Pbkdf2.pbkdf2_sha256 password salt c 32) = 32%nat
  /\ Forall Buffer.is_byte (Pbkdf2.pbkdf2_sha256 password salt c 32).
Proof.
  unfold Pbkdf2.pbkdf2_sha256.
  change (Nat.div (32 + 31) 32) with 1%nat. cbn [Pbkdf2.blocks_from].
  destruct (block_shape password salt c 1) as [Hl Hb].
  rewrite app_nil_r, ListFacts.firstn_short by (rewrite Hl; apply Nat.le_refl).
  split; assumption.
Qed.

Lemma deriveKey_length (password salt : string) :
  List.length (KeyDerivation.deriveKey password salt) = 32%nat.
Proof. apply pbkdf2_32. Qed.

Lemma deriveKey_bytes (password salt : string) :
  Forall Buffer.is_byte (KeyDerivation.deriveKey password salt).
Proof. apply pbkdf2_32. Qed.

End KdfFacts.

(* ================================================================== *)
(** * The record store: lookups after updates *)
(* ================================================================== *)

Module StoreFacts.

Lemma find_none_filter {A : Type} (q : A -> bool) (l : list A) :
  find q l = None -> filter q l = [].
Proof.
  induction l as [|x l IH]; simpl; [reflexivity|].
  destruct (q x); [discriminate | exact IH].
Qed.

Lemma find_some_holds {A : Type} (q : A -> bool) (l : list A) (x : A) :
  find q l = Some x -> q x = true.
Proof. intros H. apply find_some in H. apply H. Qed.

(** A lookup finds the image of what it found before, when the update
    does not change what the query looks at. *)
Lemma find_map {A : Type} (q : A -> bool) (g : A -> A) (l : list A) (x : A) :
  (forall y, q (g y) = q y) ->
  find q l = Some x -> find q (map g l) = Some (g x).
Proof.
  intros Hq. induction l as [|y l IH]; simpl; [discriminate|].
  rewrite Hq. destruct (q y); [intros [= ->]; reflexivity | exact IH].
Qed.

Lemma find_map_none {A : Type} (q : A -> bool) (g : A -> A) (l : list A) :
  (forall y, q (g y) = q y) ->
  find q l = None -> find q (map g l) = None.
Proof.
  intros Hq. induction l as [|y l IH]; simpl; [reflexivity|].
  rewrite Hq. destruct (q y); [discriminate | exact IH].
Qed.

(** The update of a user keeps its identifier and its e-mail address when
    the change of fields does. *)
Definition keeps_identity (f : User.t -> User.t) : Prop :=
  forall u, User._id (f u) = User._id u /\ User.email (f u) = User.email u.

Lemma set_login_keeps (a : Z) (l : option Z) : keeps_identity (User.set_login a l).
Proof. intros u. split; reflexivity. Qed.

Lemma incrementLoginAttempts_keeps (this : User.t) (now : Z) :
  keeps_identity (User.incrementLoginAttempts this now).
Proof.
  unfold User.incrementLoginAttempts. destruct (User.lock_expired this now).
  - apply set_login_keeps.
  - intros u. split; reflexivity.
Qed.

Section Update.
Variables (id now : Z) (f : User.t -> User.t) (w : World.t).
Hypothesis keeps : keeps_identity f.

Let g := fun u => if User._id u =? id then User.touch now (f u) else u.

Lemma update_id (u : User.t) : User._id (g u) = User._id u.
Proof.
  unfold g. destruct (User._id u =? id); [|reflexivity].
  cbn. apply keeps.
Qed.

Lemma update_email (u : User.t) : User.email (g u) = User.email u.
Proof.
  unfold g. destruct (User._id u =? id); [|reflexivity].
  cbn. apply keeps.
Qed.

Lemma findById_update (k : Z) (u : User.t) :
  World.User_findById k w = Some u ->
  World.User_findById k (World.User_update id now f w) = Some (g u).
Proof.
  unfold World.User_findById, World.User_findOne, World.User_update. cbn.
  apply find_map. intros y. fold (g y). now rewrite update_id.
Qed.

Lemma findByEmail_update (e : string) (u : User.t) :
  World.User_findOne (fun u => (User.email u =? e)%string) w = Some u ->
  World.User_findOne (fun u => (User.email u =? e)%string)
    (World.User_update id now f w) = Some (g u).
Proof.
  unfold World.User_findOne, World.User_update. cbn.
  apply (find_map (fun u => (User.email u =? e)%string)).
  intros y. fold (g y). now rewrite update_email.
Qed.

End Update.

End StoreFacts.

(* ================================================================== *)
(** * Login: failed attempts, the lock and its reset *)
(* ================================================================== *)

Module LoginFacts.
Import Http.

Section Login.
Variable rt : Runtime.t.
Variable c : client.

Definition account (email : string) (w : World.t) : option User.t :=
  World.User_findOne (fun u => (User.email u =? email)%string) w.

Definition attempt (email password : string) (now : Z) (w : World.t)
  : response * World.t :=
  AuthController.login rt (Some email) (Some password) c now w.

(** The stored account after a failed attempt at time [now]. *)
Definition failed (u : User.t) (now : Z) : User.t :=
  User.touch now (User.incrementLoginAttempts u now u).

Lemma attempt_unknown (email password : string) (now : Z) (w : World.t) :
  Js.truthy (Some email) = true ->
  Js.truthy (Some password) = true ->
  account email w = None ->
  attempt email password now w
  = (fail 401 "Invalid credentials.",
     World.note_compare password AuthController.DUMMY_HASH w).
Proof.
  intros He Hp Hnone. unfold attempt, AuthController.login.
  destruct email as [|a e]; [discriminate He|].
  destruct password as [|b p]; [discriminate Hp|].
  unfold account in Hnone. rewrite Hnone. reflexivity.
Qed.

Lemma attempt_locked (email password : string) (now : Z) (w : World.t)
  (u : User.t) :
  Js.truthy (Some email) = true ->
  Js.truthy (Some password) = true ->
  account email w = Some u -> User.isLocked u now = true ->
  fst (attempt email password now w)
  = fail 423 "Account is temporarily locked. Try again later."
  /\ World.users (snd (attempt email password now w)) = World.users w
  /\ World.compared (snd (attempt email password now w)) = World.compared w.
Proof.
  intros He Hp Hu Hl. unfold attempt, AuthController.login.
  destruct email as [|a e]; [discriminate He|].
  destruct password as [|b p]; [discriminate Hp|].
  unfold account in Hu. rewrite Hu, Hl. repeat split.
Qed.

Lemma attempt_wrong (email password : string) (now : Z) (w : World.t)
  (u : User.t) :
  Js.truthy (Some email) = true ->
  Js.truthy (Some password) = true ->
  account email w = Some u -> User.isLocked u now = false ->
  Runtime.bcrypt_compare rt password (User.password u) = false ->
  fst (attempt email password now w) = fail 401 "Invalid credentials."
  /\ account email (snd (attempt email password now w)) = Some (failed u now)
  /\ World.User_findById (User._id u) (snd (attempt email password now w))
     = option_map (fun v => if User._id v =? User._id u
                            then User.touch now (User.incrementLoginAttempts u now v)
                            else v)
                  (World.User_findById (User._id u) w).
Proof.
  intros He Hp Hu Hl Hc. unfold attempt, AuthController.login.
  destruct email as [|a e]; [discriminate He|].
  destruct password as [|b p]; [discriminate Hp|].
  unfold account in *. rewrite Hu, Hl, Hc. cbn [negb fst snd].
  split; [reflexivity|]. split.
  - unfold failed.
    pose proof (StoreFacts.findByEmail_update (User._id u) now
                  (User.incrementLoginAttempts u now)
                  (World.note_compare (String b p) (User.password u) w)
                  (StoreFacts.incrementLoginAttempts_keeps u now)
                  (String a e) u Hu) as H.
    cbv beta zeta in H. rewrite Z.eqb_refl in H. exact H.
  - destruct (World.User_findById (User._id u) w) as [v|] eqn:Hv.
    + apply (StoreFacts.findById_update (User._id u) now
               (User.incrementLoginAttempts u now)
               (World.note_compare (String b p) (User.password u) w)
               (StoreFacts.incrementLoginAttempts_keeps u now)
               (User._id u) v Hv).
    + cbn [option_map]. unfold World.User_findById, World.User_findOne in *.
      cbn. apply StoreFacts.find_map_none; [|exact Hv].
      intros y.
      pose proof (StoreFacts.update_id (User._id u) now
                    (User.incrementLoginAttempts u now)
                    (StoreFacts.incrementLoginAttempts_keeps u now) y) as Hy.
      cbv beta zeta in Hy. rewrite Hy. reflexivity.
Qed.

(** The counter and the lock after a failed attempt on an account with no
    lock. *)
Lemma failed_counts (u : User.t) (now : Z) :
  User.lockUntil u = None ->
  User.loginAttempts (failed u now) = User.loginAttempts u + 1
  /\ User.lockUntil (failed u now)
     = (if User.loginAttempts u + 1 >=? 5 then Some (now + User.LOCK_TIME) else None)
  /\ User.password (failed u now) = User.password u
  /\ User._id (failed u now) = User._id u
  /\ User.mfaSecret (failed u now) = User.mfaSecret u.
Proof.
  intros Hl. unfold failed, User.incrementLoginAttempts, User.lock_expired.
  rewrite Hl. cbn. rewrite Hl. repeat split.
Qed.

(** The account of [u] as it is stored after some attempts: found by its
    e-mail address and by its identifier, with a given counter and lock,
    its password hash and its TOTP secret unchanged. *)
Definition stored_as (email : string) (u : User.t) (attempts : Z)
  (lock : option Z) (w : World.t) : Prop :=
  exists v : User.t,
    account email w = Some v
    /\ World.User_findById (User._id u) w = Some v
    /\ User.loginAttempts v = attempts /\ User.lockUntil v = lock
    /\ User.password v = User.password u /\ User._id v = User._id u
    /\ User.mfaSecret v = User.mfaSecret u.

Lemma failure_counts (email password : string) (u : User.t) (k now : Z)
  (w : World.t) :
  Js.truthy (Some email) = true ->
  Js.truthy (Some password) = true ->
  Runtime.bcrypt_compare rt password (User.password u) = false ->
  stored_as email u k None w ->
  fst (attempt email password now w) = fail 401 "Invalid credentials."
  /\ stored_as email u (k + 1)
       (if k + 1 >=? 5 then Some (now + User.LOCK_TIME) else None)
       (snd (attempt email password now w)).
Proof.
  intros He Hp Hc (v & Hv & Hid & Hk & Hl & Hpw & Hi & Hm).
  assert (Hunlocked : User.isLocked v now = false)
    by (unfold User.isLocked; rewrite Hl; reflexivity).
  rewrite <- Hpw in Hc.
  destruct (attempt_wrong email password now w v He Hp Hv Hunlocked Hc)
    as (Hr & Ha & Hb).
  split; [exact Hr|].
  destruct (failed_counts v now Hl) as (Fk & Fl & Fp & Fi & Fm).
  exists (failed v now). split; [exact Ha|]. split.
  - rewrite <- Hi, Hb, Hi, Hid. cbn [option_map]. rewrite Hi, Z.eqb_refl.
    reflexivity.
  - rewrite Fk, Fl, Fp, Fi, Fm, Hk. repeat split; assumption.
Qed.

Lemma set_mfaVerified_keeps (b : bool) : StoreFacts.keeps_identity (User.set_mfaVerified b).
Proof. intros u. split; reflexivity. Qed.

Lemma set_lastLogin_keeps (f : User.t -> User.t) (now : Z) :
  StoreFacts.keeps_identity f ->
  StoreFacts.keeps_identity (fun stored => User.set_lastLogin now (f stored)).
Proof. intros Hf u. destruct (Hf u) as [H1 H2]. split; cbn; assumption. Qed.

(** A completed MFA step on an account whose counter is positive leaves
    it with a counter of 0 and no lock. *)
Lemma mfa_resets (email code : string) (u : User.t) (k : Z) (lock : option Z)
  (tok : token) (now : Z) (w : World.t) :
  Js.truthy (Some code) = true ->
  0 < k ->
  stored_as email u k lock w ->
  id tok = User._id u -> mfaPending tok = true -> now < expires tok ->
  Runtime.totp_verify rt (User.mfaSecret u) code now = true ->
  status (fst (AuthController.verify_mfa_route rt (Some tok) (Some code) c now w))
  = 200
  /\ stored_as email u 0 None
       (snd (AuthController.verify_mfa_route rt (Some tok) (Some code) c now w)).
Proof.
  intros Hcode Hk (v & Hv & Hid & Hat & Hl & Hpw & Hi & Hm) Htok Hpend Hexp Htotp.
  unfold AuthController.verify_mfa_route, Middleware.verifyMFAToken.
  assert (Hnot : (expires tok <=? now) = false) by (apply Z.leb_gt; exact Hexp).
  rewrite Hnot, Hpend, Htok, Hid. cbn [negb].
  unfold AuthController.verifyMFA.
  destruct code as [|a s]; [discriminate Hcode|].
  rewrite Hm, Htotp. cbn [negb fst snd status].
  split; [reflexivity|].
  assert (Hpos : (User.loginAttempts v >? 0) = true)
    by (rewrite Hat; apply Z.gtb_lt; exact Hk).
  rewrite Hpos.
  set (g := fun stored : User.t => User.set_lastLogin now (User.set_login 0 None stored)).
  assert (Hg : StoreFacts.keeps_identity g)
    by (apply set_lastLogin_keeps, StoreFacts.set_login_keeps).
  rewrite <- Hi in Hid.
  destruct (User.mfaVerified v) eqn:Hver; cbn [negb].
  - pose proof (StoreFacts.findByEmail_update (User._id v) now g w Hg email v Hv) as E1.
    pose proof (StoreFacts.findById_update (User._id v) now g w Hg (User._id v) v Hid)
      as E2.
    cbv beta zeta in E1, E2. rewrite Z.eqb_refl in E1, E2.
    exists (User.touch now (g v)). unfold account. rewrite <- Hi.
    split; [exact E1|]. split; [exact E2|].
    cbn. repeat split; assumption.
  - set (w1 := World.log (AuthController.audit v AuditLog.MFA_SETUP AuditLog.SUCCESS [] c)
                (World.User_update (User._id v) now (User.set_mfaVerified true) w)).
    set (v1 := User.touch now (User.set_mfaVerified true v)).
    assert (A1 : account email w1 = Some v1).
    { pose proof (StoreFacts.findByEmail_update (User._id v) now
                    (User.set_mfaVerified true) w (set_mfaVerified_keeps true)
                    email v Hv) as E.
      cbv beta zeta in E. rewrite Z.eqb_refl in E. exact E. }
    assert (B1 : World.User_findById (User._id v) w1 = Some v1).
    { pose proof (StoreFacts.findById_update (User._id v) now
                    (User.set_mfaVerified true) w (set_mfaVerified_keeps true)
                    (User._id v) v Hid) as E.
      cbv beta zeta in E. rewrite Z.eqb_refl in E. exact E. }
    pose proof (StoreFacts.findByEmail_update (User._id v) now g w1 Hg email v1 A1)
      as E1.
    pose proof (StoreFacts.findById_update (User._id v) now g w1 Hg (User._id v) v1 B1)
      as E2.
    cbv beta zeta in E1, E2.
    change (User._id v1) with (User._id v) in E1, E2.
    rewrite Z.eqb_refl in E1, E2.
    exists (User.touch now (g v1)). unfold account. rewrite <- Hi.
    split; [exact E1|]. split; [exact E2|].
    cbn. repeat split; assumption.
Qed.

End Login.
End LoginFacts.

(* ================================================================== *)
(** * C5: five failures lock the account for two hours *)
(* ================================================================== *)

(** What C5 says of an account [u] with the e-mail address [email], in the
    state [w], for a password that does not match and attempts at the times
    [t1] to [t5]: each attempt is answered 401; after one to four attempts
    the counter is the number of attempts and no lock is set; after the
    fifth the counter is 5 and the lock is two hours after that attempt;
    while the lock is in the future an attempt with any password is answered
    423 and leaves every account as it was; and a completed MFA step then
    leaves the counter at 0 and no lock. *)
Definition lockout_property (rt : Runtime.t) (c : Http.client)
  (email password : string) (u : User.t) (w : World.t) (t1 t2 t3 t4 t5 : Z)
  : Prop :=
  let try := fun t w => AuthController.login rt (Some email) (Some password) c t w in
  let w1 := snd (try t1 w) in
  let w2 := snd (try t2 w1) in
  let w3 := snd (try t3 w2) in
  let w4 := snd (try t4 w3) in
  let w5 := snd (try t5 w4) in
  map (fun r => Http.status (fst r))
      [try t1 w; try t2 w1; try t3 w2; try t4 w3; try t5 w4]
  = [401; 401; 401; 401; 401]
  /\ LoginFacts.stored_as email u 1 None w1
  /\ LoginFacts.stored_as email u 2 None w2
  /\ LoginFacts.stored_as email u 3 None w3
  /\ LoginFacts.stored_as email u 4 None w4
  /\ LoginFacts.stored_as email u 5 (Some (t5 + 2 * 60 * 60 * 1000)) w5
  /\ (forall (t6 : Z) (any : string),
        Js.truthy (Some any) = true -> t6 < t5 + 2 * 60 * 60 * 1000 ->
        fst (AuthController.login rt (Some email) (Some any) c t6 w5)
        = Http.fail 423 "Account is temporarily locked. Try again later."
        /\ World.users (snd (AuthController.login rt (Some email) (Some any) c t6 w5))
           = World.users w5)
  /\ (forall (t7 : Z) (code : string) (tok : Http.token),
        Js.truthy (Some code) = true ->
        Http.id tok = User._id u -> Http.mfaPending tok = true ->
        t7 < Http.expires tok ->
        Runtime.totp_verify rt (User.mfaSecret u) code t7 = true ->
        Http.status
          (fst (AuthController.verify_mfa_route rt (Some tok) (Some code) c t7 w5))
        = 200
        /\ LoginFacts.stored_as email u 0 None
             (snd (AuthController.verify_mfa_route rt (Some tok) (Some code) c t7 w5))).

(** C5: starting from a counter of 0 with no lock, five consecutive failed
    password attempts set a lock of exactly two hours (and fewer set none);
    an attempt while the lock is in the future gets the locked response and
    changes no account; a successful MFA completion resets the counter to 0
    and clears the lock. *)
Theorem C5_lockout (rt : Runtime.t) (c : Http.client) (email password : string)
  (u : User.t) (w : World.t) (t1 t2 t3 t4 t5 : Z) :
  Js.truthy (Some email) = true ->
  Js.truthy (Some password) = true ->
  World.User_findOne (fun v => (User.email v =? email)%string) w = Some u ->
  World.User_findById (User._id u) w = Some u ->
  User.loginAttempts u = 0 -> User.lockUntil u = None ->
  Runtime.bcrypt_compare rt password (User.password u) = false ->
  lockout_property rt c email password u w t1 t2 t3 t4 t5.
Proof.
  intros He Hp Hu Hid Hk Hl Hc.
  assert (S0 : LoginFacts.stored_as email u 0 None w).
  { exists u. repeat split; assumption. }
  unfold lockout_property. cbv zeta.
  destruct (LoginFacts.failure_counts rt c email password u 0 t1 w He Hp Hc S0)
    as [R1 S1].
  fold (LoginFacts.attempt rt c email password t1 w).
  set (w1 := snd (LoginFacts.attempt rt c email password t1 w)) in *.
  destruct (LoginFacts.failure_counts rt c email password u 1 t2 w1 He Hp Hc S1)
    as [R2 S2].
  fold (LoginFacts.attempt rt c email password t2 w1).
  set (w2 := snd (LoginFacts.attempt rt c email password t2 w1)) in *.
  destruct (LoginFacts.failure_counts rt c email password u 2 t3 w2 He Hp Hc S2)
    as [R3 S3].
  fold (LoginFacts.attempt rt c email password t3 w2).
  set (w3 := snd (LoginFacts.attempt rt c email password t3 w2)) in *.
  destruct (LoginFacts.failure_counts rt c email password u 3 t4 w3 He Hp Hc S3)
    as [R4 S4].
  fold (LoginFacts.attempt rt c email password t4 w3).
  set (w4 := snd (LoginFacts.attempt rt c email password t4 w3)) in *.
  destruct (LoginFacts.failure_counts rt c email password u 4 t5 w4 He Hp Hc S4)
    as [R5 S5].
  fold (LoginFacts.attempt rt c email password t5 w4).
  set (w5 := snd (LoginFacts.attempt rt c email password t5 w4)) in *.
  change (0 + 1) with 1 in *. change (1 + 1) with 2 in *.
  change (2 + 1) with 3 in *. change (3 + 1) with 4 in *.
  change (4 + 1) with 5 in *.
  change (if 1 >=? 5 then Some (t1 + User.LOCK_TIME) else None)
    with (@None Z) in S1.
  change (if 2 >=? 5 then Some (t2 + User.LOCK_TIME) else None)
    with (@None Z) in S2.
  change (if 3 >=? 5 then Some (t3 + User.LOCK_TIME) else None)
    with (@None Z) in S3.
  change (if 4 >=? 5 then Some (t4 + User.LOCK_TIME) else None)
    with (@None Z) in S4.
  change (if 5 >=? 5 then Some (t5 + User.LOCK_TIME) else None)
    with (Some (t5 + 2 * 60 * 60 * 1000)) in S5.
  split.
  { cbn [map]. rewrite R1, R2, R3, R4, R5. reflexivity. }
  do 5 (split; [assumption|]).
  split.
  - intros t6 any Hany Ht6.
    destruct S5 as (v & Hv & _ & _ & Hlock & _).
    assert (Hlocked : User.isLocked v t6 = true).
    { unfold User.isLocked. rewrite Hlock. apply Z.ltb_lt. exact Ht6. }
    destruct (LoginFacts.attempt_locked rt c email any t6 w5 v He Hany Hv Hlocked)
      as (A & B & _).
    split; assumption.
  - intros t7 code tok Hcode Htok Hpend Hexp Htotp.
    apply (LoginFacts.mfa_resets rt c email code u 5 (Some (t5 + 2 * 60 * 60 * 1000)));
      try assumption. lia.
Qed.

Lemma C5_witness :
  (Js.truthy (Some SampleAccount.email) = true
   /\ Js.truthy (Some "wrong guess"%string) = true
   /\ World.User_findOne (fun v => (User.email v =? SampleAccount.email)%string)
        SampleAccount.world = Some SampleAccount.ann
   /\ World.User_findById (User._id SampleAccount.ann) SampleAccount.world
      = Some SampleAccount.ann
   /\ User.loginAttempts SampleAccount.ann = 0
   /\ User.lockUntil SampleAccount.ann = None
   /\ Runtime.bcrypt_compare Sample.runtime "wrong guess"
        (User.password SampleAccount.ann) = false)
  /\ lockout_property Sample.runtime Sample.client SampleAccount.email "wrong guess"
       SampleAccount.ann SampleAccount.world 2000 3000 4000 5000 6000.
Proof.
  assert (H3 : World.User_findOne
                 (fun v => (User.email v =? SampleAccount.email)%string)
                 SampleAccount.world = Some SampleAccount.ann)
    by (vm_compute; reflexivity).
  assert (H4 : World.User_findById (User._id SampleAccount.ann) SampleAccount.world
               = Some SampleAccount.ann) by (vm_compute; reflexivity).
  split.
  - repeat split; try reflexivity; assumption.
  - apply (C5_lockout Sample.runtime Sample.client SampleAccount.email "wrong guess"
             SampleAccount.ann SampleAccount.world 2000 3000 4000 5000 6000);
      try reflexivity; assumption.
Defined.

(** The same run on the sample account, evaluated: the stored counter and
    lock after each of six attempts, the sixth inside the lock window. *)
Example lockout_run :
  let try := fun t w =>
    snd (AuthController.login Sample.runtime (Some SampleAccount.email)
           (Some "wrong guess"%string) Sample.client t w) in
  let w5 := try 6000 (try 5000 (try 4000 (try 3000 (try 2000 SampleAccount.world)))) in
  let shown := fun w =>
    map (fun v => (User.loginAttempts v, User.lockUntil v)) (World.users w) in
  shown (try 5000 (try 4000 (try 3000 (try 2000 SampleAccount.world)))) = [(4, None)]
  /\ shown w5 = [(5, Some 7206000)]
  /\ shown (try 7000 w5) = [(5, Some 7206000)]
  /\ Http.status
       (fst (AuthController.login Sample.runtime (Some SampleAccount.email)
               (Some "correct horse"%string) Sample.client 7000 w5)) = 423
  /\ shown
       (snd (AuthController.verify_mfa_route Sample.runtime
               (Some SampleAccount.pending)
               (Some (User.mfaSecret SampleAccount.ann)) Sample.client 8000 w5))
     = [(0, None)].
Proof. vm_compute. repeat split; reflexivity. Qed.

(* ================================================================== *)
(** * C8: what a login reveals about an e-mail address *)
(* ================================================================== *)

(** C8 (as amended): a login with an e-mail address that matches no
    account makes one password comparison, against the fixed hash, and is
    answered 401 'Invalid credentials.'; a login with a wrong password on an
    existing account that is not locked gets the very same response; on an
    existing account that is locked the response is 423 'Account is
    temporarily locked. Try again later.' instead. *)
Theorem C8_login_responses (rt : Runtime.t) (c : Http.client)
  (unknown known password : string) (u : User.t) (now : Z) (w : World.t) :
  Js.truthy (Some unknown) = true ->
  Js.truthy (Some known) = true ->
  Js.truthy (Some password) = true ->
  World.User_findOne (fun v => (User.email v =? unknown)%string) w = None ->
  World.User_findOne (fun v => (User.email v =? known)%string) w = Some u ->
  Runtime.bcrypt_compare rt password (User.password u) = false ->
  let absent := AuthController.login rt (Some unknown) (Some password) c now w in
  let present := AuthController.login rt (Some known) (Some password) c now w in
  fst absent = Http.fail 401 "Invalid credentials."
  /\ World.compared (snd absent)
     = World.compared w ++ [(password, AuthController.DUMMY_HASH)]
  /\ World.users (snd absent) = World.users w
  /\ (User.isLocked u now = false -> fst present = fst absent)
  /\ (User.isLocked u now = true ->
      fst present = Http.fail 423 "Account is temporarily locked. Try again later.").
Proof.
  intros Hun Hkn Hp Hnone Hsome Hc. cbv zeta.
  pose proof (LoginFacts.attempt_unknown rt c unknown password now w Hun Hp Hnone) as A.
  unfold LoginFacts.attempt in A. rewrite A. cbn [fst snd].
  split; [reflexivity|]. split; [reflexivity|]. split; [reflexivity|]. split.
  - intros Hl.
    apply (LoginFacts.attempt_wrong rt c known password now w u Hkn Hp Hsome Hl Hc).
  - intros Hl.
    apply (LoginFacts.attempt_locked rt c known password now w u Hkn Hp Hsome Hl).
Qed.

Lemma C8_witness :
  (Js.truthy (Some "nobody@example.org"%string) = true
   /\ Js.truthy (Some SampleAccount.email) = true
   /\ Js.truthy (Some "wrong guess"%string) = true
   /\ World.User_findOne (fun v => (User.email v =? "nobody@example.org")%string)
        SampleAccount.world = None
   /\ World.User_findOne (fun v => (User.email v =? SampleAccount.email)%string)
        SampleAccount.world = Some SampleAccount.ann
   /\ Runtime.bcrypt_compare Sample.runtime "wrong guess"
        (User.password SampleAccount.ann) = false)
  /\ fst (AuthController.login Sample.runtime (Some "nobody@example.org"%string)
            (Some "wrong guess"%string) Sample.client 2000 SampleAccount.world)
     = Http.fail 401 "Invalid credentials."
  /\ World.compared
       (snd (AuthController.login Sample.runtime (Some "nobody@example.org"%string)
               (Some "wrong guess"%string) Sample.client 2000 SampleAccount.world))
     = World.compared SampleAccount.world
       ++ [("wrong guess"%string, AuthController.DUMMY_HASH)]
  /\ World.users
       (snd (AuthController.login Sample.runtime (Some "nobody@example.org"%string)
               (Some "wrong guess"%string) Sample.client 2000 SampleAccount.world))
     = World.users SampleAccount.world
  /\ (User.isLocked SampleAccount.ann 2000 = false ->
      fst (AuthController.login Sample.runtime (Some SampleAccount.email)
             (Some "wrong guess"%string) Sample.client 2000 SampleAccount.world)
      = fst (AuthController.login Sample.runtime (Some "nobody@example.org"%string)
               (Some "wrong guess"%string) Sample.client 2000 SampleAccount.world))
  /\ (User.isLocked SampleAccount.ann 2000 = true ->
      fst (AuthController.login Sample.runtime (Some SampleAccount.email)
             (Some "wrong guess"%string) Sample.client 2000 SampleAccount.world)
      = Http.fail 423 "Account is temporarily locked. Try again later.").
Proof.
  assert (H4 : World.User_findOne
                 (fun v => (User.email v =? "nobody@example.org")%string)
                 SampleAccount.world = None) by (vm_compute; reflexivity).
  assert (H5 : World.User_findOne
                 (fun v => (User.email v =? SampleAccount.email)%string)
                 SampleAccount.world = Some SampleAccount.ann)
    by (vm_compute; reflexivity).
  split.
  - repeat split; try reflexivity; assumption.
  - apply (C8_login_responses Sample.runtime Sample.client "nobody@example.org"
             SampleAccount.email "wrong guess" SampleAccount.ann 2000
             SampleAccount.world); try reflexivity; assumption.
Defined.


(** C8, as stated, fails: with the same wrong password, at the same time
    and in the same state, the login with the address of an existing
    account that is locked is answered 423 and the login with an address
    that matches no account is answered 401: the response tells the two
    apart. *)
Lemma C8_locked_account_is_told_apart :
  fst (AuthController.login Sample.runtime (Some SampleAccount.email)
         (Some "wrong guess"%string) Sample.client 7000 locked_world)
  = Http.fail 423 "Account is temporarily locked. Try again later."
  /\ fst (AuthController.login Sample.runtime (Some "nobody@example.org"%string)
            (Some "wrong guess"%string) Sample.client 7000 locked_world)
     = Http.fail 401 "Invalid credentials."
  /\ fst (AuthController.login Sample.runtime (Some SampleAccount.email)
            (Some "wrong guess"%string) Sample.client 7000 locked_world)
     <> fst (AuthController.login Sample.runtime (Some "nobody@example.org"%string)
               (Some "wrong guess"%string) Sample.client 7000 locked_world).
Proof.
  assert (A : fst (AuthController.login Sample.runtime (Some SampleAccount.email)
                     (Some "wrong guess"%string) Sample.client 7000 locked_world)
              = Http.fail 423 "Account is temporarily locked. Try again later.")
    by (vm_compute; reflexivity).
  assert (B : fst (AuthController.login Sample.runtime
                     (Some "nobody@example.org"%string)
                     (Some "wrong guess"%string) Sample.client 7000 locked_world)
              = Http.fail 401 "Invalid credentials.")
    by (vm_compute; reflexivity).
  split; [exact A|]. split; [exact B|]. rewrite A, B. discriminate.
Qed.

(* ================================================================== *)
(** * C1: registrations that ask for the administrator role *)
(* ================================================================== *)

Module RegisterFacts.
Import Http.

Definition is_admin (u : User.t) : bool := Role.eqb (User.role u) Role.admin.

Definition admins (w : World.t) : list User.t := filter is_admin (World.users w).

Section Register.
Variable rt : Runtime.t.

(** A registration leaves the accounts as they are or adds one; it adds
    an administrator only when there was none. *)
Lemma register_users (req : AuthController.registration) (c : client) (now : Z)
  (w : World.t) :
  let w' := snd (AuthController.register rt req c now w) in
  World.users w' = World.users w
  \/ exists u, World.users w' = World.users w ++ [u]
               /\ (is_admin u = true -> admins w = []).
Proof.
  cbv zeta. unfold AuthController.register.
  destruct (AuthController.reg_username req) as [[|a1 s1]|]; try (left; reflexivity).
  destruct (AuthController.reg_email req) as [[|a2 s2]|]; try (left; reflexivity).
  destruct (AuthController.reg_password req) as [[|a3 s3]|]; try (left; reflexivity).
  destruct (String.length (String a3 s3) <? 8)%nat; [left; reflexivity|].
  destruct (World.User_findOne _ w); [left; reflexivity|].
  destruct (Runtime.generateSecret rt _ _) as [mfaSecret e1].
  destruct (KeyDerivation.generateSalt e1) as [salt e2].
  destruct (KeyExchange.generateKeyPair rt e2) as [pair e3].
  set (w1 := World.set_random e3 w).
  destruct (Role.eqb (Role.allowed (AuthController.reg_role req)) Role.admin) eqn:Hrole.
  - destruct (World.User_findOne (fun u => Role.eqb (User.role u) Role.admin) w1)
      eqn:Hfind; [left; reflexivity|].
    cbn [World.fresh_id].
    destruct (negb (User.valid _ _)); [left; reflexivity|].
    destruct (Runtime.bcrypt_hash rt _ _) as [hash e4].
    right. eexists. split.
    + destruct (Runtime.generateMFAQRCode rt mfaSecret (String a2 s2)); reflexivity.
    + intros _. apply StoreFacts.find_none_filter. exact Hfind.
  - cbn [World.fresh_id].
    destruct (negb (User.valid _ _)); [left; reflexivity|].
    destruct (Runtime.bcrypt_hash rt _ _) as [hash e4].
    right. eexists. split.
    + destruct (Runtime.generateMFAQRCode rt mfaSecret (String a2 s2)); reflexivity.
    + unfold is_admin. cbn [User.role]. rewrite Hrole. discriminate.
Qed.

(** Registrations keep the number of administrators at one at most. *)
Lemma register_single_admin (req : AuthController.registration) (c : client)
  (now : Z) (w : World.t) :
  (List.length (admins w) <= 1)%nat ->
  (List.length (admins (snd (AuthController.register rt req c now w))) <= 1)%nat.
Proof.
  intros H. destruct (register_users req c now w) as [E | (u & E & Hu)];
    unfold admins in *; rewrite E; [exact H|].
  rewrite filter_app, length_app. cbn [filter].
  destruct (is_admin u) eqn:Ha.
  - rewrite (Hu eq_refl). cbn. lia.
  - cbn. lia.
Qed.

(** The states reached from [w] by registrations. *)
Inductive reached (w : World.t) : World.t -> Prop :=
| reached_start : reached w w
| reached_register (w' : World.t) (req : AuthController.registration)
    (c : client) (now : Z) :
    reached w w' -> reached w (snd (AuthController.register rt req c now w')).

Lemma reached_single_admin (w w' : World.t) :
  reached w w' -> (List.length (admins w) <= 1)%nat ->
  (List.length (admins w') <= 1)%nat.
Proof.
  induction 1 as [|w' req c now _ IH]; intros H; [exact H|].
  apply register_single_admin, IH, H.
Qed.

(** A request for the administrator role, well-formed and with a new
    handle and address, made when an administrator exists: it is answered
    400 and no account is created. *)
Lemma register_second_admin (username email password : string) (c : client)
  (now : Z) (w : World.t) (a : User.t) :
  Js.truthy (Some username) = true -> Js.truthy (Some email) = true ->
  (8 <= String.length password)%nat ->
  World.User_findOne
    (fun u => (User.email u =? email)%string || (User.username u =? username)%string)
    w = None ->
  World.User_findOne (fun u => Role.eqb (User.role u) Role.admin) w = Some a ->
  let r := AuthController.register rt
             (AuthController.Registration (Some username) (Some email)
                (Some password) (Some "admin"%string)) c now w in
  fst r = fail 400 "Admin account already exists. Only one admin is allowed."
  /\ World.users (snd r) = World.users w.
Proof.
  intros Hu He Hp Hnew Hadmin. cbv zeta. unfold AuthController.register.
  cbn [AuthController.reg_username AuthController.reg_email
       AuthController.reg_password AuthController.reg_role].
  destruct username as [|a1 s1]; [discriminate Hu|].
  destruct email as [|a2 s2]; [discriminate He|].
  destruct password as [|a3 s3]; [cbn in Hp; lia|].
  assert (Hlen : (String.length (String a3 s3) <? 8)%nat = false)
    by (apply Nat.ltb_ge; exact Hp).
  rewrite Hlen, Hnew.
  destruct (Runtime.generateSecret rt _ _) as [mfaSecret e1].
  destruct (KeyDerivation.generateSalt e1) as [salt e2].
  destruct (KeyExchange.generateKeyPair rt e2) as [pair e3].
  change (Role.eqb (Role.allowed (Some "admin"%string)) Role.admin) with true.
  cbv iota.
  change (World.User_findOne (fun u => Role.eqb (User.role u) Role.admin)
            (World.set_random e3 w))
    with (World.User_findOne (fun u => Role.eqb (User.role u) Role.admin) w).
  rewrite Hadmin. split; reflexivity.
Qed.

End Register.
End RegisterFacts.

(** C1, on the code: five registrations in a row that all ask for the
    administrator role.  The first is answered 201 and stores an
    administrator; each of the other four is answered 400 and stores
    nothing: one account exists at the end, and no guest account. *)
Theorem C1_five_admin_requests :
  fst Sample.five_admin_requests = [201; 400; 400; 400; 400]
  /\ map (fun u => (User.username u, User.role u))
         (World.users (snd Sample.five_admin_requests))
     = [("ann"%string, Role.admin)]
  /\ Sample.count_role Role.admin (snd Sample.five_admin_requests) = 1%nat
  /\ Sample.count_role Role.guest (snd Sample.five_admin_requests) = 0%nat
  /\ fst (Sample.register_admin "bob" 1000 SampleAccount.world)
     = Http.fail 400 "Admin account already exists. Only one admin is allowed.".
Proof. vm_compute. repeat split; reflexivity. Qed.

(* ================================================================== *)
(** * fileController.js: the key-exchange download *)
(* ================================================================== *)

Module FileStoreFacts.

(** A lookup by identifier returns a stored document that is not deleted
    and has that identifier. *)
Lemma findById_found (id : Z) (w : World.t) (file : File.t) :
  World.File_findById id w = Some file ->
  In file (World.files w) /\ File.isDeleted file = false /\ File._id file = id.
Proof.
  unfold World.File_findById, World.File_findOne. intros H.
  pose proof (find_some _ _ H) as [Hin Hq].
  unfold File.pre_find in Hq. apply andb_true_iff in Hq. destruct Hq as [Hd Hid].
  split; [exact Hin|]. split.
  - now apply negb_true_iff in Hd.
  - now apply Z.eqb_eq in Hid.
Qed.

(** Where identifiers are unique, every stored document that is not
    deleted is the one its identifier finds. *)
Lemma findById_stored (w : World.t) (file : File.t) :
  NoDup (map File._id (World.files w)) ->
  In file (World.files w) -> File.isDeleted file = false ->
  World.File_findById (File._id file) w = Some file.
Proof.
  unfold World.File_findById, World.File_findOne.
  induction (World.files w) as [|g l IH]; intros Hnd Hin Hdel; [contradiction|].
  cbn [map] in Hnd. apply NoDup_cons_iff in Hnd. destruct Hnd as [Hnotin Hnd].
  cbn [find]. destruct Hin as [-> | Hin].
  - unfold File.pre_find at 1. now rewrite Hdel, Z.eqb_refl.
  - unfold File.pre_find at 1.
    destruct (File._id g =? File._id file) eqn:E.
    + apply Z.eqb_eq in E. exfalso. apply Hnotin. rewrite E.
      now apply in_map.
    + rewrite andb_false_r. now apply IH.
Qed.

End FileStoreFacts.

Module KeyExchangeFacts.

(** The key and the IV that a key-exchange download draws from the random
    source of the state, and the source after both draws. *)
Definition aesKey (w : World.t) : Buffer.t :=
  fst (KeyExchange.generateAESKey (World.random w)).

Definition aesIv (w : World.t) : Buffer.t :=
  fst (Node.randomBytes 12 (snd (KeyExchange.generateAESKey (World.random w)))).

Definition after_aes (w : World.t) : Node.entropy :=
  snd (Node.randomBytes 12 (snd (KeyExchange.generateAESKey (World.random w)))).

(** The stored ciphertext under the fresh key. *)
Definition reencrypted (w : World.t) (blob : Buffer.t) : KeyExchange.aes_payload :=
  let c := Gcm.crypt (aesKey w) (aesIv w) blob in
  KeyExchange.AesPayload (Buffer.to_hex c) (Buffer.to_hex (aesIv w))
    (Buffer.to_hex (Gcm.tag (aesKey w) (aesIv w) c)).

Lemma encryptWithAES_fresh (w : World.t) (blob : Buffer.t) :
  KeyExchange.encryptWithAES blob (aesKey w)
    (snd (KeyExchange.generateAESKey (World.random w)))
  = (Js.Ok (reencrypted w blob), after_aes w).
Proof.
  unfold KeyExchange.encryptWithAES, reencrypted, after_aes, aesIv.
  pose proof (EncryptionFacts.randomBytes_length 12
                (snd (KeyExchange.generateAESKey (World.random w)))) as Hiv.
  destruct (Node.randomBytes 12 _) as [iv e']. cbn [fst snd] in *.
  unfold Node.gcm_encrypt, aesKey, KeyExchange.generateAESKey.
  rewrite EncryptionFacts.randomBytes_length, Hiv. reflexivity.
Qed.

Lemma encryptForKeyExchange_ok (rt : Runtime.t) (w : World.t) (blob : Buffer.t)
  (guestPublicKey : string) (wrapped : Buffer.t) (e : Node.entropy) :
  Runtime.publicEncrypt rt guestPublicKey (aesKey w) (after_aes w)
  = (Js.Ok wrapped, e) ->
  KeyExchange.encryptForKeyExchange rt blob guestPublicKey (World.random w)
  = (Js.Ok (KeyExchange.Exchange (reencrypted w blob) (Node.to_base64 wrapped)), e).
Proof.
  intros Hrsa. unfold KeyExchange.encryptForKeyExchange.
  pose proof (encryptWithAES_fresh w blob) as Haes. unfold aesKey in Haes, Hrsa.
  destruct (KeyExchange.generateAESKey (World.random w)) as [k e1].
  cbn [fst snd] in Haes, Hrsa. rewrite Haes.
  unfold KeyExchange.encryptWithPublicKey. rewrite Hrsa. reflexivity.
Qed.

End KeyExchangeFacts.




(** The answer to the guest of the sample, in full. *)
Example key_exchange_run :
  fst (FileRoutes.post_key_exchange Sample.runtime (Some KeyExchangeSample.token) 7
         (Some "PUBLIC 5a"%string) Sample.client 5000 KeyExchangeSample.world)
  = Http.json 200 true
      "Key exchange successful. File encrypted with RSA-exchanged key."
      (Http.KeyExchanged (Http.FileInfo 7 "plan.txt" 16 "text/plain")
         (KeyExchange.AesPayload "d38c278798d04cca73b8a54ae4a481d0"
            "e3eaf1f8ff060d141b222930" "90b3f887314f19dcc47ce4e952933c24")
         "3NXOx8C5squknZaPiIF6c2xlXldQSUI7NC0mHxgRCgM="
         "6465666768696a6b6c6d6e6f" "8416190f4b6e3cadd337ce3a86c1cfb3"
         "not the digest of anything").
Proof. vm_compute. reflexivity. Qed.

(* ================================================================== *)
(** * fileController.js: soft deletion and the queries that follow *)
(* ================================================================== *)

Module DeleteFacts.

(** What [deleteFile] saves for the documents with the identifier. *)
Definition deleted (id now : Z) (d : File.t) : File.t :=
  if File._id d =? id then File.touch now (File.set_deleted true (Some now) d)
  else d.

Lemma deleted_id (id now : Z) (d : File.t) :
  File._id (deleted id now d) = File._id d.
Proof. unfold deleted. now destruct (File._id d =? id). Qed.

Lemma deleted_flag (id now : Z) (d : File.t) :
  File._id d = id -> File.isDeleted (deleted id now d) = true.
Proof. intros <-. unfold deleted. now rewrite Z.eqb_refl. Qed.

(** The state that a successful [deleteFile] leaves. *)
Lemma deleteFile_ok (id : Z) (user : User.t) (c : Http.client) (now : Z)
  (w : World.t) (file : File.t) :
  World.File_findById id w = Some file ->
  FileController.owner_or_admin user file = true ->
  Http.status (fst (FileController.deleteFile id user c now w)) = 200
  /\ World.files (snd (FileController.deleteFile id user c now w))
     = map (deleted id now) (World.files w).
Proof.
  intros Hfind Hown. unfold FileController.deleteFile. rewrite Hfind, Hown.
  cbn [negb fst snd]. split; [reflexivity|].
  destruct (FileStoreFacts.findById_found _ _ _ Hfind) as (_ & _ & ->).
  reflexivity.
Qed.

(** No query of the find family returns a document with the identifier
    once the documents with it are marked. *)
Lemma find_skips_deleted (id now : Z) (q : File.t -> bool) (l : list File.t)
  (g : File.t) :
  In g (filter (File.pre_find q) (map (deleted id now) l)) -> File._id g <> id.
Proof.
  intros Hin Hid. apply filter_In in Hin. destruct Hin as [Hin Hq].
  apply in_map_iff in Hin. destruct Hin as (d & <- & _).
  rewrite deleted_id in Hid.
  unfold File.pre_find in Hq. rewrite (deleted_flag id now d Hid) in Hq.
  discriminate Hq.
Qed.

Lemma findOne_skips_deleted (id now : Z) (q : File.t -> bool) (l : list File.t)
  (g : File.t) :
  find (File.pre_find q) (map (deleted id now) l) = Some g -> File._id g <> id.
Proof.
  intros H. apply (find_skips_deleted id now q l). apply filter_In.
  destruct (find_some _ _ H) as [Hin Hq]. split; assumption.
Qed.

(** The query of a listing reads the owner and the access level only. *)
Lemma listing_query_deleted (viewer : User.t) (accessLevel : option string)
  (id now : Z) (d : File.t) :
  FileController.listing_query viewer accessLevel (deleted id now d)
  = FileController.listing_query viewer accessLevel d.
Proof.
  unfold deleted. destruct (File._id d =? id); [|reflexivity].
  unfold FileController.listing_query.
  destruct (User.role viewer); [destruct accessLevel as [[|? ?]|]|..]; reflexivity.
Qed.

Lemma count_map (q : File.t -> bool) (g : File.t -> File.t) (l : list File.t) :
  (forall d, q (g d) = q d) ->
  List.length (filter q (map g l)) = List.length (filter q l).
Proof.
  intros H. induction l as [|d l IH]; [reflexivity|].
  cbn [map filter]. rewrite H. destruct (q d); cbn [List.length]; now rewrite IH.
Qed.

End DeleteFacts.

(** C10: what holds of it, and where the listing departs from it.  After
    a delete that succeeds, no query of the find family returns a document
    with the identifier of the file: the lookup by identifier, on which the
    password download, the share, the key-exchange download and a further
    delete rest, finds nothing, and neither do the query of a listing and
    the lookup by share token.  [countDocuments], from which a listing takes
    its [total], does not run the hook: for every viewer the total after the
    delete is the total before it. *)
Theorem C10_soft_delete
  (id : Z) (user : User.t) (c : Http.client) (now : Z) (w : World.t) (file : File.t)
  (found : World.File_findById id w = Some file)
  (allowed : FileController.owner_or_admin user file = true) :
  let w' := snd (FileController.deleteFile id user c now w) in
  Http.status (fst (FileController.deleteFile id user c now w)) = 200
  /\ World.File_findById id w' = None
  /\ (forall q g, In g (World.File_find q w') -> File._id g <> id)
  /\ (forall q g, World.File_findOne q w' = Some g -> File._id g <> id)
  /\ (forall viewer accessLevel,
        World.File_countDocuments (FileController.listing_query viewer accessLevel) w'
        = World.File_countDocuments
            (FileController.listing_query viewer accessLevel) w).
Proof.
  destruct (DeleteFacts.deleteFile_ok id user c now w file found allowed)
    as [Hstatus Hfiles].
  cbv zeta. split; [exact Hstatus|].
  unfold World.File_findById, World.File_find, World.File_findOne,
    World.File_countDocuments. rewrite Hfiles.
  split; [|split; [|split]].
  - destruct (find _ _) as [g|] eqn:E; [|reflexivity].
    exfalso. apply (DeleteFacts.findOne_skips_deleted id now _ _ g E).
    destruct (find_some _ _ E) as [_ Hq]. unfold File.pre_find in Hq.
    apply andb_true_iff in Hq. now apply Z.eqb_eq.
  - intros q g. apply DeleteFacts.find_skips_deleted.
  - intros q g. apply DeleteFacts.findOne_skips_deleted.
  - intros viewer accessLevel. apply DeleteFacts.count_map.
    intros d. apply DeleteFacts.listing_query_deleted.
Qed.


(** On the sample: the owner deletes the public file. *)
Lemma C10_witness :
  Http.status
    (fst (FileController.deleteFile 7 KeyExchangeSample.owner Sample.client 3000
            DeleteSample.world)) = 200
  /\ World.File_findById 7
       (snd (FileController.deleteFile 7 KeyExchangeSample.owner Sample.client 3000
               DeleteSample.world)) = None
  /\ World.File_countDocuments
       (FileController.listing_query KeyExchangeSample.guest None)
       (snd (FileController.deleteFile 7 KeyExchangeSample.owner Sample.client 3000
               DeleteSample.world))
     = World.File_countDocuments
         (FileController.listing_query KeyExchangeSample.guest None)
         DeleteSample.world.
Proof.
  destruct (C10_soft_delete 7 KeyExchangeSample.owner Sample.client 3000
              DeleteSample.world DeleteSample.doc eq_refl eq_refl)
    as (H1 & H2 & _ & _ & H3).
  split; [exact H1|]. split; [exact H2|]. apply H3.
Defined.

(** The departure on the sample: before the delete the guest is listed one
    file out of one; after it, no file out of one.  Every other endpoint
    answers as if the file were not there. *)
Theorem deleted_file_still_counted :
  Http.content
    (fst (FileRoutes.get_files (Some KeyExchangeSample.token) None 1 20 5000
            DeleteSample.world))
  = Http.Json true EmptyString
      (Http.Listing
         [Http.FileEntry (Http.FileInfo 7 "plan.txt" 16 "text/plain")
            AccessLevel.public (Some "ann"%string) false 0 2000] 1 20 1)
  /\ Http.status
       (fst (FileRoutes.delete_file (Some DeleteSample.owner_token) 7 Sample.client
               3000 DeleteSample.world)) = 200
  /\ map File.isDeleted (World.files DeleteSample.after) = [true]
  /\ map File.deletedAt (World.files DeleteSample.after) = [Some 3000]
  /\ Http.content
       (fst (FileRoutes.get_files (Some KeyExchangeSample.token) None 1 20 5000
               DeleteSample.after))
     = Http.Json true EmptyString (Http.Listing [] 1 20 1)
  /\ fst (FileRoutes.post_download (Some KeyExchangeSample.token) 7
            (Some "correct horse"%string) None Sample.client 5000 DeleteSample.after)
     = Http.fail 404 "File not found."
  /\ fst (FileRoutes.post_key_exchange Sample.runtime (Some KeyExchangeSample.token)
            7 (Some "PUBLIC 5a"%string) Sample.client 5000 DeleteSample.after)
     = Http.fail 404 "File not found."
  /\ fst (FileRoutes.post_share Sample.runtime (Some DeleteSample.owner_token) 7 None
            Sample.client 5000 DeleteSample.after)
     = Http.fail 404 "File not found."
  /\ fst (FileRoutes.delete_file (Some DeleteSample.owner_token) 7 Sample.client
            5000 DeleteSample.after)
     = Http.fail 404 "File not found."
  /\ fst (FileController.getSharedFile "c0ffee" 5000 DeleteSample.world)
     = Http.json 200 true EmptyString
         (Http.SharedFile (Http.FileInfo 7 "plan.txt" 16 "text/plain")
            (Some "ann"%string) (Some 9000))
  /\ fst (FileController.getSharedFile "c0ffee" 5000 DeleteSample.after)
     = Http.fail 404 "Share link expired or invalid.".
Proof. repeat split; vm_compute; reflexivity. Qed.

(* ================================================================== *)
(** * fileController.js: the password download *)
(* ================================================================== *)

Module DownloadFacts.
Import Js.

(** What was encrypted under a key and an IV decrypts under them, with
    the tag of the encryption. *)
Lemma decryptFile_sealed (key iv plain : Buffer.t) :
  List.length key = 32%nat -> List.length iv <> 0%nat ->
  Encryption.decryptFile (Gcm.crypt key iv plain) iv
    (Gcm.tag key iv (Gcm.crypt key iv plain)) key = Ok plain.
Proof.
  intros Hk Hiv.
  rewrite EncryptionFacts.decryptFile_checked;
    [| assumption | assumption | apply GcmFacts.tag_length; assumption].
  rewrite BufferFacts.eqb_refl, GcmFacts.crypt_involutive by assumption.
  reflexivity.
Qed.

(** The stored form of a per-file key wrapped under a master key. *)
Definition wrap (masterKey keyIv fileKey : Buffer.t) : File.key_json :=
  let data := Gcm.crypt masterKey keyIv fileKey in
  File.KeyJson (Buffer.to_hex data) (Buffer.to_hex keyIv)
    (Buffer.to_hex (Gcm.tag masterKey keyIv data)).

(** The stored form decodes, and the key comes back under the master key
    of the wrapping. *)
Lemma unwrap (password salt : string) (keyIv fileKey : Buffer.t) :
  List.length fileKey = 32%nat -> Forall Buffer.is_byte fileKey ->
  List.length keyIv = 12%nat -> Forall Buffer.is_byte keyIv ->
  let masterKey := KeyDerivation.deriveKey password salt in
  let data := Gcm.crypt masterKey keyIv fileKey in
  Encryption.decryptKey (Buffer.of_hex (Buffer.to_hex data))
    (Buffer.of_hex (Buffer.to_hex keyIv))
    (Buffer.of_hex (Buffer.to_hex (Gcm.tag masterKey keyIv data))) masterKey
  = Ok fileKey.
Proof.
  intros Hk Hkb Hi Hib masterKey data.
  pose proof (KdfFacts.deriveKey_length password salt) as Hm.
  pose proof (KdfFacts.deriveKey_bytes password salt) as Hmb.
  fold masterKey in Hm, Hmb.
  rewrite !HexFacts.of_hex_to_hex;
    [| apply GcmBytes.tag_bytes; exact Hmb | exact Hib
     | apply GcmBytes.crypt_bytes; assumption].
  unfold Encryption.decryptKey. apply decryptFile_sealed; [exact Hm|].
  rewrite Hi. discriminate.
Qed.

(** A record and the ciphertext in the upload directory as an upload of
    [plain] under [password] and [salt] leaves them. *)
Definition sealed (password salt : string) (plain blob : Buffer.t) (file : File.t)
  : Prop :=
  exists fileKey keyIv iv : Buffer.t,
    List.length fileKey = 32%nat /\ Forall Buffer.is_byte fileKey
    /\ List.length keyIv = 12%nat /\ Forall Buffer.is_byte keyIv
    /\ List.length iv = 12%nat /\ Forall Buffer.is_byte iv
    /\ blob = Gcm.crypt fileKey iv plain
    /\ File.iv file = Buffer.to_hex iv
    /\ File.authTag file = Buffer.to_hex (Gcm.tag fileKey iv blob)
    /\ File.encryptedKey file
       = wrap (KeyDerivation.deriveKey password salt) keyIv fileKey
    /\ File.sha256Hash file = Encryption.calculateHash plain.

(** The state after a download that was served. *)
Definition served (user : User.t) (c : Http.client) (now : Z) (file : File.t)
  (w : World.t) : World.t :=
  World.log
    (FileController.audit user AuditLog.FILE_DOWNLOAD file AuditLog.SUCCESS
       [("filename", File.originalName file)]%string c)
    (World.File_save (File._id file) now
       (File.set_downloadCount (File.downloadCount file + 1))
       (World.log
          (FileController.audit user AuditLog.INTEGRITY_CHECK_PASSED file
             AuditLog.SUCCESS [] c) w)).

(** The access rule of the password path: a vault file is for its owner
    and for an administrator. *)
Definition granted (user : User.t) (file : File.t) : bool :=
  negb (AccessLevel.eqb (File.accessLevel file) AccessLevel.vault
        && negb (FileController.owner_or_admin user file)).

(** The three steps of a download, each with its result. *)
Definition steps (password salt : string) (file : File.t) (w : World.t)
  (fileKey blob plain : Buffer.t) : Prop :=
  exists data iv authTag : string,
    File.encryptedKey file = File.KeyJson data iv authTag
    /\ Encryption.decryptKey (Buffer.of_hex data) (Buffer.of_hex iv)
         (Buffer.of_hex authTag) (KeyDerivation.deriveKey password salt)
       = Ok fileKey
    /\ World.readFile (File.encryptedPath file) w = Ok blob
    /\ Encryption.decryptFile blob (Buffer.of_hex (File.iv file))
         (Buffer.of_hex (File.authTag file)) fileKey = Ok plain
    /\ Encryption.verifyIntegrity plain (File.sha256Hash file) = Ok true.

Section Request.
Variables (id : Z) (body_password header_password : option string)
  (user : User.t) (c : Http.client) (now : Z) (w : World.t) (file : File.t).
Variables (a : ascii) (s : string).
Hypothesis found : World.File_findById id w = Some file.
Hypothesis access : granted user file = true.
Hypothesis password :
  Js.or_else body_password header_password = Some (String a s).

Let run := FileController.downloadFile id body_password header_password user c now w.

Lemma access_test :
  AccessLevel.eqb (File.accessLevel file) AccessLevel.vault
  && negb (FileController.owner_or_admin user file) = false.
Proof. apply negb_true_iff. exact access. Qed.

(** When the three steps succeed the content is sent. *)
Lemma download_steps (salt : string) (fileKey blob plain : Buffer.t) :
  FileController.resolve_salt file w = Some salt ->
  steps (String a s) salt file w fileKey blob plain ->
  run = (Http.Response 200 (FileController.download_headers file) []
           (Http.Send plain),
         served user c now file w).
Proof.
  intros Hsalt (data & iv & authTag & Hkey & Hunwrap & Hread & Hdec & Hver).
  unfold run, FileController.downloadFile.
  rewrite found, access_test, password, Hsalt, Hkey, Hunwrap, Hread, Hdec, Hver.
  reflexivity.
Qed.

(** A sealed record whose ciphertext is in the upload directory passes
    the three steps under the password and the salt of the sealing. *)
Lemma sealed_steps (salt : string) (plain blob : Buffer.t) :
  sealed (String a s) salt plain blob file ->
  World.readFile (File.encryptedPath file) w = Ok blob ->
  exists fileKey, steps (String a s) salt file w fileKey blob plain.
Proof.
  intros (fileKey & keyIv & iv & Hk & Hkb & Hki & Hkib & Hi & Hib & Hblob & Hiv
          & Htag & Hwrap & Hsha) Hread.
  exists fileKey. unfold steps. unfold wrap in Hwrap. cbv zeta in Hwrap.
  eexists _, _, _. split; [exact Hwrap|].
  split; [apply unwrap; assumption|].
  split; [exact Hread|]. split.
  - rewrite Hiv, Htag, !HexFacts.of_hex_to_hex;
      [| apply GcmBytes.tag_bytes; exact Hkb | exact Hib].
    rewrite Hblob. apply decryptFile_sealed; [exact Hk|].
    rewrite Hi. discriminate.
  - rewrite Hsha, DigestFacts.verifyIntegrity_calculateHash, BufferFacts.eqb_refl.
    reflexivity.
Qed.

Lemma download_sealed (salt : string) (plain blob : Buffer.t) :
  FileController.resolve_salt file w = Some salt ->
  sealed (String a s) salt plain blob file ->
  World.readFile (File.encryptedPath file) w = Ok blob ->
  run = (Http.Response 200 (FileController.download_headers file) []
           (Http.Send plain),
         served user c now file w).
Proof.
  intros Hsalt Hsealed Hread.
  destruct (sealed_steps salt plain blob Hsealed Hread) as [fileKey Hsteps].
  apply (download_steps salt fileKey blob plain Hsalt Hsteps).
Qed.

(** ** The two layers of authentication failure *)

(** The wrapped key does not open: the answer is 401 and nothing is
    recorded. *)
Lemma wrong_key (salt data iv authTag message : string) :
  FileController.resolve_salt file w = Some salt ->
  File.encryptedKey file = File.KeyJson data iv authTag ->
  Encryption.decryptKey (Buffer.of_hex data) (Buffer.of_hex iv)
    (Buffer.of_hex authTag) (KeyDerivation.deriveKey (String a s) salt)
  = Throw message ->
  run = (Http.fail 401 "Invalid decryption password.", w).
Proof.
  intros Hsalt Hkey Hunwrap. unfold run, FileController.downloadFile.
  rewrite found, access_test, password, Hsalt, Hkey, Hunwrap. reflexivity.
Qed.

(** The state after a ciphertext was refused. *)
Definition refused (w0 : World.t) : World.t :=
  World.log
    (FileController.audit user AuditLog.INTEGRITY_CHECK_FAILED file AuditLog.FAILED
       [("reason", "GCM authentication failed")]%string c) w0.

(** The key opens and the ciphertext does not: the answer is 500 and the
    failure is audited. *)
Lemma broken_ciphertext (salt data iv authTag message : string)
  (fileKey blob : Buffer.t) :
  FileController.resolve_salt file w = Some salt ->
  File.encryptedKey file = File.KeyJson data iv authTag ->
  Encryption.decryptKey (Buffer.of_hex data) (Buffer.of_hex iv)
    (Buffer.of_hex authTag) (KeyDerivation.deriveKey (String a s) salt)
  = Ok fileKey ->
  World.readFile (File.encryptedPath file) w = Ok blob ->
  Encryption.decryptFile blob (Buffer.of_hex (File.iv file))
    (Buffer.of_hex (File.authTag file)) fileKey = Throw message ->
  run = (Http.json 500 false "File integrity check failed. File may be corrupted."
           (Http.Integrity "FAILED" "Encryption authentication failed"),
         refused w).
Proof.
  intros Hsalt Hkey Hunwrap Hread Hdec. unfold run, FileController.downloadFile.
  rewrite found, access_test, password, Hsalt, Hkey, Hunwrap, Hread, Hdec.
  reflexivity.
Qed.

End Request.

(** ** Every outcome of a download *)

(** A download either is served, after the three steps have succeeded on
    the record found, or is answered with another status than 200 and
    leaves the three stores as they were. *)
Lemma download_cases (id : Z) (body_password header_password : option string)
  (user : User.t) (c : Http.client) (now : Z) (w : World.t) :
  let run :=
    FileController.downloadFile id body_password header_password user c now w in
  (Http.status (fst run) <> 200
   /\ World.files (snd run) = World.files w
   /\ World.users (snd run) = World.users w
   /\ World.uploads (snd run) = World.uploads w)
  \/ (exists (file : File.t) (a : ascii) (s salt : string)
             (fileKey blob plain : Buffer.t),
        World.File_findById id w = Some file
        /\ granted user file = true
        /\ Js.or_else body_password header_password = Some (String a s)
        /\ FileController.resolve_salt file w = Some salt
        /\ steps (String a s) salt file w fileKey blob plain
        /\ run = (Http.Response 200 (FileController.download_headers file) []
                    (Http.Send plain),
                  served user c now file w)).
Proof.
  cbv zeta. unfold FileController.downloadFile.
  destruct (World.File_findById id w) as [file|] eqn:Hfound;
    [|left; split; [discriminate | repeat split]].
  destruct (AccessLevel.eqb (File.accessLevel file) AccessLevel.vault
            && negb (FileController.owner_or_admin user file)) eqn:Haccess;
    [left; split; [discriminate | repeat split]|].
  destruct (Js.or_else body_password header_password) as [[|a s]|] eqn:Hpw;
    [left; split; [discriminate | repeat split]| |
     left; split; [discriminate | repeat split]].
  destruct (FileController.resolve_salt file w) as [salt|] eqn:Hsalt;
    [|left; split; [discriminate | repeat split]].
  destruct (File.encryptedKey file) as [data iv authTag|text] eqn:Hkey;
    [|left; split; [discriminate | repeat split]].
  destruct (Encryption.decryptKey _ _ _ _) as [fileKey|m1] eqn:Hunwrap;
    [|left; split; [discriminate | repeat split]].
  destruct (World.readFile (File.encryptedPath file) w) as [blob|m2] eqn:Hread;
    [|left; split; [discriminate | repeat split]].
  destruct (Encryption.decryptFile _ _ _ fileKey) as [plain|m3] eqn:Hdec;
    [|left; split; [discriminate | repeat split]].
  destruct (Encryption.verifyIntegrity plain (File.sha256Hash file))
    as [[|]|m4] eqn:Hver;
    [| left; split; [discriminate | repeat split]
     | left; split; [discriminate | repeat split]].
  right. exists file, a, s, salt, fileKey, blob, plain.
  split; [reflexivity|].
  split; [unfold granted; rewrite Haccess; reflexivity|].
  split; [reflexivity|]. split; [exact Hsalt|].
  split; [|reflexivity].
  exists data, iv, authTag. repeat split; assumption.
Qed.

End DownloadFacts.

(* ================================================================== *)
(** * fileController.js: what an upload stores *)
(* ================================================================== *)

Module UploadFacts.
Import Js.

Lemma to_hex_truthy (b : Buffer.t) :
  List.length b = 32%nat -> Js.truthy (Some (Buffer.to_hex b)) = true.
Proof. destruct b as [|x r]; [discriminate | reflexivity]. Qed.

Lemma generateSalt_truthy (e : Node.entropy) :
  Js.truthy (Some (fst (KeyDerivation.generateSalt e))) = true.
Proof.
  unfold KeyDerivation.generateSalt.
  pose proof (EncryptionFacts.randomBytes_length KeyDerivation.SALT_LENGTH e) as H.
  destruct (Node.randomBytes KeyDerivation.SALT_LENGTH e) as [b e'].
  cbn [fst] in *. apply to_hex_truthy. exact H.
Qed.

Lemma find_app_none {A : Type} (q : A -> bool) (l : list A) (x : A) :
  (forall y, In y l -> q y = false) -> q x = true -> find q (l ++ [x]) = Some x.
Proof.
  intros Hl Hx. induction l as [|y l IH]; cbn [app find].
  - now rewrite Hx.
  - rewrite (Hl y (or_introl eq_refl)). apply IH.
    intros z Hz. apply Hl. now right.
Qed.

Section Upload.
Variables (rt : Runtime.t) (f : FileController.upload)
  (accessLevel description body_password header_password : option string)
  (a : ascii) (s : string) (user account : User.t) (c : Http.client) (now : Z)
  (w : World.t) (level : AccessLevel.t).
Hypothesis registered : World.User_findById (User._id user) w = Some account.
Hypothesis configured : Js.truthy (User.encryptionSalt account) = true.
Hypothesis password :
  Js.or_else body_password header_password = Some (String a s).
Hypothesis level_ok :
  AccessLevel.of_string
    (match accessLevel with Some x => x | None => "vault"%string end) = Some level.
Hypothesis names_ok :
  FileController.valid (FileController.originalname f) (FileController.mimetype f)
    (match description with Some d => d | None => EmptyString end) = true.

Let run :=
  FileController.uploadFile rt (Some f) accessLevel description body_password
    header_password user c now w.

(** An upload that passes the checks is answered 201; it adds one record,
    sealed under the password and a salt of its own, and puts the
    ciphertext in the upload directory under the path of the record. *)
Lemma upload_ok :
  exists (doc : File.t) (blob : Buffer.t) (salt : string),
    Http.status (fst run) = 201
    /\ World.files (snd run) = World.files w ++ [doc]
    /\ World.users (snd run) = World.users w
    /\ World.readFile (File.encryptedPath doc) (snd run) = Ok blob
    /\ DownloadFacts.sealed (String a s) salt (FileController.buffer f) blob doc
    /\ File.fileSalt doc = Some salt
    /\ Js.truthy (Some salt) = true
    /\ File._id doc = World.nextId w
    /\ File.owner doc = User._id user
    /\ File.accessLevel doc = level
    /\ File.isDeleted doc = false
    /\ File.downloadCount doc = 0
    /\ File.createdAt doc = now
    /\ File.updatedAt doc = now.
Proof.
  unfold run, FileController.uploadFile. rewrite registered, configured.
  cbn [negb].
  pose proof (EncryptionFacts.generateKey_length (World.random w)) as Hk.
  pose proof (EncryptionFacts.randomBytes_bytes Encryption.KEY_LENGTH
                (World.random w)) as Hkb.
  fold (Encryption.generateKey (World.random w)) in Hkb.
  destruct (Encryption.generateKey (World.random w)) as [fileKey e1].
  cbn [fst] in Hk, Hkb.
  rewrite (EncryptionFacts.encryptFile_ok _ fileKey e1 Hk). cbv beta iota zeta.
  rewrite password.
  pose proof (generateSalt_truthy (snd (Encryption.generateIV e1))) as Hsalt.
  destruct (KeyDerivation.generateSalt (snd (Encryption.generateIV e1)))
    as [salt e3].
  cbn [fst] in Hsalt. unfold Encryption.encryptKey.
  rewrite (EncryptionFacts.encryptFile_ok fileKey
             (KeyDerivation.deriveKey (String a s) salt) e3
             (KdfFacts.deriveKey_length (String a s) salt)).
  cbv beta iota zeta.
  destruct (Runtime.uuidv4 rt (snd (Encryption.generateIV e3))) as [uuid e5].
  rewrite level_ok, names_ok. cbn [negb]. unfold World.fresh_id.
  eexists _, _, salt.
  split; [reflexivity|]. split; [reflexivity|]. split; [reflexivity|].
  split.
  { unfold World.readFile. cbn [snd File.encryptedPath]. unfold World.log.
    cbn [World.uploads World.set_files World.writeFile World.set_uploads
         World.set_random find fst].
    rewrite String.eqb_refl. reflexivity. }
  split.
  { exists fileKey, (fst (Encryption.generateIV e3)),
      (fst (Encryption.generateIV e1)).
    split; [exact Hk|]. split; [exact Hkb|].
    split; [apply EncryptionFacts.generateIV_length|].
    split; [apply EncryptionFacts.randomBytes_bytes|].
    split; [apply EncryptionFacts.generateIV_length|].
    split; [apply EncryptionFacts.randomBytes_bytes|].
    repeat split. }
  repeat split. exact Hsalt.
Qed.

(** Identifiers are fresh: no stored record has the next one. *)
Hypothesis fresh : forall g, In g (World.files w) -> File._id g <> World.nextId w.

(** The upload password alone opens what was uploaded: whoever may read
    the record downloads the uploaded bytes with it, whatever accounts are
    stored at that time. *)
Lemma upload_then_download (us : list User.t) (reader : User.t) (c' : Http.client)
  (now' : Z) (header : option string) :
  level = AccessLevel.public \/ User._id reader = User._id user
  \/ User.role reader = Role.admin ->
  exists doc : File.t,
    World.files (snd run) = World.files w ++ [doc]
    /\ World.File_findById (World.nextId w) (snd run) = Some doc
    /\ FileController.downloadFile (World.nextId w) (Some (String a s)) header
         reader c' now' (World.set_users us (snd run))
       = (Http.Response 200 (FileController.download_headers doc) []
            (Http.Send (FileController.buffer f)),
          DownloadFacts.served reader c' now' doc (World.set_users us (snd run))).
Proof.
  intros Hmay.
  destruct upload_ok as (doc & blob & salt & _ & Hfiles & _ & Hread & Hsealed
                         & Hsalt & Htruthy & Hid & Howner & Hlevel & Hdel & _).
  exists doc.
  assert (Hfound : forall us', World.File_findById (World.nextId w)
                     (World.set_users us' (snd run)) = Some doc).
  { intros us'. unfold World.File_findById, World.File_findOne.
    cbn [World.files World.set_users]. rewrite Hfiles.
    apply find_app_none.
    - intros g Hg. unfold File.pre_find.
      destruct (File._id g =? World.nextId w) eqn:E;
        [|apply andb_false_r].
      apply Z.eqb_eq in E. exfalso. exact (fresh g Hg E).
    - unfold File.pre_find. rewrite Hdel, Hid, Z.eqb_refl. reflexivity. }
  split; [exact Hfiles|].
  split.
  { rewrite <- (Hfound (World.users (snd run))).
    unfold World.File_findById, World.File_findOne. reflexivity. }
  apply (DownloadFacts.download_sealed (World.nextId w) (Some (String a s)) header
           reader c' now' (World.set_users us (snd run)) doc a s (Hfound us)
           ) with (salt := salt) (blob := blob).
  - unfold DownloadFacts.granted, FileController.owner_or_admin.
    rewrite Hlevel, Howner.
    destruct Hmay as [-> | [-> | ->]].
    + reflexivity.
    + rewrite Z.eqb_refl, orb_true_r. cbn [negb]. now rewrite andb_false_r.
    + cbn [Role.eqb orb negb]. now rewrite andb_false_r.
  - reflexivity.
  - unfold FileController.resolve_salt. rewrite Hsalt, Htruthy. reflexivity.
  - exact Hsealed.
  - exact Hread.
Qed.

End Upload.
End UploadFacts.

(* ================================================================== *)
(** * The password download: salt, failures, counter *)
(* ================================================================== *)



Module SampleFacts.

Lemma bytes_check (b : Buffer.t) :
  forallb AesBytes.byteb b = true -> Forall Buffer.is_byte b.
Proof.
  intros H. apply Forall_forall. intros x Hx.
  apply AesBytes.byteb_spec. rewrite forallb_forall in H. now apply H.
Qed.

(** The record of the sample upload and what is known of it. *)
Lemma stored_facts :
  exists (blob : Buffer.t) (salt : string),
    World.files UploadSample.after = [UploadSample.stored]
    /\ World.readFile (File.encryptedPath UploadSample.stored) UploadSample.after
       = Js.Ok blob
    /\ DownloadFacts.sealed "correct horse" salt UploadSample.content blob
         UploadSample.stored
    /\ File.fileSalt UploadSample.stored = Some salt
    /\ Js.truthy (Some salt) = true
    /\ File._id UploadSample.stored = 1
    /\ File.accessLevel UploadSample.stored = AccessLevel.vault
    /\ File.isDeleted UploadSample.stored = false
    /\ File.downloadCount UploadSample.stored = 0
    /\ File.updatedAt UploadSample.stored = 1000.
Proof.
  destruct (UploadFacts.upload_ok Sample.runtime UploadSample.request
              (Some "vault"%string) None (Some "correct horse"%string) None
              "c"%char "orrect horse" KeyExchangeSample.owner
              KeyExchangeSample.owner Sample.client 1000 UploadSample.before
              AccessLevel.vault eq_refl eq_refl eq_refl eq_refl eq_refl)
    as (doc & blob & salt & _ & Hfiles & _ & Hread & Hsealed & Hsalt & Htruthy
        & Hid & _ & Hlevel & Hdel & Hcount & _ & Hupdated).
  fold UploadSample.after in Hfiles, Hread.
  assert (Hstored : UploadSample.stored = doc).
  { unfold UploadSample.stored. rewrite Hfiles. reflexivity. }
  exists blob, salt. rewrite Hstored.
  repeat split; assumption.
Qed.

Lemma stored_found :
  World.File_findById 1 UploadSample.after = Some UploadSample.stored.
Proof.
  destruct stored_facts as (blob & salt & Hfiles & _ & _ & _ & _ & Hid & _ & Hdel & _).
  unfold World.File_findById, World.File_findOne. rewrite Hfiles.
  cbn [find]. unfold File.pre_find. rewrite Hdel, Hid. reflexivity.
Qed.

Lemma record_sealed (password salt : string) (own : option string) :
  DownloadFacts.sealed password salt UploadSample.content UploadSample.blob
    (UploadSample.record password salt own).
Proof.
  exists UploadSample.fileKey, UploadSample.keyIv, UploadSample.iv.
  split; [reflexivity|]. split; [apply bytes_check; vm_compute; reflexivity|].
  split; [reflexivity|]. split; [apply bytes_check; vm_compute; reflexivity|].
  split; [reflexivity|]. split; [apply bytes_check; vm_compute; reflexivity|].
  split; [vm_compute; reflexivity|].
  split; [reflexivity|].
  split; [|split; reflexivity].
  change (File.authTag (UploadSample.record password salt own))
    with "8416190f4b6e3cadd337ce3a86c1cfb3"%string.
  vm_compute. reflexivity.
Qed.

Lemma legacy_sealed :
  DownloadFacts.sealed "correct horse" "00112233" UploadSample.content
    UploadSample.blob UploadSample.legacy.
Proof. apply record_sealed. Qed.

End SampleFacts.





(** ** Counting: a 256-bit master key cannot separate all passwords *)

Module PasswordFacts.
Import NumberFacts.

(** The password made of the 66 hexadecimal digits of a number. *)
Definition digits (n : Z) : string := Buffer.to_hex (Buffer.of_uint_be 33 n).

Lemma digits_truthy (n : Z) : Js.truthy (Some (digits n)) = true.
Proof.
  unfold digits. pose proof (BufferFacts.of_uint_be_length 33 n) as H.
  destruct (Buffer.of_uint_be 33 n); [discriminate H | reflexivity].
Qed.

Lemma digits_inj (x y : Z) :
  0 <= x < y -> y <= 2 ^ 256 -> digits y <> digits x.
Proof.
  intros Hxy Hy Hsame. apply (CollisionFacts.of_uint_be_33_inj x y Hxy Hy).
  apply (f_equal Buffer.of_hex) in Hsame. unfold digits in Hsame.
  rewrite !HexFacts.of_hex_to_hex in Hsame by apply BufferFacts.of_uint_be_bytes.
  exact Hsame.
Qed.

Lemma key_number_range (salt : string) (n : Z) :
  0 <= Buffer.to_uint_be (KeyDerivation.deriveKey (digits n) salt) < 2 ^ 256.
Proof.
  pose proof (to_uint_be_bound _ (KdfFacts.deriveKey_bytes (digits n) salt)) as H.
  rewrite KdfFacts.deriveKey_length in H.
  change (256 ^ Z.of_nat 32) with (2 ^ 256) in H. exact H.
Qed.

(** For every salt, two different passwords derive the same master key. *)
Lemma equivalent_passwords (salt : string) :
  exists password other : string,
    other <> password
    /\ Js.truthy (Some password) = true /\ Js.truthy (Some other) = true
    /\ KeyDerivation.deriveKey other salt = KeyDerivation.deriveKey password salt.
Proof.
  destruct (Pigeonhole.collision (2 ^ 256) ltac:(lia)
              (fun n => Buffer.to_uint_be (KeyDerivation.deriveKey (digits n) salt))
              (fun x _ => key_number_range salt x)) as (x & y & Hxy & Hy & Heq).
  cbv beta in Heq.
  exists (digits x), (digits y).
  split; [apply digits_inj; assumption|].
  split; [apply digits_truthy|]. split; [apply digits_truthy|].
  apply CollisionFacts.to_uint_be_inj.
  - apply KdfFacts.deriveKey_bytes.
  - apply KdfFacts.deriveKey_bytes.
  - rewrite !KdfFacts.deriveKey_length. reflexivity.
  - symmetry. exact Heq.
Qed.

(** A record sealed under a password is sealed under every password that
    derives the same master key. *)
Lemma sealed_equivalent (password other salt : string) (plain blob : Buffer.t)
  (file : File.t) :
  KeyDerivation.deriveKey other salt = KeyDerivation.deriveKey password salt ->
  DownloadFacts.sealed password salt plain blob file ->
  DownloadFacts.sealed other salt plain blob file.
Proof. intros Heq H. unfold DownloadFacts.sealed. rewrite Heq. exact H. Qed.

End PasswordFacts.


Module CounterFacts.

Lemma unique_id (l : list File.t) (x y : File.t) :
  NoDup (map File._id l) -> In x l -> In y l -> File._id x = File._id y -> x = y.
Proof.
  induction l as [|z l IH]; intros Hnd Hx Hy Hid; [contradiction|].
  cbn [map] in Hnd. apply NoDup_cons_iff in Hnd. destruct Hnd as [Hnotin Hnd].
  destruct Hx as [-> | Hx], Hy as [-> | Hy].
  - reflexivity.
  - exfalso. apply Hnotin. rewrite Hid. now apply in_map.
  - exfalso. apply Hnotin. rewrite <- Hid. now apply in_map.
  - now apply IH.
Qed.

(** What a served download saves: the counter that was read, plus one,
    and the date of the change. *)
Definition counted (now : Z) (d : File.t) : File.t :=
  File.touch now (File.set_downloadCount (File.downloadCount d + 1) d).

Lemma served_files (user : User.t) (c : Http.client) (now : Z) (file : File.t)
  (w : World.t) :
  NoDup (map File._id (World.files w)) -> In file (World.files w) ->
  World.files (DownloadFacts.served user c now file w)
  = map (fun d => if File._id d =? File._id file then counted now d else d)
      (World.files w).
Proof.
  intros Hnd Hin. unfold DownloadFacts.served, World.File_save.
  cbn [World.files World.log World.set_files].
  apply map_ext_in. intros d Hd.
  destruct (File._id d =? File._id file) eqn:E; [|reflexivity].
  apply Z.eqb_eq in E. rewrite (unique_id _ d file Hnd Hd Hin E). reflexivity.
Qed.

(** The fields that [counted] leaves as they are: all but the counter and
    the date of the last change. *)
Lemma counted_frame (now : Z) (d : File.t) :
  counted now d
  = File.Make (File._id d) (File.originalName d) (File.mimeType d) (File.size d)
      (File.encryptedPath d) (File.owner d) (File.accessLevel d) (File.iv d)
      (File.authTag d) (File.encryptedKey d) (File.fileSalt d) (File.sha256Hash d)
      (File.keyExchangeEnabled d) (File.ownerPublicKey d) (File.shareToken d)
      (File.shareExpiry d) (File.downloadCount d + 1) (File.description d)
      (File.isDeleted d) (File.deletedAt d) (File.createdAt d) now.
Proof. reflexivity. Qed.

End CounterFacts.


Module CounterSample.

Lemma sample_granted :
  DownloadFacts.granted KeyExchangeSample.owner UploadSample.stored = true.
Proof.
  destruct SampleFacts.stored_facts as (blob & salt & Hfiles & _).
  destruct (UploadFacts.upload_ok Sample.runtime UploadSample.request
              (Some "vault"%string) None (Some "correct horse"%string) None
              "c"%char "orrect horse" KeyExchangeSample.owner
              KeyExchangeSample.owner Sample.client 1000 UploadSample.before
              AccessLevel.vault eq_refl eq_refl eq_refl eq_refl eq_refl)
    as (doc & _ & _ & _ & Hfiles' & _ & _ & _ & _ & _ & _ & Howner & _).
  fold UploadSample.after in Hfiles'. rewrite Hfiles in Hfiles'.
  injection Hfiles' as ->.
  unfold DownloadFacts.granted, FileController.owner_or_admin.
  rewrite Howner, Z.eqb_refl, orb_true_r. cbn [negb]. now rewrite andb_false_r.
Qed.

(** The download of the sample upload by its owner, at time 2000. *)
Lemma sample_download :
  FileController.downloadFile 1 (Some "correct horse"%string) None
    KeyExchangeSample.owner Sample.client 2000 UploadSample.after
  = (Http.Response 200 (FileController.download_headers UploadSample.stored) []
       (Http.Send UploadSample.content),
     DownloadFacts.served KeyExchangeSample.owner Sample.client 2000
       UploadSample.stored UploadSample.after).
Proof.
  destruct SampleFacts.stored_facts
    as (blob & salt & _ & Hread & Hsealed & Hsalt & Htruthy & _).
  apply (DownloadFacts.download_sealed 1 (Some "correct horse"%string) None
           KeyExchangeSample.owner Sample.client 2000 UploadSample.after
           UploadSample.stored "c"%char "orrect horse" SampleFacts.stored_found
           sample_granted)
    with (salt := salt) (blob := blob).
  - reflexivity.
  - unfold FileController.resolve_salt. rewrite Hsalt, Htruthy. reflexivity.
  - exact Hsealed.
  - exact Hread.
Qed.

Lemma sample_unique : NoDup (map File._id (World.files UploadSample.after)).
Proof.
  destruct SampleFacts.stored_facts as (blob & salt & -> & _).
  cbn [map]. constructor; [intros [] | constructor].
Qed.

End CounterSample.



(* ================================================================== *)
(** * The middleware: tokens, roles, resources, ownership *)
(* ================================================================== *)

Module MiddlewareFacts.
Import Http.

(** [verifyToken] lets a request through exactly in this case. *)
Lemma verifyToken_next (tok : option token) (now : Z) (w : World.t) (u : User.t) :
  Middleware.verifyToken tok now w = Middleware.Next u
  <-> exists t, tok = Some t /\ now < expires t /\ mfaPending t = false
                /\ World.User_findById (id t) w = Some u
                /\ User.isLocked u now = false.
Proof.
  unfold Middleware.verifyToken. split.
  - destruct tok as [t|]; [|discriminate].
    destruct (expires t <=? now) eqn:He; [discriminate|].
    destruct (mfaPending t) eqn:Hp; [discriminate|].
    destruct (World.User_findById (id t) w) as [v|] eqn:Hv; [|discriminate].
    destruct (User.isLocked v now) eqn:Hl; [discriminate|].
    intros [= <-]. exists t. apply Z.leb_gt in He. repeat split; assumption.
  - intros (t & -> & He & Hp & Hv & Hl).
    apply Z.leb_gt in He. rewrite He, Hp, Hv, Hl. reflexivity.
Qed.

Lemma verifyMFAToken_next (tok : option token) (now : Z) (w : World.t) (u : User.t) :
  Middleware.verifyMFAToken tok now w = Middleware.Next u
  <-> exists t, tok = Some t /\ now < expires t /\ mfaPending t = true
                /\ World.User_findById (id t) w = Some u.
Proof.
  unfold Middleware.verifyMFAToken. split.
  - destruct tok as [t|]; [|discriminate].
    destruct (expires t <=? now) eqn:He; [discriminate|].
    destruct (mfaPending t) eqn:Hp; [|discriminate].
    destruct (World.User_findById (id t) w) as [v|] eqn:Hv; [|discriminate].
    intros [= <-]. exists t. apply Z.leb_gt in He. repeat split; assumption.
  - intros (t & -> & He & Hp & Hv).
    apply Z.leb_gt in He. rewrite He, Hp, Hv. reflexivity.
Qed.

End MiddlewareFacts.

(** X1: the two kinds of token are not interchangeable.  A token that is
    not expired and is MFA-pending is refused by [verifyToken] with 403 'MFA
    verification required.'; one that is not MFA-pending is refused by
    [verifyMFAToken] with 400 'Invalid MFA token.'; so no token passes
    both. *)
Theorem X1_token_kinds (t : Http.token) (now : Z) (w : World.t) :
  (now < Http.expires t -> Http.mfaPending t = true ->
   Middleware.verifyToken (Some t) now w
   = Middleware.Rejected (Http.fail 403 "MFA verification required."))
  /\ (now < Http.expires t -> Http.mfaPending t = false ->
      Middleware.verifyMFAToken (Some t) now w
      = Middleware.Rejected (Http.fail 400 "Invalid MFA token."))
  /\ (forall u u' : User.t,
        Middleware.verifyToken (Some t) now w = Middleware.Next u ->
        Middleware.verifyMFAToken (Some t) now w <> Middleware.Next u').
Proof.
  split; [|split].
  - intros He Hp. unfold Middleware.verifyToken.
    apply Z.leb_gt in He. rewrite He, Hp. reflexivity.
  - intros He Hp. unfold Middleware.verifyMFAToken.
    apply Z.leb_gt in He. rewrite He, Hp. reflexivity.
  - intros u u' H1 H2.
    apply MiddlewareFacts.verifyToken_next in H1.
    apply MiddlewareFacts.verifyMFAToken_next in H2.
    destruct H1 as (t1 & [= <-] & _ & Hp1 & _).
    destruct H2 as (t2 & [= <-] & _ & Hp2 & _).
    rewrite Hp1 in Hp2. discriminate Hp2.
Qed.

(** On the sample: the pending token of the sample account, at 2000. *)
Lemma X1_witness :
  Middleware.verifyToken (Some SampleAccount.pending) 2000 SampleAccount.world
  = Middleware.Rejected (Http.fail 403 "MFA verification required.").
Proof.
  destruct (X1_token_kinds SampleAccount.pending 2000 SampleAccount.world)
    as (Hpending & _).
  apply Hpending; [cbn; lia | reflexivity].
Defined.

(** X2: [optionalAuth] attaches a user to the request exactly when
    [verifyToken] lets the request through, and then it is the same user; in
    every other case the request goes on without a user. *)
Theorem X2_optionalAuth_agrees (tok : option Http.token) (now : Z) (w : World.t)
  (u : User.t) :
  AuthMiddleware.optionalAuth tok now w = Some u
  <-> Middleware.verifyToken tok now w = Middleware.Next u.
Proof.
  unfold AuthMiddleware.optionalAuth, Middleware.verifyToken.
  destruct tok as [t|]; [|split; discriminate].
  destruct (Http.expires t <=? now); [split; discriminate|].
  destruct (Http.mfaPending t); [split; discriminate|].
  destruct (World.User_findById (Http.id t) w) as [v|]; [|split; discriminate].
  destruct (User.isLocked v now); [split; discriminate|].
  split; intros [= <-]; reflexivity.
Qed.

Module AclFacts.
Import Http.

(** The order of privileges: guest, premium, admin; delete, write, read. *)
Definition rank (r : Role.t) : nat :=
  match r with Role.guest => 0 | Role.premium => 1 | Role.admin => 2 end.

Definition weight (a : Acl.action) : nat :=
  match a with Acl.delete => 2 | Acl.write => 1 | Acl.read => 0 end.

Definition allowed (r : Acl.resource) (a : Acl.action) (role : Role.t) : bool :=
  existsb (Role.eqb role) (Acl.ACL_RULES r a).

Lemma allowed_monotone (r : Acl.resource) (a a' : Acl.action) (role role' : Role.t) :
  (rank role <= rank role')%nat -> (weight a' <= weight a)%nat ->
  allowed r a role = true -> allowed r a' role' = true.
Proof.
  destruct r, a, a', role, role'; cbn; intros H1 H2 H3;
    first [reflexivity | discriminate H3 | lia].
Qed.

Lemma passes (r : Acl.resource) (a : Acl.action) (u : User.t) (req : Acl.request)
  (w : World.t) :
  fst (Acl.verifyResourceAccess r a (Some u) req w) = None
  <-> allowed r a (User.role u) = true.
Proof.
  unfold Acl.verifyResourceAccess, allowed.
  destruct (existsb _ _); cbn [fst]; split; intros H;
    first [reflexivity | discriminate H].
Qed.

End AclFacts.

(** X3: the access control matrix is monotone.  Whenever
    [verifyResourceAccess] lets a user act on a resource, it lets every user
    of the same or a higher role (guest, premium, admin) do the same and
    every weaker action (delete, write, read) on that resource. *)
Theorem X3_acl_monotone (r : Acl.resource) (a a' : Acl.action) (u u' : User.t)
  (req req' : Acl.request) (w w' : World.t)
  (higher : (AclFacts.rank (User.role u) <= AclFacts.rank (User.role u'))%nat)
  (weaker : (AclFacts.weight a' <= AclFacts.weight a)%nat)
  (passes : fst (Acl.verifyResourceAccess r a (Some u) req w) = None) :
  Acl.verifyResourceAccess r a' (Some u') req' w' = (None, w').
Proof.
  apply AclFacts.passes in passes.
  pose proof (AclFacts.allowed_monotone r a a' _ _ higher weaker passes) as H.
  unfold Acl.verifyResourceAccess. unfold AclFacts.allowed in H. rewrite H.
  reflexivity.
Qed.

(** On the sample: a premium user may write to the vault, so an
    administrator may read it. *)
Lemma X3_witness :
  fst (Acl.verifyResourceAccess Acl.encrypted_vault Acl.write (Some AdminSample.ann)
         AdminSample.request AdminSample.world) = None
  /\ Acl.verifyResourceAccess Acl.encrypted_vault Acl.read (Some AdminSample.root)
       AdminSample.request AdminSample.world
     = (None, AdminSample.world).
Proof.
  split; [reflexivity|].
  apply (X3_acl_monotone Acl.encrypted_vault Acl.write Acl.read AdminSample.ann
           AdminSample.root AdminSample.request AdminSample.request
           AdminSample.world AdminSample.world);
    [cbn; lia | cbn; lia | reflexivity].
Defined.

(** X4: what a refusal records.  A user that [verifyRole] or
    [verifyResourceAccess] refuses gets the same answer, 403 'You do not have
    permission to perform this action.', whatever the role, the resource or
    the roles allowed, and exactly one ACCESS_DENIED event with the
    identifier of the user and the address requested joins the audit trail,
    nothing else changing; a request without a user is answered 401 and
    leaves no event: the audit schema refuses an event without an actor. *)
Theorem X4_refusals_recorded (allowedRoles : list Role.t) (r : Acl.resource)
  (a : Acl.action) (req : Acl.request) (w : World.t) :
  (forall u : User.t,
     existsb (Role.eqb (User.role u)) allowedRoles = false ->
     exists e : AuditLog.t,
       Acl.verifyRole allowedRoles (Some u) req w = (Some Acl.denied, World.log e w)
       /\ AuditLog.act e = AuditLog.ACCESS_DENIED
       /\ AuditLog.outcome e = AuditLog.DENIED
       /\ AuditLog.actor e = User._id u
       /\ AuditLog.target e = Acl.originalUrl req)
  /\ (forall u : User.t,
        AclFacts.allowed r a (User.role u) = false ->
        exists e : AuditLog.t,
          Acl.verifyResourceAccess r a (Some u) req w
          = (Some Acl.denied, World.log e w)
          /\ AuditLog.act e = AuditLog.ACCESS_DENIED
          /\ AuditLog.outcome e = AuditLog.DENIED
          /\ AuditLog.actor e = User._id u
          /\ AuditLog.target e = Acl.originalUrl req)
  /\ Acl.verifyRole allowedRoles None req w
     = (Some (Http.fail 401 "Authentication required."), w)
  /\ Acl.verifyResourceAccess r a None req w
     = (Some (Http.fail 401 "Authentication required."), w).
Proof.
  split; [|split; [|split; reflexivity]].
  - intros u H. unfold Acl.verifyRole. rewrite H. eexists. split; [reflexivity|].
    repeat split.
  - intros u H. unfold Acl.verifyResourceAccess. unfold AclFacts.allowed in H.
    rewrite H. eexists. split; [reflexivity|]. repeat split.
Qed.

(** On the sample: the premium user asks for a route of administrators. *)
Lemma X4_witness :
  exists e : AuditLog.t,
    Acl.verifyRole [Role.admin] (Some AdminSample.ann) AdminSample.request
      AdminSample.world
    = (Some Acl.denied, World.log e AdminSample.world)
    /\ AuditLog.actor e = 2.
Proof.
  destruct (X4_refusals_recorded [Role.admin] Acl.user_management Acl.write
              AdminSample.request AdminSample.world) as (Hrole & _).
  destruct (Hrole AdminSample.ann eq_refl) as (e & Hrun & _ & _ & Hactor & _).
  exists e. split; [exact Hrun | exact Hactor].
Defined.

(** X5: [verifyOwnership] lets a user through exactly when the user is an
    administrator or the owner that [getOwnerId] returns; an administrator
    passes also when no owner is found.  Of the refusals, only that of a
    user who is not the owner is recorded. *)
Theorem X5_ownership (ownerId : option Z) (u : User.t) (req : Acl.request)
  (w : World.t) :
  (fst (Acl.verifyOwnership ownerId (Some u) req w) = None
   <-> User.role u = Role.admin \/ ownerId = Some (User._id u))
  /\ (fst (Acl.verifyOwnership ownerId (Some u) req w) = None ->
      snd (Acl.verifyOwnership ownerId (Some u) req w) = w)
  /\ (User.role u <> Role.admin -> ownerId = None ->
      Acl.verifyOwnership ownerId (Some u) req w
      = (Some (Http.fail 404 "Resource not found."), w))
  /\ (forall owner : Z,
        User.role u <> Role.admin -> ownerId = Some owner -> owner <> User._id u ->
        fst (Acl.verifyOwnership ownerId (Some u) req w)
        = Some (Http.fail 403 "You do not have permission to access this resource.")
        /\ List.length (World.auditLog (snd (Acl.verifyOwnership ownerId (Some u) req w)))
           = S (List.length (World.auditLog w))).
Proof.
  unfold Acl.verifyOwnership.
  destruct (Role.eqb (User.role u) Role.admin) eqn:Ha.
  - assert (Hadmin : User.role u = Role.admin)
      by (destruct (User.role u); first [reflexivity | discriminate Ha]).
    split; [split; [intros _; left; exact Hadmin | reflexivity]|].
    split; [reflexivity|].
    split; [intros H; contradiction|]. intros owner H; contradiction.
  - assert (Hnot : User.role u <> Role.admin)
      by (intros E; rewrite E in Ha; discriminate Ha).
    destruct ownerId as [owner|].
    + destruct (User._id u =? owner) eqn:E; cbn [negb fst snd].
      * apply Z.eqb_eq in E. subst owner.
        split; [split; [intros _; right; reflexivity | reflexivity]|].
        split; [reflexivity|]. split; [discriminate|].
        intros owner _ [= <-] Hne. contradiction.
      * apply Z.eqb_neq in E.
        split; [split; [discriminate | intros [H | [= H]]; congruence]|].
        split; [discriminate|]. split; [discriminate|].
        intros owner' _ [= <-] _. split; [reflexivity|].
        unfold Acl.logDeniedAccess, World.log. cbn [World.auditLog].
        rewrite length_app. cbn. lia.
    + cbn [fst snd].
      split; [split; [discriminate | intros [H | H]; [contradiction | discriminate H]]|].
      split; [discriminate|]. split; [reflexivity|]. discriminate.
Qed.

(** On the sample: the premium user and a resource of the
    administrator. *)
Lemma X5_witness :
  fst (Acl.verifyOwnership (Some 1) (Some AdminSample.ann) AdminSample.request
         AdminSample.world)
  = Some (Http.fail 403 "You do not have permission to access this resource.").
Proof.
  destruct (X5_ownership (Some 1) AdminSample.ann AdminSample.request
              AdminSample.world) as (_ & _ & _ & Hother).
  destruct (Hother 1 ltac:(discriminate) eq_refl ltac:(discriminate)) as [H _].
  exact H.
Defined.

(* ================================================================== *)
(** * adminController.js: roles and locks *)
(* ================================================================== *)

Module AdminFacts.
Import Http.

Lemma set_role_keeps (r : Role.t) : StoreFacts.keeps_identity (AdminController.set_role r).
Proof. intros u. split; reflexivity. Qed.

Lemma role_eqb_eq (a b : Role.t) : Role.eqb a b = true <-> a = b.
Proof. destruct a, b; split; intros H; first [reflexivity | discriminate H]. Qed.

(** The number of documents with a property, before and after an update
    of the one document that has an identifier. *)
Definition count (p : User.t -> bool) (l : list User.t) : nat :=
  List.length (filter p l).

Definition unit_of (b : bool) : nat := if b then 1 else 0.

Lemma count_update (p : User.t -> bool) (h : User.t -> User.t) (id : Z)
  (l : list User.t) (target : User.t) :
  NoDup (map User._id l) -> In target l -> User._id target = id ->
  (count p (map (fun u => if (User._id u =? id)%Z then h u else u) l)
   + unit_of (p target)
   = count p l + unit_of (p (h target)))%nat.
Proof.
  intros Hnd Hin Hid. induction l as [|x l IH]; [contradiction|].
  cbn [map] in Hnd. apply NoDup_cons_iff in Hnd. destruct Hnd as [Hx Hnd].
  unfold count in *. cbn [map filter].
  destruct Hin as [-> | Hin].
  - rewrite Hid, Z.eqb_refl.
    assert (Hsame : map (fun u => if User._id u =? id then h u else u) l = l).
    { rewrite <- (map_id l) at 2. apply map_ext_in. intros u Hu.
      destruct (User._id u =? id) eqn:E; [|reflexivity].
      apply Z.eqb_eq in E. exfalso. apply Hx. rewrite Hid, <- E. now apply in_map. }
    rewrite Hsame.
    destruct (p (h target)), (p target); cbn [List.length unit_of]; lia.
  - assert (Hne : (User._id x =? id) = false).
    { apply Z.eqb_neq. intros E. apply Hx. rewrite E, <- Hid. now apply in_map. }
    rewrite Hne. specialize (IH Hnd Hin).
    destruct (p x); cbn [List.length]; lia.
Qed.

(** The stored account of a user after a change of role. *)
Definition with_role (r : Role.t) (now : Z) (u : User.t) : User.t :=
  if Role.eqb (User.role u) r then u
  else User.touch now (AdminController.set_role r u).

Lemma with_role_role (r : Role.t) (now : Z) (u : User.t) :
  User.role (with_role r now u) = r.
Proof.
  unfold with_role. destruct (Role.eqb (User.role u) r) eqn:E; [|reflexivity].
  now apply role_eqb_eq.
Qed.

Lemma with_role_lock (r : Role.t) (now t : Z) (u : User.t) :
  User.isLocked (with_role r now u) t = User.isLocked u t.
Proof. unfold with_role. destruct (Role.eqb (User.role u) r); reflexivity. Qed.

Lemma found_id (id : Z) (w : World.t) (u : User.t) :
  World.User_findById id w = Some u -> In u (World.users w) /\ User._id u = id.
Proof.
  unfold World.User_findById, World.User_findOne. intros H.
  apply find_some in H. destruct H as [Hin Hid]. split; [exact Hin|].
  now apply Z.eqb_eq.
Qed.

Section Update.
Variables (id : Z) (role : option string) (r : Role.t) (actor : User.t)
  (c : client) (now : Z) (w : World.t) (target : User.t).
Hypothesis found : World.User_findById id w = Some target.
Hypothesis named : AdminController.role_of role = Some r.

Let run := AdminController.updateUserRole id role actor c now w.

Lemma updateUserRole_answer :
  fst run
  = Reply.Data 200 (Some "User role updated successfully."%string)
      (Reply.RoleChanged id (User.username target) (User.role target) r).
Proof.
  unfold run, AdminController.updateUserRole. rewrite named, found.
  destruct (found_id id w target found) as [_ ->]. reflexivity.
Qed.

Lemma updateUserRole_users :
  World.users (snd run)
  = if Role.eqb (User.role target) r then World.users w
    else map (fun u => if User._id u =? id
                       then User.touch now (AdminController.set_role r u) else u)
           (World.users w).
Proof.
  unfold run, AdminController.updateUserRole. rewrite named, found.
  destruct (found_id id w target found) as [_ ->].
  cbn [snd]. destruct (Role.eqb (User.role target) r); reflexivity.
Qed.

Lemma updateUserRole_found :
  World.User_findById id (snd run) = Some (with_role r now target).
Proof.
  unfold World.User_findById, World.User_findOne. rewrite updateUserRole_users.
  unfold with_role. destruct (Role.eqb (User.role target) r); [exact found|].
  destruct (found_id id w target found) as [_ Hid].
  pose proof (StoreFacts.find_map (fun u => User._id u =? id)
                (fun u => if User._id u =? id
                          then User.touch now (AdminController.set_role r u) else u)
                (World.users w) target) as H.
  cbv beta in H. rewrite Hid, Z.eqb_refl in H. apply H; [|exact found].
  intros y. destruct (User._id y =? id) eqn:E; [|exact E].
  cbn [User._id User.touch AdminController.set_role]. exact E.
Qed.

Lemma updateUserRole_count (p : User.t -> bool) :
  NoDup (map User._id (World.users w)) ->
  (count p (World.users (snd run)) + unit_of (p target)
   = count p (World.users w) + unit_of (p (with_role r now target)))%nat.
Proof.
  intros Hnd. rewrite updateUserRole_users. unfold with_role.
  destruct (Role.eqb (User.role target) r); [reflexivity|].
  destruct (found_id id w target found) as [Hin Hid].
  apply (count_update p (fun u => User.touch now (AdminController.set_role r u)) id
           (World.users w) target Hnd Hin Hid).
Qed.

End Update.
End AdminFacts.

(** X6: [updateUserRole] enforces no bound on the number of
    administrators.  For a role that is one of the three names and a user
    that is found, it answers 200, the stored user has the new role, and,
    identifiers being unique, the number of administrators goes up by one when
    a user who was none is made one and down by one when an administrator is
    given another role: a second administrator can be made, and the last
    one can be unmade. *)
Theorem X6_updateUserRole_unbounded
  (id : Z) (role : option string) (r : Role.t) (actor : User.t) (c : Http.client)
  (now : Z) (w : World.t) (target : User.t)
  (found : World.User_findById id w = Some target)
  (named : AdminController.role_of role = Some r)
  (unique : NoDup (map User._id (World.users w))) :
  let run := AdminController.updateUserRole id role actor c now w in
  let admins := fun w0 => List.length (RegisterFacts.admins w0) in
  fst run
  = Reply.Data 200 (Some "User role updated successfully."%string)
      (Reply.RoleChanged id (User.username target) (User.role target) r)
  /\ (exists stored : User.t,
        World.User_findById id (snd run) = Some stored /\ User.role stored = r
        /\ User.username stored = User.username target
        /\ User.password stored = User.password target)
  /\ (User.role target <> Role.admin -> r = Role.admin ->
      admins (snd run) = S (admins w))
  /\ (User.role target = Role.admin -> r <> Role.admin ->
      S (admins (snd run)) = admins w).
Proof.
  cbv zeta.
  split; [apply AdminFacts.updateUserRole_answer; assumption|].
  split.
  { exists (AdminFacts.with_role r now target).
    split; [apply AdminFacts.updateUserRole_found; assumption|].
    split; [apply AdminFacts.with_role_role|].
    unfold AdminFacts.with_role.
    destruct (Role.eqb (User.role target) r); split; reflexivity. }
  pose proof (AdminFacts.updateUserRole_count id role r actor c now w target found
                named RegisterFacts.is_admin unique) as H.
  unfold AdminFacts.count in H. fold (RegisterFacts.admins w) in H.
  change (filter RegisterFacts.is_admin
            (World.users (snd (AdminController.updateUserRole id role actor c now w))))
    with (RegisterFacts.admins
            (snd (AdminController.updateUserRole id role actor c now w))) in H.
  unfold RegisterFacts.is_admin at 1 2 in H.
  rewrite AdminFacts.with_role_role in H.
  split.
  - intros Hold ->. destruct (Role.eqb (User.role target) Role.admin) eqn:E.
    + apply AdminFacts.role_eqb_eq in E. contradiction.
    + cbn [AdminFacts.unit_of Role.eqb] in H. lia.
  - intros Hold Hnew. rewrite Hold in H.
    destruct (Role.eqb r Role.admin) eqn:E.
    + apply AdminFacts.role_eqb_eq in E. contradiction.
    + cbn [AdminFacts.unit_of Role.eqb] in H. lia.
Qed.

(** On the sample: the premium user is made a second administrator. *)
Lemma X6_witness :
  World.User_findById 2 AdminSample.world = Some AdminSample.ann
  /\ List.length (RegisterFacts.admins AdminSample.world) = 1%nat
  /\ List.length
       (RegisterFacts.admins
          (snd (AdminController.updateUserRole 2 (Some "admin"%string)
                  AdminSample.root Sample.client 5000 AdminSample.world)))
     = 2%nat.
Proof.
  split; [reflexivity|]. split; [reflexivity|].
  assert (unique : NoDup (map User._id (World.users AdminSample.world))).
  { cbn. repeat (constructor; [cbn; intuition discriminate|]). constructor. }
  destruct (X6_updateUserRole_unbounded 2 (Some "admin"%string) Role.admin
              AdminSample.root Sample.client 5000 AdminSample.world AdminSample.ann
              eq_refl eq_refl unique) as (_ & _ & Hup & _).
  rewrite Hup; [reflexivity | discriminate | reflexivity].
Defined.

(** X7: a change of role takes effect on the next request of the user.
    [verifyToken] attaches the stored user, whose role is the new one,
    whatever role the token was issued for; a route that the new role does
    not allow then refuses the user. *)
Theorem X7_role_change_is_live
  (id : Z) (role : option string) (r : Role.t) (actor : User.t) (c : Http.client)
  (now : Z) (w : World.t) (target : User.t) (tok : Http.token) (t : Z)
  (found : World.User_findById id w = Some target)
  (named : AdminController.role_of role = Some r)
  (session : Http.id tok = id)
  (full : Http.mfaPending tok = false)
  (valid : t < Http.expires tok)
  (unlocked : User.isLocked target t = false) :
  let w' := snd (AdminController.updateUserRole id role actor c now w) in
  exists stored : User.t,
    Middleware.verifyToken (Some tok) t w' = Middleware.Next stored
    /\ User.role stored = r
    /\ (forall (allowedRoles : list Role.t) (url : string),
          existsb (Role.eqb r) allowedRoles = false ->
          fst (Middleware.verifyRole allowedRoles stored c url w')
          = Some (Http.fail 403 "You do not have permission to perform this action.")).
Proof.
  cbv zeta. exists (AdminFacts.with_role r now target).
  split.
  - apply MiddlewareFacts.verifyToken_next. exists tok.
    split; [reflexivity|]. split; [exact valid|]. split; [exact full|].
    rewrite session.
    split; [apply AdminFacts.updateUserRole_found; assumption|].
    rewrite AdminFacts.with_role_lock. exact unlocked.
  - split; [apply AdminFacts.with_role_role|].
    intros allowedRoles url H. unfold Middleware.verifyRole.
    rewrite AdminFacts.with_role_role, H. reflexivity.
Qed.

(** On the sample: the premium user is made a guest; the token issued for
    the premium role then attaches a guest. *)
Lemma X7_witness :
  exists stored : User.t,
    Middleware.verifyToken (Some AdminSample.ann_token) 6000
      (snd (AdminController.updateUserRole 2 (Some "guest"%string) AdminSample.root
              Sample.client 5000 AdminSample.world))
    = Middleware.Next stored
    /\ User.role stored = Role.guest.
Proof.
  destruct (X7_role_change_is_live 2 (Some "guest"%string) Role.guest
              AdminSample.root Sample.client 5000 AdminSample.world AdminSample.ann
              AdminSample.ann_token 6000 eq_refl eq_refl eq_refl eq_refl eq_refl
              eq_refl) as (stored & Htok & Hrole & _).
  exists stored. split; assumption.
Defined.

Module UnlockFacts.
Import Http.

(** The stored account of a user after an unlock. *)
Definition unlocked (now : Z) (u : User.t) : User.t :=
  if (User.loginAttempts u =? 0)
     && match User.lockUntil u with None => true | Some _ => false end
  then u
  else User.touch now (User.set_login 0 None u).

Lemma unlocked_state (now : Z) (u : User.t) :
  User.loginAttempts (unlocked now u) = 0 /\ User.lockUntil (unlocked now u) = None
  /\ User.password (unlocked now u) = User.password u
  /\ User._id (unlocked now u) = User._id u.
Proof.
  unfold unlocked. destruct (User.loginAttempts u =? 0) eqn:E; cbn [andb].
  - apply Z.eqb_eq in E. destruct (User.lockUntil u) eqn:L; cbn; repeat split;
      assumption.
  - cbn. repeat split.
Qed.

Section Unlock.
Variables (id : Z) (actor : User.t) (c : client) (now : Z) (w : World.t)
  (target : User.t).
Hypothesis found : World.User_findById id w = Some target.

Let run := AdminController.unlockUser id actor c now w.

Lemma unlockUser_users :
  World.users (snd run)
  = if (User.loginAttempts target =? 0)
       && match User.lockUntil target with None => true | Some _ => false end
    then World.users w
    else World.users (World.User_update id now (User.set_login 0 None) w).
Proof.
  unfold run, AdminController.unlockUser. rewrite found.
  destruct (AdminFacts.found_id id w target found) as [_ ->].
  cbn [snd]. destruct (_ && _); reflexivity.
Qed.

Lemma unlockUser_found :
  World.User_findById id (snd run) = Some (unlocked now target).
Proof.
  unfold World.User_findById, World.User_findOne. rewrite unlockUser_users.
  unfold unlocked. destruct (_ && _); [exact found|].
  pose proof (StoreFacts.findById_update id now (User.set_login 0 None) w
                (StoreFacts.set_login_keeps 0 None) id target found) as H.
  cbv beta zeta in H.
  destruct (AdminFacts.found_id id w target found) as [_ Hid].
  rewrite Hid, Z.eqb_refl in H. exact H.
Qed.

Lemma unlockUser_by_email (email : string) :
  World.User_findOne (fun u => (User.email u =? email)%string) w = Some target ->
  World.User_findOne (fun u => (User.email u =? email)%string) (snd run)
  = Some (unlocked now target).
Proof.
  intros He. unfold World.User_findOne. rewrite unlockUser_users.
  unfold unlocked. destruct (_ && _); [exact He|].
  pose proof (StoreFacts.findByEmail_update id now (User.set_login 0 None) w
                (StoreFacts.set_login_keeps 0 None) email target He) as H.
  cbv beta zeta in H.
  destruct (AdminFacts.found_id id w target found) as [_ Hid].
  rewrite Hid, Z.eqb_refl in H. exact H.
Qed.

End Unlock.
End UnlockFacts.

(** X8: [unlockUser] gives the account back at once.  For a user that is
    found, it answers 200; the stored account has a counter of 0 and no
    lock, whatever they were; a login with the e-mail address and a password
    that matches is then answered 200 at any time, not 423; and the event
    recorded for the unlock has the action ACCOUNT_LOCKED. *)
Theorem X8_unlock_restores_login
  (rt : Runtime.t) (id : Z) (actor : User.t) (c : Http.client) (now t : Z)
  (w : World.t) (target : User.t) (email password : string)
  (found : World.User_findById id w = Some target)
  (by_email :
     World.User_findOne (fun u => (User.email u =? email)%string) w = Some target)
  (given : Js.truthy (Some email) = true /\ Js.truthy (Some password) = true)
  (matches : Runtime.bcrypt_compare rt password (User.password target) = true) :
  let run := AdminController.unlockUser id actor c now w in
  fst run
  = Reply.Plain (Http.json 200 true "User account unlocked successfully." Http.NoData)
  /\ (exists stored : User.t,
        World.User_findById id (snd run) = Some stored
        /\ User.loginAttempts stored = 0 /\ User.lockUntil stored = None)
  /\ Http.status
       (fst (AuthController.login rt (Some email) (Some password) c t (snd run)))
     = 200
  /\ (exists e : AuditLog.t,
        World.auditLog (snd run) = World.auditLog w ++ [e]
        /\ AuditLog.act e = AuditLog.ACCOUNT_LOCKED).
Proof.
  cbv zeta. destruct given as [He Hp].
  destruct (UnlockFacts.unlocked_state now target) as (Hk & Hl & Hpw & Hid).
  split.
  { unfold AdminController.unlockUser. rewrite found. reflexivity. }
  split.
  { exists (UnlockFacts.unlocked now target).
    split; [apply UnlockFacts.unlockUser_found; exact found|].
    split; assumption. }
  split.
  { pose proof (UnlockFacts.unlockUser_by_email id actor c now w target found email
                  by_email) as Hfind.
    unfold AuthController.login.
    destruct email as [|a e]; [discriminate He|].
    destruct password as [|b p]; [discriminate Hp|].
    rewrite Hfind. unfold User.isLocked. rewrite Hl, Hpw, matches. reflexivity. }
  unfold AdminController.unlockUser. rewrite found. cbn [snd].
  eexists. split.
  - unfold World.log at 1. cbn [World.auditLog].
    destruct (_ && _); reflexivity.
  - reflexivity.
Qed.

(** On the sample: the guest is locked until 9000000; after the unlock at
    5000 the login at 6000 is answered 200. *)
Lemma X8_witness :
  User.isLocked AdminSample.gus 6000 = true
  /\ Http.status
       (fst (AuthController.login Sample.runtime (Some "gus@example.org"%string)
               (Some "battery staple"%string) Sample.client 6000
               (snd (AdminController.unlockUser 3 AdminSample.root Sample.client
                       5000 AdminSample.world))))
     = 200.
Proof.
  split; [reflexivity|].
  destruct (X8_unlock_restores_login Sample.runtime 3 AdminSample.root
              Sample.client 5000 6000 AdminSample.world AdminSample.gus
              "gus@example.org" "battery staple" eq_refl eq_refl
              (conj eq_refl eq_refl) eq_refl) as (_ & _ & Hlogin & _).
  exact Hlogin.
Defined.

(** X9: the administration routes serve administrators only, and the
    check of the resource after the check of the role never refuses.  A user
    that [verifyToken] lets through and who is no administrator is answered
    403 by both routes and no account changes; for an administrator the
    routes are the controllers. *)
Theorem X9_admin_routes
  (accessToken : option Http.token) (id : Z) (role : option string)
  (req : Acl.request) (now : Z) (w : World.t) (user : User.t)
  (session : Middleware.verifyToken accessToken now w = Middleware.Next user) :
  (User.role user <> Role.admin ->
   fst (AdminRoutes.put_user_role accessToken id role req now w)
   = Reply.Plain Acl.denied
   /\ World.users (snd (AdminRoutes.put_user_role accessToken id role req now w))
      = World.users w
   /\ fst (AdminRoutes.post_user_unlock accessToken id req now w)
      = Reply.Plain Acl.denied
   /\ World.users (snd (AdminRoutes.post_user_unlock accessToken id req now w))
      = World.users w)
  /\ (User.role user = Role.admin ->
      AdminRoutes.put_user_role accessToken id role req now w
      = AdminController.updateUserRole id role user (Acl.from req) now w
      /\ AdminRoutes.post_user_unlock accessToken id req now w
         = AdminController.unlockUser id user (Acl.from req) now w).
Proof.
  unfold AdminRoutes.put_user_role, AdminRoutes.post_user_unlock,
    AdminRoutes.guarded. rewrite session.
  unfold Acl.verifyRole, Acl.verifyResourceAccess. split.
  - intros Hnot.
    assert (E : existsb (Role.eqb (User.role user)) [Role.admin] = false).
    { cbn [existsb]. destruct (Role.eqb (User.role user) Role.admin) eqn:E;
        [|reflexivity].
      apply AdminFacts.role_eqb_eq in E. contradiction. }
    rewrite E. repeat split.
  - intros Hadmin. rewrite Hadmin. cbn [existsb Role.eqb orb Acl.ACL_RULES].
    split; reflexivity.
Qed.

(** On the sample: the premium user is refused by the route of the role
    change. *)
Lemma X9_witness :
  Middleware.verifyToken (Some AdminSample.ann_token) 5000 AdminSample.world
  = Middleware.Next AdminSample.ann
  /\ fst (AdminRoutes.put_user_role (Some AdminSample.ann_token) 3
            (Some "admin"%string) AdminSample.request 5000 AdminSample.world)
     = Reply.Plain Acl.denied.
Proof.
  split; [reflexivity|].
  destruct (X9_admin_routes (Some AdminSample.ann_token) 3 (Some "admin"%string)
              AdminSample.request 5000 AdminSample.world AdminSample.ann eq_refl)
    as [Hother _].
  destruct (Hother ltac:(discriminate)) as (Hput & _). exact Hput.
Defined.

(* ================================================================== *)
(** * authController.js: sessions *)
(* ================================================================== *)

(** X10: [logout] does not end the session on the server.  For a request
    that [verifyToken] lets through, it answers 200, clears the two
    cookies and records a LOGOUT event of the user, changing nothing else;
    the token that was used is accepted after the logout exactly as
    before it, at every time. *)
Theorem X10_logout_keeps_token
  (accessToken : option Http.token) (c : Http.client) (now : Z) (w : World.t)
  (user : User.t)
  (session : Middleware.verifyToken accessToken now w = Middleware.Next user) :
  let run := AuthProfile.post_logout accessToken c now w in
  fst run
  = Http.Response 200 []
      [("accessToken"%string, None); ("mfaToken"%string, None)]
      (Http.Json true "Logged out successfully." Http.NoData)
  /\ World.users (snd run) = World.users w
  /\ World.files (snd run) = World.files w
  /\ (exists e : AuditLog.t,
        World.auditLog (snd run) = World.auditLog w ++ [e]
        /\ AuditLog.act e = AuditLog.LOGOUT /\ AuditLog.actor e = User._id user)
  /\ (forall (t : Z) (tok : option Http.token),
        Middleware.verifyToken tok t (snd run) = Middleware.verifyToken tok t w).
Proof.
  cbv zeta. unfold AuthProfile.post_logout. rewrite session.
  unfold AuthProfile.logout. cbn [fst snd].
  split; [reflexivity|]. split; [reflexivity|]. split; [reflexivity|].
  split; [eexists; split; [reflexivity | split; reflexivity]|].
  intros t tok. reflexivity.
Qed.

(** On the sample: the token of the premium user after the logout. *)
Lemma X10_witness :
  Middleware.verifyToken (Some AdminSample.ann_token) 5000 AdminSample.world
  = Middleware.Next AdminSample.ann
  /\ Middleware.verifyToken (Some AdminSample.ann_token) 6000
       (snd (AuthProfile.post_logout (Some AdminSample.ann_token) Sample.client 5000
               AdminSample.world))
     = Middleware.verifyToken (Some AdminSample.ann_token) 6000 AdminSample.world.
Proof.
  split; [reflexivity|].
  destruct (X10_logout_keeps_token (Some AdminSample.ann_token) Sample.client 5000
              AdminSample.world AdminSample.ann eq_refl) as (_ & _ & _ & _ & Hkeep).
  apply Hkeep.
Defined.

Module MfaFacts.
Import Http.

(** Some codes tried one after the other with the same pending token: the
    statuses of the answers and the state at the end. *)
Definition tries (rt : Runtime.t) (tok : token) (c : client)
  (codes : list (string * Z)) (w : World.t) : list Z * World.t :=
  fold_left
    (fun acc code =>
       let r :=
         AuthController.verify_mfa_route rt (Some tok) (Some (fst code)) c
           (snd code) (snd acc) in
       (fst acc ++ [status (fst r)], snd r))
    codes ([], w).

Definition wrong (rt : Runtime.t) (tok : token) (u : User.t) (code : string * Z)
  : Prop :=
  Js.truthy (Some (fst code)) = true /\ snd code < expires tok
  /\ Runtime.totp_verify rt (User.mfaSecret u) (fst code) (snd code) = false.

Lemma wrong_code (rt : Runtime.t) (tok : token) (c : client) (u : User.t)
  (code : string * Z) (w : World.t) :
  World.User_findById (id tok) w = Some u -> mfaPending tok = true ->
  wrong rt tok u code ->
  exists e : AuditLog.t,
    AuthController.verify_mfa_route rt (Some tok) (Some (fst code)) c (snd code) w
    = (fail 401 "Invalid MFA code. Please try again.", World.log e w)
    /\ AuditLog.act e = AuditLog.MFA_FAILED.
Proof.
  intros Hu Hp (Hc & He & Hv).
  unfold AuthController.verify_mfa_route, Middleware.verifyMFAToken.
  apply Z.leb_gt in He. rewrite He, Hp, Hu. cbn [negb].
  unfold AuthController.verifyMFA.
  destruct (fst code) as [|a s]; [discriminate Hc|].
  rewrite Hv. cbn [negb]. eexists. split; reflexivity.
Qed.

Lemma tries_wrong (rt : Runtime.t) (tok : token) (c : client) (u : User.t)
  (codes : list (string * Z)) (seen : list Z) (w : World.t) :
  World.User_findById (id tok) w = Some u -> mfaPending tok = true ->
  Forall (wrong rt tok u) codes ->
  let r :=
    fold_left
      (fun acc code =>
         let r :=
           AuthController.verify_mfa_route rt (Some tok) (Some (fst code)) c
             (snd code) (snd acc) in
         (fst acc ++ [status (fst r)], snd r))
      codes (seen, w) in
  fst r = seen ++ repeat 401 (List.length codes)
  /\ World.users (snd r) = World.users w
  /\ List.length (World.auditLog (snd r))
     = (List.length (World.auditLog w) + List.length codes)%nat.
Proof.
  intros Hu Hp Hall. revert seen w Hu.
  induction Hall as [|code codes Hcode _ IH]; intros seen w Hu.
  - cbn. rewrite app_nil_r. repeat split. lia.
  - cbn [fold_left List.length repeat fst snd].
    destruct (wrong_code rt tok c u code w Hu Hp Hcode) as (e & -> & _).
    cbn [fst snd status fail json].
    specialize (IH (seen ++ [401]) (World.log e w) Hu).
    cbv zeta in IH. destruct IH as (H1 & H2 & H3).
    rewrite H1, H2, H3. rewrite <- app_assoc. cbn [app].
    split; [reflexivity|]. split; [reflexivity|].
    unfold World.log. cbn [World.auditLog]. rewrite length_app. cbn. lia.
Qed.

End MfaFacts.

(** X11: wrong MFA codes are not counted.  With a pending token whose
    account is found, any number of codes that do not verify, each tried
    while the token is valid, are each answered 401; each leaves one
    MFA_FAILED event and no account changes: no counter is incremented and
    no lock is set. *)
Theorem X11_mfa_failures_not_counted
  (rt : Runtime.t) (tok : Http.token) (c : Http.client) (u : User.t)
  (codes : list (string * Z)) (w : World.t)
  (found : World.User_findById (Http.id tok) w = Some u)
  (pending : Http.mfaPending tok = true)
  (all_wrong : Forall (MfaFacts.wrong rt tok u) codes) :
  fst (MfaFacts.tries rt tok c codes w) = repeat 401 (List.length codes)
  /\ World.users (snd (MfaFacts.tries rt tok c codes w)) = World.users w
  /\ List.length (World.auditLog (snd (MfaFacts.tries rt tok c codes w)))
     = (List.length (World.auditLog w) + List.length codes)%nat.
Proof.
  apply (MfaFacts.tries_wrong rt tok c u codes [] w found pending all_wrong).
Qed.

(** On the sample account: two codes that do not verify. *)
Lemma X11_witness :
  fst (MfaFacts.tries Sample.runtime SampleAccount.pending Sample.client
         [("000000"%string, 2000); ("123456"%string, 3000)] SampleAccount.world)
  = [401; 401]
  /\ World.users
       (snd (MfaFacts.tries Sample.runtime SampleAccount.pending Sample.client
               [("000000"%string, 2000); ("123456"%string, 3000)]
               SampleAccount.world))
     = World.users SampleAccount.world.
Proof.
  assert (found : World.User_findById (Http.id SampleAccount.pending)
                    SampleAccount.world = Some SampleAccount.ann)
    by (vm_compute; reflexivity).
  assert (all_wrong : Forall (MfaFacts.wrong Sample.runtime SampleAccount.pending
                                SampleAccount.ann)
                        [("000000"%string, 2000); ("123456"%string, 3000)]).
  { repeat constructor; vm_compute; reflexivity. }
  destruct (X11_mfa_failures_not_counted Sample.runtime SampleAccount.pending
              Sample.client SampleAccount.ann
              [("000000"%string, 2000); ("123456"%string, 3000)]
              SampleAccount.world found eq_refl all_wrong) as (Hst & Husers & _).
  split; [exact Hst | exact Husers].
Defined.

Module CounterEdges.
Import Http.

Lemma stored_as_compare (email : string) (u : User.t) (k : Z) (lock : option Z)
  (candidate hash : string) (w : World.t) :
  LoginFacts.stored_as email u k lock w ->
  LoginFacts.stored_as email u k lock (World.note_compare candidate hash w).
Proof. intros H. exact H. Qed.

(** A login with a password that matches, on an account that is found and
    not locked. *)
Lemma login_matches (rt : Runtime.t) (c : client) (email password : string)
  (now : Z) (w : World.t) (v : User.t) :
  Js.truthy (Some email) = true -> Js.truthy (Some password) = true ->
  LoginFacts.account email w = Some v -> User.isLocked v now = false ->
  Runtime.bcrypt_compare rt password (User.password v) = true ->
  AuthController.login rt (Some email) (Some password) c now w
  = (Response 200 []
       [("mfaToken"%string,
         Some (Token (User._id v) None true (now + AuthController.MFA_TOKEN_LIFE)))]
       (Json true "Password verified. Please enter MFA code."
             (MfaRequired (User._id v))),
     World.note_compare password (User.password v) w).
Proof.
  intros He Hp Hv Hl Hc. unfold AuthController.login.
  destruct email as [|a e]; [discriminate He|].
  destruct password as [|b p]; [discriminate Hp|].
  unfold LoginFacts.account in Hv. rewrite Hv, Hl, Hc. reflexivity.
Qed.

End CounterEdges.

(** X12: the password step alone does not reset the counter of failed
    attempts.  On an account with [k] failed attempts and no lock, a login
    with the right password is answered 200 with an MFA-pending token of the
    account and changes no account; a wrong password after it counts as
    failure [k + 1], and locks the account when that makes five. *)
Theorem X12_password_step_keeps_counter
  (rt : Runtime.t) (c : Http.client) (email good bad : string) (u : User.t)
  (k t1 t2 : Z) (w : World.t)
  (given : Js.truthy (Some email) = true /\ Js.truthy (Some good) = true
           /\ Js.truthy (Some bad) = true)
  (right : Runtime.bcrypt_compare rt good (User.password u) = true)
  (wrong : Runtime.bcrypt_compare rt bad (User.password u) = false)
  (stored : LoginFacts.stored_as email u k None w) :
  let r1 := AuthController.login rt (Some email) (Some good) c t1 w in
  let r2 := AuthController.login rt (Some email) (Some bad) c t2 (snd r1) in
  Http.status (fst r1) = 200
  /\ (exists tok : Http.token,
        Http.cookies (fst r1) = [("mfaToken"%string, Some tok)]
        /\ Http.id tok = User._id u /\ Http.mfaPending tok = true)
  /\ World.users (snd r1) = World.users w
  /\ fst r2 = Http.fail 401 "Invalid credentials."
  /\ LoginFacts.stored_as email u (k + 1)
       (if k + 1 >=? 5 then Some (t2 + User.LOCK_TIME) else None) (snd r2).
Proof.
  cbv zeta. destruct given as (He & Hg & Hb).
  pose proof stored as (v & Hv & Hid & Hk & Hl & Hpw & Hi & Hm).
  assert (Hunlocked : User.isLocked v t1 = false)
    by (unfold User.isLocked; rewrite Hl; reflexivity).
  rewrite <- Hpw in right.
  rewrite (CounterEdges.login_matches rt c email good t1 w v He Hg Hv Hunlocked right).
  cbn [fst snd Http.status Http.cookies]. rewrite Hi.
  split; [reflexivity|].
  split; [eexists; split; [reflexivity | split; reflexivity]|].
  split; [reflexivity|].
  apply (LoginFacts.failure_counts rt c email bad u k t2 _ He Hb wrong).
  apply CounterEdges.stored_as_compare. exact stored.
Qed.

(** On the sample account: the right password, then a wrong one. *)
Lemma X12_witness :
  Http.status
    (fst (AuthController.login Sample.runtime (Some SampleAccount.email)
            (Some "correct horse"%string) Sample.client 2000 SampleAccount.world))
  = 200
  /\ fst (AuthController.login Sample.runtime (Some SampleAccount.email)
            (Some "wrong guess"%string) Sample.client 3000
            (snd (AuthController.login Sample.runtime (Some SampleAccount.email)
                    (Some "correct horse"%string) Sample.client 2000
                    SampleAccount.world)))
     = Http.fail 401 "Invalid credentials.".
Proof.
  assert (stored : LoginFacts.stored_as SampleAccount.email SampleAccount.ann 0
                     None SampleAccount.world).
  { exists SampleAccount.ann. repeat split; vm_compute; reflexivity. }
  destruct (X12_password_step_keeps_counter Sample.runtime Sample.client
              SampleAccount.email "correct horse" "wrong guess" SampleAccount.ann
              0 2000 3000 SampleAccount.world
              (conj eq_refl (conj eq_refl eq_refl)) eq_refl eq_refl stored)
    as (H1 & _ & _ & H2 & _).
  split; [exact H1 | exact H2].
Defined.

(** X13: a failed attempt after the lock has expired starts a new count.
    On an account whose lock time has passed, whatever its counter, a wrong
    password is answered 401, sets the counter to 1 and removes the lock: it
    takes five more failures to lock the account again. *)
Theorem X13_failure_after_lock
  (rt : Runtime.t) (c : Http.client) (email password : string) (v : User.t)
  (l t : Z) (w : World.t)
  (given : Js.truthy (Some email) = true /\ Js.truthy (Some password) = true)
  (found : World.User_findOne (fun u => (User.email u =? email)%string) w = Some v)
  (lock : User.lockUntil v = Some l)
  (expired : l < t)
  (wrong : Runtime.bcrypt_compare rt password (User.password v) = false) :
  let r := AuthController.login rt (Some email) (Some password) c t w in
  fst r = Http.fail 401 "Invalid credentials."
  /\ exists v' : User.t,
       World.User_findOne (fun u => (User.email u =? email)%string) (snd r) = Some v'
       /\ User.loginAttempts v' = 1 /\ User.lockUntil v' = None
       /\ User._id v' = User._id v /\ User.password v' = User.password v.
Proof.
  cbv zeta. destruct given as [He Hp].
  assert (Hunlocked : User.isLocked v t = false).
  { unfold User.isLocked. rewrite lock. apply Z.ltb_ge. lia. }
  destruct (LoginFacts.attempt_wrong rt c email password t w v He Hp found Hunlocked
              wrong) as (Hr & Ha & _).
  unfold LoginFacts.attempt in Hr, Ha. split; [exact Hr|].
  exists (LoginFacts.failed v t). split; [exact Ha|].
  unfold LoginFacts.failed, User.incrementLoginAttempts, User.lock_expired.
  rewrite lock. apply Z.ltb_lt in expired. rewrite expired. repeat split.
Qed.

(** On the sample account, locked until 7206000: a wrong password at
    8000000. *)
Lemma X13_witness :
  User.loginAttempts locked_ann = 5
  /\ User.lockUntil locked_ann = Some 7206000
  /\ exists v' : User.t,
       World.User_findOne (fun u => (User.email u =? SampleAccount.email)%string)
         (snd (AuthController.login Sample.runtime (Some SampleAccount.email)
                 (Some "wrong guess"%string) Sample.client 8000000 locked_world))
       = Some v'
       /\ User.loginAttempts v' = 1 /\ User.lockUntil v' = None.
Proof.
  split; [reflexivity|]. split; [reflexivity|].
  assert (found : World.User_findOne
                    (fun u => (User.email u =? SampleAccount.email)%string)
                    locked_world = Some locked_ann) by (vm_compute; reflexivity).
  assert (expired : 7206000 < 8000000) by lia.
  destruct (X13_failure_after_lock Sample.runtime Sample.client SampleAccount.email
              "wrong guess" locked_ann 7206000 8000000 locked_world
              (conj eq_refl eq_refl) found eq_refl expired eq_refl)
    as (_ & v' & Hv & Hcount & Hlock & _).
  exists v'. repeat split; assumption.
Defined.

Module SessionFacts.
Import Http.

(** The stored account after a completed MFA step. *)
Definition completed (now : Z) (v : User.t) : User.t :=
  let v1 :=
    if User.mfaVerified v then v
    else User.touch now (User.set_mfaVerified true v) in
  User.touch now
    (User.set_lastLogin now
       (if User.loginAttempts v >? 0 then User.set_login 0 None v1 else v1)).

Lemma completed_fields (now : Z) (v : User.t) :
  User._id (completed now v) = User._id v
  /\ User.role (completed now v) = User.role v
  /\ User.username (completed now v) = User.username v
  /\ User.email (completed now v) = User.email v
  /\ User.lastLogin (completed now v) = Some now
  /\ User.lockUntil (completed now v)
     = (if User.loginAttempts v >? 0 then None else User.lockUntil v)
  /\ User.mfaEnabled (completed now v) = User.mfaEnabled v
  /\ User.createdAt (completed now v) = User.createdAt v.
Proof.
  unfold completed.
  destruct (User.mfaVerified v), (User.loginAttempts v >? 0); cbn; repeat split.
Qed.

Section Mfa.
Variables (rt : Runtime.t) (c : client) (tok : token) (code : string) (now : Z)
  (w : World.t) (v : User.t).
Hypothesis found : World.User_findById (id tok) w = Some v.
Hypothesis pending : mfaPending tok = true.
Hypothesis valid : now < expires tok.
Hypothesis given : Js.truthy (Some code) = true.
Hypothesis verified : Runtime.totp_verify rt (User.mfaSecret v) code now = true.

Let run := AuthController.verify_mfa_route rt (Some tok) (Some code) c now w.

Lemma mfa_answer :
  fst run
  = Response 200 []
      [("mfaToken"%string, None);
       ("accessToken"%string,
        Some (Token (User._id v) (Some (User.role v)) false
                (now + AuthController.ACCESS_TOKEN_LIFE)))]
      (Json true "Login successful."
         (LoggedIn (User._id v) (User.username v) (User.email v) (User.role v)
            (User.mfaEnabled v))).
Proof.
  unfold run, AuthController.verify_mfa_route, Middleware.verifyMFAToken.
  apply Z.leb_gt in valid. rewrite valid, pending, found. cbn [negb].
  unfold AuthController.verifyMFA.
  destruct code as [|a s]; [discriminate given|].
  rewrite verified. reflexivity.
Qed.

Lemma mfa_stored :
  World.User_findById (User._id v) (snd run) = Some (completed now v).
Proof.
  destruct (AdminFacts.found_id _ _ _ found) as [_ Hid].
  assert (Hv : World.User_findById (User._id v) w = Some v)
    by (rewrite Hid; exact found).
  unfold run, AuthController.verify_mfa_route, Middleware.verifyMFAToken.
  apply Z.leb_gt in valid. rewrite valid, pending, found. cbn [negb].
  unfold AuthController.verifyMFA.
  destruct code as [|a s]; [discriminate given|].
  rewrite verified. cbn [negb snd].
  set (reset := if User.loginAttempts v >? 0 then User.set_login 0 None
                else fun stored : User.t => stored).
  set (g := fun stored : User.t => User.set_lastLogin now (reset stored)).
  assert (Hg : StoreFacts.keeps_identity g).
  { apply LoginFacts.set_lastLogin_keeps. unfold reset.
    destruct (User.loginAttempts v >? 0);
      [apply StoreFacts.set_login_keeps | intros u; split; reflexivity]. }
  assert (Hcompleted :
            forall v1, User.touch now (g v1)
                       = User.touch now
                           (User.set_lastLogin now
                              (if User.loginAttempts v >? 0
                               then User.set_login 0 None v1 else v1))).
  { intros v1. unfold g, reset. destruct (User.loginAttempts v >? 0); reflexivity. }
  unfold completed. cbv zeta.
  destruct (User.mfaVerified v) eqn:Hver; cbn [negb].
  - pose proof (StoreFacts.findById_update (User._id v) now g w Hg (User._id v) v Hv)
      as E.
    cbv beta zeta in E. rewrite Z.eqb_refl, Hcompleted in E. exact E.
  - set (w1 := World.log
                 (AuthController.audit v AuditLog.MFA_SETUP AuditLog.SUCCESS [] c)
                 (World.User_update (User._id v) now (User.set_mfaVerified true) w)).
    set (v1 := User.touch now (User.set_mfaVerified true v)).
    assert (B1 : World.User_findById (User._id v) w1 = Some v1).
    { pose proof (StoreFacts.findById_update (User._id v) now
                    (User.set_mfaVerified true) w
                    (LoginFacts.set_mfaVerified_keeps true) (User._id v) v Hv) as E.
      cbv beta zeta in E. rewrite Z.eqb_refl in E. exact E. }
    pose proof (StoreFacts.findById_update (User._id v) now g w1 Hg (User._id v) v1 B1)
      as E.
    cbv beta zeta in E. change (User._id v1) with (User._id v) in E.
    rewrite Z.eqb_refl, Hcompleted in E. exact E.
Qed.

End Mfa.
End SessionFacts.

(** X14: the session that a completed MFA step opens.  With a pending
    token whose account is found and a code that verifies, on an account
    that is not locked or whose counter is positive, the answer is 200, the
    MFA cookie is cleared and an access token is set; [verifyToken] accepts
    that token from then on up to the last second of the 24 hours that
    follow (the lifetime of an access token when the environment sets none)
    and attaches the stored account, whose last login is the time of the
    step; from 24 hours on it answers 401 'Token expired. Please login
    again.'. *)
Theorem X14_session_window
  (rt : Runtime.t) (c : Http.client) (tok : Http.token) (code : string) (now : Z)
  (w : World.t) (v : User.t)
  (found : World.User_findById (Http.id tok) w = Some v)
  (pending : Http.mfaPending tok = true)
  (valid : now < Http.expires tok)
  (given : Js.truthy (Some code) = true)
  (verified : Runtime.totp_verify rt (User.mfaSecret v) code now = true)
  (clear : 0 < User.loginAttempts v \/ User.isLocked v now = false) :
  let run := AuthController.verify_mfa_route rt (Some tok) (Some code) c now w in
  exists (access : Http.token) (stored : User.t),
    Http.status (fst run) = 200
    /\ Http.cookies (fst run)
       = [("mfaToken"%string, None); ("accessToken"%string, Some access)]
    /\ Http.mfaPending access = false
    /\ User._id stored = User._id v /\ User.lastLogin stored = Some now
    /\ (forall t : Z,
          now <= t <= now + 24 * 60 * 60 * 1000 - 1000 ->
          Middleware.verifyToken (Some access) t (snd run) = Middleware.Next stored)
    /\ (forall t : Z,
          now + 24 * 60 * 60 * 1000 <= t ->
          Middleware.verifyToken (Some access) t (snd run)
          = Middleware.Rejected (Http.fail 401 "Token expired. Please login again.")).
Proof.
  cbv zeta.
  pose proof (SessionFacts.mfa_answer rt c tok code now w v found pending valid given
                verified) as Hanswer.
  pose proof (SessionFacts.mfa_stored rt c tok code now w v found pending valid given
                verified) as Hstored.
  destruct (SessionFacts.completed_fields now v)
    as (Hid & _ & _ & _ & Hlast & Hlock & _).
  eexists _, (SessionFacts.completed now v). rewrite Hanswer.
  split; [reflexivity|]. split; [reflexivity|]. split; [reflexivity|].
  split; [exact Hid|]. split; [exact Hlast|]. split.
  - intros t Ht. apply MiddlewareFacts.verifyToken_next. eexists.
    split; [reflexivity|]. cbn [Http.expires Http.mfaPending Http.id].
    unfold AuthController.ACCESS_TOKEN_LIFE.
    split; [lia|]. split; [reflexivity|]. split; [exact Hstored|].
    unfold User.isLocked. rewrite Hlock.
    destruct clear as [Hpos | Hunlocked].
    + apply Z.gtb_lt in Hpos. rewrite Hpos. reflexivity.
    + destruct (User.loginAttempts v >? 0); [reflexivity|].
      unfold User.isLocked in Hunlocked.
      destruct (User.lockUntil v) as [l|]; [|reflexivity].
      apply Z.ltb_ge. apply Z.ltb_ge in Hunlocked. lia.
  - intros t Ht. unfold Middleware.verifyToken. cbn [Http.expires].
    unfold AuthController.ACCESS_TOKEN_LIFE.
    assert (E : (now + 24 * 60 * 60 * 1000 <=? t) = true) by (apply Z.leb_le; lia).
    rewrite E. reflexivity.
Qed.

(** On the sample account: the code that verifies, at time 2000; the
    session an hour later. *)
Lemma X14_witness :
  exists (access : Http.token) (stored : User.t),
    Http.status
      (fst (AuthController.verify_mfa_route Sample.runtime
              (Some SampleAccount.pending)
              (Some (User.mfaSecret SampleAccount.ann)) Sample.client 2000
              SampleAccount.world))
    = 200
    /\ Middleware.verifyToken (Some access) 3602000
         (snd (AuthController.verify_mfa_route Sample.runtime
                 (Some SampleAccount.pending)
                 (Some (User.mfaSecret SampleAccount.ann)) Sample.client 2000
                 SampleAccount.world))
       = Middleware.Next stored.
Proof.
  assert (found : World.User_findById (Http.id SampleAccount.pending)
                    SampleAccount.world = Some SampleAccount.ann)
    by (vm_compute; reflexivity).
  assert (valid : 2000 < Http.expires SampleAccount.pending) by (cbn; lia).
  destruct (X14_session_window Sample.runtime Sample.client SampleAccount.pending
              (User.mfaSecret SampleAccount.ann) 2000 SampleAccount.world
              SampleAccount.ann found eq_refl valid eq_refl eq_refl
              (or_intror eq_refl))
    as (access & stored & Hst & _ & _ & _ & _ & Hlive & _).
  exists access, stored. split; [exact Hst|]. apply Hlive. lia.
Defined.

Module LockFacts.
Import Http.

(** The state after failed logins at the given times. *)
Definition after_failures (rt : Runtime.t) (c : client) (email password : string)
  (times : list Z) (w : World.t) : World.t :=
  fold_left
    (fun w0 t => snd (AuthController.login rt (Some email) (Some password) c t w0))
    times w.

Lemma five_failures (rt : Runtime.t) (c : client) (email password : string)
  (u : User.t) (t1 t2 t3 t4 t5 : Z) (w : World.t) :
  Js.truthy (Some email) = true -> Js.truthy (Some password) = true ->
  Runtime.bcrypt_compare rt password (User.password u) = false ->
  LoginFacts.stored_as email u 0 None w ->
  LoginFacts.stored_as email u 5 (Some (t5 + User.LOCK_TIME))
    (after_failures rt c email password [t1; t2; t3; t4; t5] w).
Proof.
  intros He Hp Hc H0. unfold after_failures. cbn [fold_left].
  pose proof (LoginFacts.failure_counts rt c email password u 0 t1 _ He Hp Hc H0)
    as [_ H1].
  pose proof (LoginFacts.failure_counts rt c email password u 1 t2 _ He Hp Hc H1)
    as [_ H2].
  pose proof (LoginFacts.failure_counts rt c email password u 2 t3 _ He Hp Hc H2)
    as [_ H3].
  pose proof (LoginFacts.failure_counts rt c email password u 3 t4 _ He Hp Hc H3)
    as [_ H4].
  pose proof (LoginFacts.failure_counts rt c email password u 4 t5 _ He Hp Hc H4)
    as [_ H5].
  exact H5.
Qed.

End LockFacts.

(** X15: five failed logins suspend the sessions of the account.  After
    five wrong passwords on an account that had no failure and no lock, an
    access token of that account, valid and not MFA-pending, is refused by
    [verifyToken] with 423 until two hours after the fifth failure, and is
    accepted again from then on. *)
Theorem X15_lock_suspends_sessions
  (rt : Runtime.t) (c : Http.client) (email password : string) (u : User.t)
  (t1 t2 t3 t4 t5 : Z) (w : World.t) (tok : Http.token)
  (given : Js.truthy (Some email) = true /\ Js.truthy (Some password) = true)
  (wrong : Runtime.bcrypt_compare rt password (User.password u) = false)
  (stored : LoginFacts.stored_as email u 0 None w)
  (session : Http.id tok = User._id u /\ Http.mfaPending tok = false) :
  let w5 := LockFacts.after_failures rt c email password [t1; t2; t3; t4; t5] w in
  forall t : Z,
    t < Http.expires tok ->
    (t < t5 + 2 * 60 * 60 * 1000 ->
     Middleware.verifyToken (Some tok) t w5
     = Middleware.Rejected
         (Http.fail 423 "Account is temporarily locked. Try again later."))
    /\ (t5 + 2 * 60 * 60 * 1000 <= t ->
        exists v : User.t,
          Middleware.verifyToken (Some tok) t w5 = Middleware.Next v
          /\ User._id v = User._id u).
Proof.
  cbv zeta. destruct given as [He Hp]. destruct session as [Hid Hfull].
  destruct (LockFacts.five_failures rt c email password u t1 t2 t3 t4 t5 w He Hp wrong
              stored) as (v & _ & Hv & _ & Hl & _ & Hi & _).
  intros t Ht. unfold Middleware.verifyToken.
  apply Z.leb_gt in Ht. rewrite Ht, Hfull, Hid, Hv.
  unfold User.isLocked. rewrite Hl. unfold User.LOCK_TIME. split.
  - intros Hlt. apply Z.ltb_lt in Hlt. rewrite Hlt. reflexivity.
  - intros Hge. apply Z.ltb_ge in Hge. rewrite Hge. exists v.
    split; [reflexivity | exact Hi].
Qed.

(** On the sample account: five wrong passwords, the last at 6000; a
    session of the account at 7000. *)
Lemma X15_witness :
  Middleware.verifyToken (Some (Http.Token 1 (Some Role.admin) false 100000000))
    7000
    (LockFacts.after_failures Sample.runtime Sample.client SampleAccount.email
       "wrong guess" [2000; 3000; 4000; 5000; 6000] SampleAccount.world)
  = Middleware.Rejected
      (Http.fail 423 "Account is temporarily locked. Try again later.").
Proof.
  assert (stored : LoginFacts.stored_as SampleAccount.email SampleAccount.ann 0
                     None SampleAccount.world).
  { exists SampleAccount.ann. repeat split; vm_compute; reflexivity. }
  assert (valid : 7000 < Http.expires (Http.Token 1 (Some Role.admin) false 100000000))
    by (cbn; lia).
  destruct (X15_lock_suspends_sessions Sample.runtime Sample.client
              SampleAccount.email "wrong guess" SampleAccount.ann
              2000 3000 4000 5000 6000 SampleAccount.world
              (Http.Token 1 (Some Role.admin) false 100000000)
              (conj eq_refl eq_refl) eq_refl stored (conj eq_refl eq_refl)
              7000 valid) as [Hlocked _].
  apply Hlocked. lia.
Defined.

Module RegistrationFacts.
Import Http.

Ltac unchanged :=
  left; split; [reflexivity | split; [cbn; discriminate | cbn; lia]].

(** A registration leaves the accounts as they are, or it adds one: then
    the request had the three fields, no account had the e-mail address or the
    handle, and the account added is as follows. *)
Lemma register_cases (rt : Runtime.t) (req : AuthController.registration)
  (c : client) (now : Z) (w : World.t) :
  let r := AuthController.register rt req c now w in
  (World.users (snd r) = World.users w /\ status (fst r) <> 201
   /\ World.nextId w <= World.nextId (snd r))
  \/ (exists (username email password : string) (user : User.t) (e : Node.entropy),
        AuthController.reg_username req = Some username
        /\ AuthController.reg_email req = Some email
        /\ AuthController.reg_password req = Some password
        /\ Js.truthy (Some email) = true /\ Js.truthy (Some password) = true
        /\ World.User_findOne
             (fun u => (User.email u =? email)%string
                       || (User.username u =? username)%string) w = None
        /\ World.users (snd r) = World.users w ++ [user]
        /\ World.nextId (snd r) = World.nextId w + 1
        /\ User._id user = World.nextId w
        /\ User.username user = username /\ User.email user = email
        /\ User.password user = fst (Runtime.bcrypt_hash rt password e)
        /\ User.role user = Role.allowed (AuthController.reg_role req)
        /\ User.loginAttempts user = 0 /\ User.lockUntil user = None
        /\ User.mfaVerified user = false
        /\ Js.truthy (User.encryptionSalt user) = true
        /\ (status (fst r) = 201 \/ status (fst r) = 500)).
Proof.
  cbv zeta. unfold AuthController.register.
  destruct (AuthController.reg_username req) as [[|a1 s1]|] eqn:Hu;
    try unchanged.
  destruct (AuthController.reg_email req) as [[|a2 s2]|] eqn:He;
    try unchanged.
  destruct (AuthController.reg_password req) as [[|a3 s3]|] eqn:Hp;
    try unchanged.
  destruct (String.length (String a3 s3) <? 8)%nat;
    [unchanged|].
  destruct (World.User_findOne _ w) eqn:Hdup;
    [unchanged|].
  destruct (Runtime.generateSecret rt _ _) as [mfaSecret e1].
  pose proof (UploadFacts.generateSalt_truthy e1) as Hsalt.
  destruct (KeyDerivation.generateSalt e1) as [salt e2]. cbn [fst] in Hsalt.
  destruct (KeyExchange.generateKeyPair rt e2) as [pair e3].
  destruct (if Role.eqb (Role.allowed (AuthController.reg_role req)) Role.admin
            then World.User_findOne (fun u => Role.eqb (User.role u) Role.admin)
                   (World.set_random e3 w)
            else None);
    [unchanged|].
  cbn [World.fresh_id].
  destruct (negb (User.valid _ _));
    [unchanged|].
  destruct (Runtime.bcrypt_hash rt (String a3 s3) _) as [hash e4] eqn:Hhash.
  right. eexists (String a1 s1), (String a2 s2), (String a3 s3), _, _.
  split; [reflexivity|]. split; [reflexivity|]. split; [reflexivity|].
  split; [reflexivity|]. split; [reflexivity|]. split; [exact Hdup|].
  split; [destruct (Runtime.generateMFAQRCode rt mfaSecret (String a2 s2));
          reflexivity|].
  split; [destruct (Runtime.generateMFAQRCode rt mfaSecret (String a2 s2));
          reflexivity|].
  split; [reflexivity|]. split; [reflexivity|]. split; [reflexivity|].
  split; [cbn [User.password]; rewrite Hhash; reflexivity|].
  split; [reflexivity|]. split; [reflexivity|]. split; [reflexivity|].
  split; [reflexivity|]. split; [exact Hsalt|].
  destruct (Runtime.generateMFAQRCode rt mfaSecret (String a2 s2));
    [left | right]; reflexivity.
Qed.

Lemma find_app_last {A : Type} (q : A -> bool) (l : list A) (x : A) :
  find q l = None -> q x = true -> find q (l ++ [x]) = Some x.
Proof.
  intros Hnone Hx. induction l as [|y l IH]; cbn [app find].
  - now rewrite Hx.
  - cbn [find] in Hnone. destruct (q y); [discriminate | now apply IH].
Qed.

Lemma find_weaken {A : Type} (p q : A -> bool) (l : list A) :
  (forall x, q x = true -> p x = true) -> find p l = None -> find q l = None.
Proof.
  intros Hpq. induction l as [|y l IH]; cbn [find]; [reflexivity|].
  destruct (p y) eqn:Ep; [discriminate|].
  destruct (q y) eqn:Eq; [|exact IH].
  rewrite (Hpq y Eq) in Ep. discriminate Ep.
Qed.

End RegistrationFacts.

(** X16: who has registered can log in.  With a password hashing whose
    comparison accepts the hash of a password, a registration answered 201
    followed by a login with the same e-mail address and password, at any
    time, is answered 200 with an MFA-pending token of the account
    created. *)
Theorem X16_register_then_login
  (rt : Runtime.t) (req : AuthController.registration) (c c' : Http.client)
  (now t : Z) (w : World.t)
  (hashing : forall (p : string) (e : Node.entropy),
      Runtime.bcrypt_compare rt p (fst (Runtime.bcrypt_hash rt p e)) = true)
  (created : Http.status (fst (AuthController.register rt req c now w)) = 201) :
  let w' := snd (AuthController.register rt req c now w) in
  let r :=
    AuthController.login rt (AuthController.reg_email req)
      (AuthController.reg_password req) c' t w' in
  Http.status (fst r) = 200
  /\ (exists tok : Http.token,
        Http.cookies (fst r) = [("mfaToken"%string, Some tok)]
        /\ Http.id tok = World.nextId w /\ Http.mfaPending tok = true)
  /\ World.users (snd r) = World.users w'.
Proof.
  cbv zeta.
  destruct (RegistrationFacts.register_cases rt req c now w)
    as [(_ & Hne & _)
       | (username & email & password & user & e & _ & He & Hp & Te & Tp & Hdup
          & Husers & _ & Hid & _ & Hemail & Hpw & _ & _ & Hlock & _)];
    [contradiction|].
  rewrite He, Hp.
  assert (Hfound : LoginFacts.account email
                     (snd (AuthController.register rt req c now w)) = Some user).
  { unfold LoginFacts.account, World.User_findOne. rewrite Husers.
    apply RegistrationFacts.find_app_last.
    - apply (RegistrationFacts.find_weaken _ _ _
               (fun x H => proj2 (orb_true_iff _ _) (or_introl H)) Hdup).
    - rewrite Hemail. apply String.eqb_refl. }
  assert (Hunlocked : User.isLocked user t = false)
    by (unfold User.isLocked; rewrite Hlock; reflexivity).
  assert (Hmatch : Runtime.bcrypt_compare rt password (User.password user) = true)
    by (rewrite Hpw; apply hashing).
  rewrite (CounterEdges.login_matches rt c' email password t _ user Te Tp Hfound
             Hunlocked Hmatch).
  cbn [fst snd Http.status Http.cookies]. rewrite Hid.
  split; [reflexivity|].
  split; [eexists; split; [reflexivity | split; reflexivity]|].
  reflexivity.
Qed.

(** On the sample: the first registration on the empty system, then the
    login. *)
Lemma X16_witness :
  Http.status (fst (Sample.register_admin "ann" 1000 Sample.empty)) = 201
  /\ Http.status
       (fst (AuthController.login Sample.runtime
               (AuthController.reg_email (Sample.admin_request "ann"))
               (AuthController.reg_password (Sample.admin_request "ann"))
               Sample.client 2000
               (snd (AuthController.register Sample.runtime
                       (Sample.admin_request "ann") Sample.client 1000
                       Sample.empty))))
     = 200.
Proof.
  assert (created : Http.status
                      (fst (AuthController.register Sample.runtime
                              (Sample.admin_request "ann") Sample.client 1000
                              Sample.empty)) = 201) by (vm_compute; reflexivity).
  split; [exact created|].
  destruct (X16_register_then_login Sample.runtime (Sample.admin_request "ann")
              Sample.client Sample.client 1000 2000 Sample.empty
              (fun p e => String.eqb_refl _) created) as (Hst & _).
  exact Hst.
Defined.



(* ================================================================== *)
(** * The accounts under the requests of the auth and admin routes *)
(* ================================================================== *)

Module AccountFacts.
Import Http Accounts.

Lemma names_update (id now : Z) (f : User.t -> User.t) (w : World.t) :
  (forall u, ident (f u) = ident u) ->
  names (World.User_update id now f w) = names w.
Proof.
  intros Hf. unfold names, World.User_update. cbn. rewrite map_map.
  apply map_ext. intros u. destruct (User._id u =? id); [|reflexivity].
  exact (Hf u).
Qed.

Lemma names_increment (this : User.t) (id now : Z) (w : World.t) :
  names (World.User_update id now (User.incrementLoginAttempts this now) w)
  = names w.
Proof.
  apply names_update. intros u. unfold User.incrementLoginAttempts.
  destruct (User.lock_expired this now); reflexivity.
Qed.

Lemma names_login (rt : Runtime.t) (email password : option string) (c : client)
  (now : Z) (w : World.t) :
  names (snd (AuthController.login rt email password c now w)) = names w.
Proof.
  unfold AuthController.login.
  destruct email as [[|a1 s1]|]; try reflexivity.
  destruct password as [[|a2 s2]|]; try reflexivity.
  destruct (World.User_findOne _ w) as [user|]; [|reflexivity].
  destruct (User.isLocked user now); [reflexivity|].
  destruct (negb _); [|reflexivity].
  cbn [snd]. change (names (World.log ?e ?x)) with (names x).
  rewrite names_increment. reflexivity.
Qed.

Lemma names_verifyMFA (rt : Runtime.t) (code : option string) (user : User.t)
  (c : client) (now : Z) (w : World.t) :
  names (snd (AuthController.verifyMFA rt code user c now w)) = names w.
Proof.
  unfold AuthController.verifyMFA.
  destruct code as [[|a1 s1]|]; try reflexivity.
  destruct (negb (Runtime.totp_verify rt _ _ now)); [reflexivity|].
  cbn [snd]. change (names (World.log ?e ?x)) with (names x).
  rewrite names_update.
  - destruct (negb (User.mfaVerified user)); [|reflexivity].
    change (names (World.log ?e ?x)) with (names x).
    apply names_update. reflexivity.
  - intros u. destruct (User.loginAttempts user >? 0); reflexivity.
Qed.

Lemma names_guarded (r : Acl.resource) (a : Acl.action) (t : option token)
  (req : Acl.request) (now : Z) (w : World.t)
  (k : User.t -> World.t -> Reply.t * World.t) :
  (forall u x, names (snd (k u x)) = names x) ->
  names (snd (AdminRoutes.guarded r a t req now w k)) = names w.
Proof.
  intros Hk. unfold AdminRoutes.guarded.
  destruct (Middleware.verifyToken t now w) as [|user]; [reflexivity|].
  unfold Acl.verifyRole, Acl.verifyResourceAccess.
  destruct (existsb _ [Role.admin]); [|reflexivity].
  destruct (existsb _ (Acl.ACL_RULES r a)); [|reflexivity].
  apply Hk.
Qed.

Lemma names_updateUserRole (id : Z) (role : option string) (actor : User.t)
  (c : client) (now : Z) (w : World.t) :
  names (snd (AdminController.updateUserRole id role actor c now w)) = names w.
Proof.
  unfold AdminController.updateUserRole.
  destruct (AdminController.role_of role) as [newRole|]; [|reflexivity].
  destruct (World.User_findById id w) as [user|]; [|reflexivity].
  cbn [snd]. change (names (World.log ?e ?x)) with (names x).
  destruct (Role.eqb _ newRole); [reflexivity|].
  apply names_update. reflexivity.
Qed.

Lemma names_unlockUser (id : Z) (actor : User.t) (c : client) (now : Z)
  (w : World.t) :
  names (snd (AdminController.unlockUser id actor c now w)) = names w.
Proof.
  unfold AdminController.unlockUser.
  destruct (World.User_findById id w) as [user|]; [|reflexivity].
  cbn [snd]. change (names (World.log ?e ?x)) with (names x).
  destruct (_ && _); [reflexivity|].
  apply names_update. reflexivity.
Qed.

Lemma distinct_names (w w' : World.t) :
  names w' = names w -> distinct w -> distinct w'.
Proof.
  intros H [He Hu]. unfold distinct.
  replace (map User.email (World.users w'))
    with (map (fun n => snd n) (names w'))
    by (unfold names; rewrite map_map; reflexivity).
  replace (map User.username (World.users w'))
    with (map (fun n => snd (fst n)) (names w'))
    by (unfold names; rewrite map_map; reflexivity).
  rewrite H. unfold names. rewrite !map_map. split; assumption.
Qed.

Lemma find_none_all {A : Type} (q : A -> bool) (l : list A) (x : A) :
  find q l = None -> In x l -> q x = false.
Proof.
  intros Hnone Hin. destruct (q x) eqn:E; [|reflexivity].
  induction l as [|y l IH]; [destruct Hin|].
  cbn [find] in Hnone. destruct (q y) eqn:Ey; [discriminate|].
  destruct Hin as [-> | Hin]; [congruence | now apply IH].
Qed.

Lemma NoDup_snoc {A : Type} (l : list A) (x : A) :
  NoDup l -> ~ In x l -> NoDup (l ++ [x]).
Proof.
  intros Hl Hx. induction Hl as [|y l Hy Hl IH]; cbn [app].
  - constructor; [intros [] | constructor].
  - constructor.
    + rewrite in_app_iff. intros [H | [-> | []]]; [exact (Hy H)|].
      apply Hx. left. reflexivity.
    + apply IH. intros H. apply Hx. right. exact H.
Qed.

Lemma distinct_register (rt : Runtime.t) (req : AuthController.registration)
  (c : client) (now : Z) (w : World.t) :
  distinct w -> distinct (snd (AuthController.register rt req c now w)).
Proof.
  intros [He Hu].
  destruct (RegistrationFacts.register_cases rt req c now w)
    as [(Husers & _)
       | (username & email & password & user & e & _ & _ & _ & _ & _ & Hdup
          & Husers & _ & _ & Hname & Hemail & _)];
    unfold distinct; rewrite Husers; [split; assumption|].
  rewrite !map_app. cbn [map]. rewrite Hname, Hemail.
  split; apply NoDup_snoc; try assumption; intros Hin;
    apply in_map_iff in Hin; destruct Hin as (u & Hfield & Hin);
    pose proof (find_none_all _ _ u Hdup Hin) as Hq; cbv beta in Hq;
    apply orb_false_iff in Hq; destruct Hq as [Hq1 Hq2];
    rewrite Hfield, String.eqb_refl in *; discriminate.
Qed.

Lemma distinct_serve (rt : Runtime.t) (r : request) (now : Z) (w : World.t) :
  distinct w -> distinct (serve rt r now w).
Proof.
  destruct r as [req c | email password c | t code c | t c | t id role req
                | t id req]; cbn [serve].
  - apply distinct_register.
  - apply distinct_names, names_login.
  - apply distinct_names. unfold AuthController.verify_mfa_route.
    destruct (Middleware.verifyMFAToken t now w); [reflexivity|].
    apply names_verifyMFA.
  - apply distinct_names. unfold AuthProfile.post_logout.
    destruct (Middleware.verifyToken t now w); reflexivity.
  - apply distinct_names. unfold AdminRoutes.put_user_role.
    apply names_guarded. intros u x. apply names_updateUserRole.
  - apply distinct_names. unfold AdminRoutes.post_user_unlock.
    apply names_guarded. intros u x. apply names_unlockUser.
Qed.

End AccountFacts.

(** X17: no request of the auth and admin routes makes two accounts share
    an e-mail address or a handle.  From a state in which the e-mail
    addresses are pairwise different and so are the handles, any sequence of
    registrations, logins, MFA verifications, logouts, role changes and
    unlocks ends in such a state. *)
Theorem X17_accounts_stay_distinct
  (rt : Runtime.t) (rs : list (Accounts.request * Z)) (w : World.t)
  (start : Accounts.distinct w) :
  Accounts.distinct (Accounts.run rt rs w).
Proof.
  unfold Accounts.run. revert w start.
  induction rs as [|[r now] rs IH]; intros w start; cbn [fold_left fst snd].
  - exact start.
  - apply IH, AccountFacts.distinct_serve, start.
Qed.

(** On the sample: six requests on the empty system, among them a second
    registration of a handle. *)
Lemma X17_witness :
  Accounts.distinct Sample.empty
  /\ Accounts.distinct
       (Accounts.run Sample.runtime SequenceSample.requests Sample.empty).
Proof.
  assert (start : Accounts.distinct Sample.empty) by (split; constructor).
  split; [exact start|].
  apply (X17_accounts_stay_distinct Sample.runtime SequenceSample.requests
           Sample.empty start).
Defined.

(* ================================================================== *)
(** * fileController.js: listings and share links *)
(* ================================================================== *)

Module ListingFacts.
Import Http.

(** The entries of a listing response. *)
Definition listed (r : response) : list file_entry :=
  match content r with
  | Json _ _ (Listing files _ _ _) => files
  | _ => []
  end.

Lemma insert_by_date_in (f g : File.t) (l : list File.t) :
  In g (FileController.insert_by_date f l) -> g = f \/ In g l.
Proof.
  induction l as [|h r IH]; cbn [FileController.insert_by_date].
  - intros [<- | []]. left. reflexivity.
  - destruct (File.createdAt h <? File.createdAt f).
    + intros [<- | H]; [left; reflexivity | right; exact H].
    + intros [<- | H]; [right; left; reflexivity|].
      destruct (IH H) as [-> | H']; [left; reflexivity | right; right; exact H'].
Qed.

Lemma sort_newest_first_in (g : File.t) (l : list File.t) :
  In g (FileController.sort_newest_first l) -> In g l.
Proof.
  unfold FileController.sort_newest_first.
  induction l as [|f l IH]; cbn [fold_right]; [intros []|].
  intros H. destruct (insert_by_date_in _ _ _ H) as [-> | H'].
  - left. reflexivity.
  - right. apply IH, H'.
Qed.

Lemma page_in (g : File.t) (skip limit : nat) (l : list File.t) :
  In g (firstn limit (skipn skip (FileController.sort_newest_first l))) -> In g l.
Proof.
  intros H. apply sort_newest_first_in.
  set (sorted := FileController.sort_newest_first l) in *.
  rewrite <- (firstn_skipn skip sorted). apply in_or_app. right.
  rewrite <- (firstn_skipn limit (skipn skip sorted)). apply in_or_app. left.
  exact H.
Qed.

End ListingFacts.

(** X18: what a listing shows.  Every entry of the answer of [getFiles] is
    the entry of a stored file that is not deleted; for a guest the file is
    public, for a premium user it is public or the user's own.  So a
    listing never shows a private or vault file of another user to a
    premium user or a guest, whatever [accessLevel] the query asks for. *)
Theorem X18_listing_visibility
  (accessLevel : option string) (page limit : positive) (user : User.t)
  (w : World.t) (e : Http.file_entry)
  (shown :
     In e (ListingFacts.listed
             (fst (FileController.getFiles accessLevel page limit user w)))) :
  exists f : File.t,
    In f (World.files w)
    /\ e = FileController.entry_of user w f
    /\ File.isDeleted f = false
    /\ (User.role user = Role.guest ->
        File.accessLevel f = AccessLevel.public)
    /\ (User.role user = Role.premium ->
        File.owner f = User._id user \/ File.accessLevel f = AccessLevel.public).
Proof.
  unfold FileController.getFiles, ListingFacts.listed in shown.
  cbn [fst Http.json Http.content] in shown.
  apply in_map_iff in shown. destruct shown as (f & <- & Hin).
  apply ListingFacts.page_in in Hin.
  unfold World.File_find in Hin. apply filter_In in Hin.
  destruct Hin as [Hin Hq]. unfold File.pre_find in Hq.
  apply andb_true_iff in Hq. destruct Hq as [Hdel Hq].
  exists f. split; [exact Hin|]. split; [reflexivity|].
  split; [destruct (File.isDeleted f); [discriminate | reflexivity]|].
  unfold FileController.listing_query in Hq.
  split; intros Hrole; rewrite Hrole in Hq.
  - destruct (File.accessLevel f); try discriminate; reflexivity.
  - apply orb_true_iff in Hq. destruct Hq as [Hq | Hq].
    + left. apply Z.eqb_eq. exact Hq.
    + right. destruct (File.accessLevel f); try discriminate; reflexivity.
Qed.

(** On the sample: the guest is shown the public file. *)
Lemma X18_witness :
  In (FileController.entry_of KeyExchangeSample.guest DeleteSample.world
        DeleteSample.doc)
     (ListingFacts.listed
        (fst (FileController.getFiles None 1 20 KeyExchangeSample.guest
                DeleteSample.world)))
  /\ exists f : File.t,
       In f (World.files DeleteSample.world)
       /\ FileController.entry_of KeyExchangeSample.guest DeleteSample.world
            DeleteSample.doc
          = FileController.entry_of KeyExchangeSample.guest DeleteSample.world f
       /\ File.isDeleted f = false
       /\ File.accessLevel f = AccessLevel.public.
Proof.
  assert (shown :
            In (FileController.entry_of KeyExchangeSample.guest DeleteSample.world
                  DeleteSample.doc)
               (ListingFacts.listed
                  (fst (FileController.getFiles None 1 20 KeyExchangeSample.guest
                          DeleteSample.world)))) by (left; reflexivity).
  split; [exact shown|].
  destruct (X18_listing_visibility None 1 20 KeyExchangeSample.guest
              DeleteSample.world _ shown) as (f & Hin & He & Hdel & Hguest & _).
  exists f. repeat split; try assumption. apply Hguest. reflexivity.
Defined.

Module ShareFacts.
Import Http.

(** The number of minutes that a share request asks for:
    [req.body.expiryMinutes || 60]. *)
Definition minutes (expiryMinutes : option Z) : Z :=
  match expiryMinutes with
  | Some m => if m =? 0 then 60 else m
  | None => 60
  end.

(** The token that [shareFile] draws in the state [w]. *)
Definition drawn (w : World.t) : string :=
  fst (KeyDerivation.generateSecureToken 32 (World.random w)).

(** The query of [getSharedFile]. *)
Definition live (token : string) (t : Z) (f : File.t) : bool :=
  match File.shareToken f, File.shareExpiry f with
  | Some x, Some expiry => (x =? token)%string && (t <? expiry)
  | _, _ => false
  end.

(** The record of a file after [shareFile] has saved it. *)
Definition shared (token : string) (expiry now : Z) (f : File.t) : File.t :=
  File.touch now (File.set_share (Some token) (Some expiry) f).

Lemma find_map_first {A : Type} (q q' : A -> bool) (g : A -> A) (l : list A)
  (x : A) :
  (forall y, In y l -> q' (g y) = true -> q y = true) ->
  q' (g x) = true -> find q l = Some x -> find q' (map g l) = Some (g x).
Proof.
  intros Hq Hx. induction l as [|y l IH]; cbn [find map]; [discriminate|].
  destruct (q y) eqn:Ey.
  - intros [= ->]. rewrite Hx. reflexivity.
  - destruct (q' (g y)) eqn:Ey'.
    + rewrite (Hq y (or_introl eq_refl) Ey') in Ey. discriminate Ey.
    + apply IH. intros z Hz. apply Hq. right. exact Hz.
Qed.

Lemma find_map_nowhere {A : Type} (q' : A -> bool) (g : A -> A) (l : list A) :
  (forall y, In y l -> q' (g y) = false) -> find q' (map g l) = None.
Proof.
  intros Hq. induction l as [|y l IH]; cbn [find map]; [reflexivity|].
  rewrite (Hq y (or_introl eq_refl)). apply IH.
  intros z Hz. apply Hq. right. exact Hz.
Qed.

Section Share.
Variables (rt : Runtime.t) (id : Z) (expiryMinutes : option Z) (user : User.t)
  (c : client) (now : Z) (w : World.t) (file : File.t) (qrCode : string).
Hypothesis found : World.File_findById id w = Some file.
Hypothesis allowed : FileController.owner_or_admin user file = true.
Hypothesis drawn_once :
  forall g, In g (World.files w) -> File._id g <> id ->
            File.shareToken g <> Some (drawn w).
Hypothesis qr :
  Runtime.generateShareQRCode rt
    (FileController.FRONTEND_URL ++ "/share/" ++ drawn w)%string = Js.Ok qrCode.

Let expiry : Z := now + minutes expiryMinutes * 60 * 1000.
Let run := FileController.shareFile rt id expiryMinutes user c now w.
Let g := fun d => if File._id d =? id then shared (drawn w) expiry now d else d.

Lemma shareFile_answer :
  fst run
  = json 200 true "Share link generated successfully."
      (ShareLink (FileController.FRONTEND_URL ++ "/share/" ++ drawn w)%string
         qrCode expiry (drawn w)).
Proof.
  unfold run, FileController.shareFile. rewrite found, allowed. cbn [negb].
  unfold KeyDerivation.generateExpiringToken. unfold drawn in qr |- *.
  destruct (KeyDerivation.generateSecureToken 32 (World.random w)) as [token e'].
  cbn [fst] in qr |- *. rewrite qr. reflexivity.
Qed.

Lemma shareFile_state :
  World.files (snd run) = map g (World.files w)
  /\ World.users (snd run) = World.users w.
Proof.
  unfold run, FileController.shareFile. rewrite found, allowed. cbn [negb].
  unfold KeyDerivation.generateExpiringToken.
  assert (Hid : File._id file = id).
  { unfold World.File_findById, World.File_findOne in found.
    apply StoreFacts.find_some_holds in found. unfold File.pre_find in found.
    apply andb_true_iff in found. apply Z.eqb_eq. apply found. }
  unfold g, shared, expiry, minutes. unfold drawn in qr |- *.
  destruct (KeyDerivation.generateSecureToken 32 (World.random w)) as [token e'].
  cbn [fst] in qr |- *. rewrite qr. cbn [snd]. rewrite Hid. split; reflexivity.
Qed.

Lemma live_elsewhere (t : Z) (d : File.t) :
  In d (World.files w) ->
  File.pre_find (live (drawn w) t) (g d) = true ->
  File.pre_find (fun f => File._id f =? id) d = true.
Proof.
  intros Hin. unfold g. destruct (File._id d =? id) eqn:E.
  - unfold File.pre_find, shared.
    cbn [File.isDeleted File.touch File.set_share]. rewrite E.
    intros H. apply andb_true_iff in H. destruct H as [H _]. rewrite H.
    reflexivity.
  - unfold File.pre_find, live. intros H. exfalso.
    apply andb_true_iff in H. destruct H as [_ H].
    destruct (File.shareToken d) as [x|] eqn:Ex; [|discriminate].
    destruct (File.shareExpiry d); [|discriminate].
    apply andb_true_iff in H. destruct H as [H _]. apply String.eqb_eq in H.
    subst x. apply (drawn_once d Hin); [|exact Ex].
    apply Z.eqb_neq. exact E.
Qed.

(** The link is good before its date and dead from it on. *)
Lemma shared_window (t : Z) :
  World.File_findOne (live (drawn w) t) (snd run)
  = if t <? expiry then Some (shared (drawn w) expiry now file) else None.
Proof.
  unfold World.File_findOne. rewrite (proj1 shareFile_state).
  assert (Hfile : File.pre_find (fun f => File._id f =? id) file = true)
    by (apply (StoreFacts.find_some_holds _ _ _ found)).
  assert (Hg : g file = shared (drawn w) expiry now file).
  { unfold g. unfold File.pre_find in Hfile. apply andb_true_iff in Hfile.
    destruct Hfile as [_ ->]. reflexivity. }
  destruct (t <? expiry) eqn:Et.
  - rewrite <- Hg.
    apply (find_map_first (File.pre_find (fun f => File._id f =? id))).
    + intros d Hd. apply live_elsewhere, Hd.
    + rewrite Hg. unfold File.pre_find in *. unfold live, shared.
      cbn [File.shareToken File.shareExpiry File.isDeleted File.touch
           File.set_share].
      apply andb_true_iff in Hfile. destruct Hfile as [-> _].
      rewrite String.eqb_refl, Et. reflexivity.
    + exact found.
  - apply find_map_nowhere. intros d Hd.
    destruct (File.pre_find (live (drawn w) t) (g d)) eqn:E; [|reflexivity].
    pose proof (live_elsewhere t d Hd E) as Hd'.
    unfold File.pre_find in Hd'. apply andb_true_iff in Hd'.
    destruct Hd' as [_ Hd']. unfold g in E. rewrite Hd' in E.
    unfold File.pre_find, live, shared in E.
    cbn [File.shareToken File.shareExpiry File.isDeleted File.touch
         File.set_share] in E.
    rewrite Et, andb_false_r, andb_false_r in E. discriminate E.
Qed.

End Share.
End ShareFacts.





Module RouteFacts.
Import Http.

(** The session of [tok] is that of an administrator, or of a premium
    user who owns the file [id]; the file is found. *)
Definition authorised (tok : option token) (id : Z) (now : Z) (w : World.t) : Prop :=
  exists (user : User.t) (file : File.t),
    Middleware.verifyToken tok now w = Middleware.Next user
    /\ World.File_findById id w = Some file
    /\ (User.role user = Role.admin
        \/ (User.role user = Role.premium /\ File.owner file = User._id user)).

Lemma role_cases (user : User.t) (file : File.t) :
  existsb (Role.eqb (User.role user)) [Role.admin; Role.premium] = true ->
  FileController.owner_or_admin user file = true ->
  User.role user = Role.admin
  \/ (User.role user = Role.premium /\ File.owner file = User._id user).
Proof.
  unfold FileController.owner_or_admin.
  destruct (User.role user); cbn [existsb Role.eqb orb]; intros Hrole Hown;
    [left; reflexivity | right | discriminate].
  split; [reflexivity | apply Z.eqb_eq; exact Hown].
Qed.

End RouteFacts.

(** X21: who can share and who can delete.  On the routes
    [POST /:id/share] and [DELETE /:id] an answer 200 means that the file was
    found and that the session is that of an administrator or of a premium
    user who owns the file: a guest is never served, nor a premium user on
    the file of another.  A delete request that is not answered 200 leaves
    the records and the upload directory as they were. *)
Theorem X21_share_delete_authorisation
  (rt : Runtime.t) (tok : option Http.token) (id : Z) (c : Http.client) (now : Z)
  (w : World.t) :
  (forall expiryMinutes : option Z,
     Http.status (fst (FileRoutes.post_share rt tok id expiryMinutes c now w)) = 200 ->
     RouteFacts.authorised tok id now w)
  /\ (Http.status (fst (FileRoutes.delete_file tok id c now w)) = 200 ->
      RouteFacts.authorised tok id now w)
  /\ (Http.status (fst (FileRoutes.delete_file tok id c now w)) <> 200 ->
      World.files (snd (FileRoutes.delete_file tok id c now w)) = World.files w
      /\ World.uploads (snd (FileRoutes.delete_file tok id c now w))
         = World.uploads w).
Proof.
  unfold FileRoutes.post_share, FileRoutes.delete_file, FileRoutes.authenticated,
    FileRoutes.with_role, Middleware.verifyRole, RouteFacts.authorised.
  destruct (Middleware.verifyToken tok now w) as [r|user] eqn:Htok.
  - unfold Middleware.verifyToken in Htok.
    destruct tok as [t|]; [|injection Htok as <-; cbn; repeat split; discriminate].
    destruct (Http.expires t <=? now);
      [injection Htok as <-; cbn; repeat split; discriminate|].
    destruct (Http.mfaPending t);
      [injection Htok as <-; cbn; repeat split; discriminate|].
    destruct (World.User_findById (Http.id t) w) as [u|];
      [|injection Htok as <-; cbn; repeat split; discriminate].
    destruct (User.isLocked u now); [|discriminate].
    injection Htok as <-; cbn; repeat split; discriminate.
  - destruct (existsb (Role.eqb (User.role user)) [Role.admin; Role.premium])
      eqn:Hrole; [|cbn; repeat split; discriminate].
    unfold FileController.shareFile, FileController.deleteFile.
    destruct (World.File_findById id w) as [file|] eqn:Hfound;
      [|cbn; repeat split; discriminate].
    destruct (FileController.owner_or_admin user file) eqn:Hown;
      [|cbn; repeat split; discriminate].
    cbn [negb]. split; [|split].
    + intros _ _. exists user, file. split; [reflexivity|]. split; [reflexivity|].
      apply RouteFacts.role_cases; assumption.
    + intros _. exists user, file. split; [reflexivity|]. split; [reflexivity|].
      apply RouteFacts.role_cases; assumption.
    + cbn [fst Http.json Http.status]. intros H. contradiction H. reflexivity.
Qed.

(** On the sample: the owner deletes the file; the guest does not. *)
Lemma X21_witness :
  RouteFacts.authorised (Some DeleteSample.owner_token) 7 3000 DeleteSample.world
  /\ World.files
       (snd (FileRoutes.delete_file (Some KeyExchangeSample.token) 7 Sample.client
               3000 DeleteSample.world))
     = World.files DeleteSample.world.
Proof.
  split.
  - destruct (X21_share_delete_authorisation Sample.runtime
                (Some DeleteSample.owner_token) 7 Sample.client 3000
                DeleteSample.world) as (_ & Hdelete & _).
    apply Hdelete. reflexivity.
  - destruct (X21_share_delete_authorisation Sample.runtime
                (Some KeyExchangeSample.token) 7 Sample.client 3000
                DeleteSample.world) as (_ & _ & Hrefused).
    apply Hrefused. discriminate.
Defined.

Module ReshareFacts.
Import Http ShareFacts.

(** The records after a share request that passed the checks, whether or
    not the QR code was rendered. *)
Lemma shareFile_files (rt : Runtime.t) (id : Z) (expiryMinutes : option Z)
  (user : User.t) (c : client) (now : Z) (w : World.t) (file : File.t) :
  World.File_findById id w = Some file ->
  FileController.owner_or_admin user file = true ->
  World.files (snd (FileController.shareFile rt id expiryMinutes user c now w))
  = map (fun d =>
           if File._id d =? id
           then shared (drawn w) (now + minutes expiryMinutes * 60 * 1000) now d
           else d) (World.files w).
Proof.
  intros found allowed. unfold FileController.shareFile.
  rewrite found, allowed. cbn [negb].
  assert (Hid : File._id file = id).
  { unfold World.File_findById, World.File_findOne in found.
    apply StoreFacts.find_some_holds in found. unfold File.pre_find in found.
    apply andb_true_iff in found. apply Z.eqb_eq. apply found. }
  unfold KeyDerivation.generateExpiringToken, drawn, shared, minutes.
  destruct (KeyDerivation.generateSecureToken 32 (World.random w)) as [token e'].
  cbn [fst]. rewrite Hid.
  destruct (Runtime.generateShareQRCode rt _); reflexivity.
Qed.

Lemma shared_found (id now expiry : Z) (token : string) (l : list File.t)
  (file : File.t) :
  find (File.pre_find (fun f => File._id f =? id)) l = Some file ->
  find (File.pre_find (fun f => File._id f =? id))
    (map (fun d => if File._id d =? id then shared token expiry now d else d) l)
  = Some (shared token expiry now file).
Proof.
  intros found.
  assert (Hfile : (File._id file =? id) = true).
  { apply StoreFacts.find_some_holds in found. unfold File.pre_find in found.
    apply andb_true_iff in found. apply found. }
  rewrite (StoreFacts.find_map _
             (fun d => if File._id d =? id then shared token expiry now d else d)
             l file); [rewrite Hfile; reflexivity | | exact found].
  intros y. destruct (File._id y =? id); reflexivity.
Qed.

End ReshareFacts.



(* ================================================================== *)
(** * The utilities under the controllers: keys, digests, payloads *)
(* ================================================================== *)

(** X22: a file key wrapped under a password comes back under it.  For
    every password and every salt (also the empty ones, and a salt that is
    not hexadecimal) [deriveKey] gives a key that [encryptKey] accepts;
    [decryptKey] on the wrapped key, the IV and the tag under the key
    derived again from the same password and salt returns the file key. *)
Theorem X22_key_wrap_round_trip
  (password salt : string) (fileKey : Buffer.t) (e : Node.entropy) :
  let masterKey := KeyDerivation.deriveKey password salt in
  List.length masterKey = 32%nat
  /\ exists enc : Encryption.encrypted,
       fst (Encryption.encryptKey fileKey masterKey e) = Js.Ok enc
       /\ List.length (Encryption.iv enc) = 12%nat
       /\ List.length (Encryption.authTag enc) = 16%nat
       /\ Encryption.decryptKey (Encryption.encryptedData enc) (Encryption.iv enc)
            (Encryption.authTag enc) (KeyDerivation.deriveKey password salt)
          = Js.Ok fileKey.
Proof.
  cbv zeta. pose proof (KdfFacts.deriveKey_length password salt) as Hm.
  split; [exact Hm|].
  unfold Encryption.encryptKey, Encryption.decryptKey.
  rewrite (EncryptionFacts.encryptFile_ok fileKey _ e Hm). cbn [fst].
  eexists. split; [reflexivity|].
  cbn [Encryption.encryptedData Encryption.iv Encryption.authTag].
  split; [apply EncryptionFacts.generateIV_length|].
  split; [apply GcmFacts.tag_length; exact Hm|].
  apply EncryptionFacts.decryptFile_encryptFile. exact Hm.
Qed.

Module DigestEdges.

Lemma of_hex_app (b : Buffer.t) (s : string) :
  Forall Buffer.is_byte b ->
  Buffer.of_hex (Buffer.to_hex b ++ s) = b ++ Buffer.of_hex s.
Proof.
  induction 1 as [|x b Hx _ IH]; [reflexivity|].
  cbn [Buffer.to_hex Buffer.of_hex String.append app].
  destruct (HexFacts.byte_nibbles x Hx) as (Hh & Hl & Hsum).
  rewrite !HexFacts.hex_value_digit by assumption. rewrite Hsum, IH.
  reflexivity.
Qed.

End DigestEdges.

(** X23: [verifyIntegrity] and the form of the expected digest.  When the
    expected string does not decode to 32 bytes (it is empty, too short, too
    long, or stops being hexadecimal early), [verifyIntegrity] does not
    return false: it throws.  When it decodes to 32 bytes the answer is
    whether they are the SHA-256 value of the content.  Characters after
    the 64 digits that do not decode are ignored: the digest of the content
    followed by such characters verifies. *)
Theorem X23_verifyIntegrity_expected (p : Buffer.t) (expected : string) :
  (List.length (Buffer.of_hex expected) <> 32%nat ->
   Encryption.verifyIntegrity p expected
   = Js.Throw "Input buffers must have the same byte length")
  /\ (List.length (Buffer.of_hex expected) = 32%nat ->
      Encryption.verifyIntegrity p expected
      = Js.Ok (Buffer.eqb (Sha256.digest p) (Buffer.of_hex expected)))
  /\ (forall rest : string,
        Buffer.of_hex rest = [] ->
        Encryption.verifyIntegrity p (Encryption.calculateHash p ++ rest)
        = Js.Ok true).
Proof.
  unfold Encryption.verifyIntegrity, Node.timingSafeEqual.
  rewrite DigestFacts.calculateHash_decodes, Sha256Facts.digest_length.
  split; [|split].
  - intros Hne.
    destruct (32 =? List.length (Buffer.of_hex expected))%nat eqn:E;
      [|reflexivity].
    apply Nat.eqb_eq in E. congruence.
  - intros ->. reflexivity.
  - intros rest Hrest. unfold Encryption.calculateHash, Node.sha256_hex.
    rewrite DigestEdges.of_hex_app by apply Sha256Facts.digest_bytes.
    rewrite Hrest, app_nil_r, Sha256Facts.digest_length, BufferFacts.eqb_refl.
    reflexivity.
Qed.

(** On the sample content: an empty expected digest, and the digest
    followed by a line end. *)
Lemma X23_witness :
  Encryption.verifyIntegrity C2Data.plain EmptyString
  = Js.Throw "Input buffers must have the same byte length"
  /\ Encryption.verifyIntegrity C2Data.plain
       (Encryption.calculateHash C2Data.plain
        ++ String (ascii_of_nat 10) EmptyString)
     = Js.Ok true.
Proof.
  split.
  - destruct (X23_verifyIntegrity_expected C2Data.plain EmptyString) as (H & _).
    apply H. discriminate.
  - destruct (X23_verifyIntegrity_expected C2Data.plain EmptyString)
      as (_ & _ & H).
    apply H. reflexivity.
Defined.

(** X24: what [encryptFile] returns fits the record.  Under a key of 32
    bytes, for a content made of bytes: the ciphertext has the length of the
    content, the IV 12 bytes and the tag 16 bytes; the IV is what the random
    source gives first; and the hexadecimal forms that [uploadFile] stores
    for the IV and the tag decode to them. *)
Theorem X24_encryptFile_shape
  (plain key : Buffer.t) (e : Node.entropy)
  (key_length : List.length key = 32%nat)
  (key_bytes : Forall Buffer.is_byte key)
  (plain_bytes : Forall Buffer.is_byte plain) :
  exists enc : Encryption.encrypted,
    Encryption.encryptFile plain key e = (Js.Ok enc, snd (Node.randomBytes 12 e))
    /\ Encryption.iv enc = fst (Node.randomBytes 12 e)
    /\ List.length (Encryption.encryptedData enc) = List.length plain
    /\ List.length (Encryption.iv enc) = 12%nat
    /\ List.length (Encryption.authTag enc) = 16%nat
    /\ Forall Buffer.is_byte (Encryption.encryptedData enc)
    /\ Buffer.of_hex (Buffer.to_hex (Encryption.iv enc)) = Encryption.iv enc
    /\ Buffer.of_hex (Buffer.to_hex (Encryption.authTag enc))
       = Encryption.authTag enc.
Proof.
  rewrite (EncryptionFacts.encryptFile_ok plain key e key_length). cbv zeta.
  eexists. split; [reflexivity|].
  cbn [Encryption.encryptedData Encryption.iv Encryption.authTag].
  split; [reflexivity|].
  split; [apply GcmFacts.crypt_length; exact key_length|].
  split; [apply EncryptionFacts.generateIV_length|].
  split; [apply GcmFacts.tag_length; exact key_length|].
  split; [apply GcmBytes.crypt_bytes; assumption|].
  split; apply HexFacts.of_hex_to_hex.
  - apply EncryptionFacts.randomBytes_bytes.
  - apply GcmBytes.tag_bytes. exact key_bytes.
Qed.

(** On the sample key and content. *)
Lemma X24_witness :
  exists enc : Encryption.encrypted,
    Encryption.encryptFile C2Data.plain C2Data.key C2Data.source
    = (Js.Ok enc, snd (Node.randomBytes 12 C2Data.source))
    /\ List.length (Encryption.encryptedData enc) = List.length C2Data.plain
    /\ List.length (Encryption.authTag enc) = 16%nat.
Proof.
  assert (key_bytes : Forall Buffer.is_byte C2Data.key)
    by (apply SampleFacts.bytes_check; vm_compute; reflexivity).
  assert (plain_bytes : Forall Buffer.is_byte C2Data.plain)
    by (apply SampleFacts.bytes_check; vm_compute; reflexivity).
  destruct (X24_encryptFile_shape C2Data.plain C2Data.key C2Data.source eq_refl
              key_bytes plain_bytes) as (enc & Hrun & _ & Hlen & _ & Htag & _).
  exists enc. repeat split; assumption.
Defined.

(** X25: the payload of a key exchange opens under the exchanged key.
    When [encryptForKeyExchange] succeeds on data made of bytes, the three
    hexadecimal fields of its AES payload, decoded and given to
    [decryptFile] with the AES key that was drawn, return the data; and the
    other field is the base64 form of that key under RSA-OAEP with the key
    of the guest. *)
Theorem X25_key_exchange_payload
  (rt : Runtime.t) (fileData : Buffer.t) (guestPublicKey : string)
  (e : Node.entropy) (result : KeyExchange.exchange)
  (data_bytes : Forall Buffer.is_byte fileData)
  (done :
     fst (KeyExchange.encryptForKeyExchange rt fileData guestPublicKey e)
     = Js.Ok result) :
  let aesKey := fst (KeyExchange.generateAESKey e) in
  let payload := KeyExchange.encryptedFile result in
  Encryption.decryptFile (Buffer.of_hex (KeyExchange.data payload))
    (Buffer.of_hex (KeyExchange.iv payload))
    (Buffer.of_hex (KeyExchange.authTag payload)) aesKey
  = Js.Ok fileData
  /\ exists wrapped : Buffer.t,
       fst (Runtime.publicEncrypt rt guestPublicKey aesKey
              (snd (Node.randomBytes 12 (snd (KeyExchange.generateAESKey e)))))
       = Js.Ok wrapped
       /\ KeyExchange.encryptedAESKey result = Node.to_base64 wrapped.
Proof.
  cbv zeta. unfold KeyExchange.encryptForKeyExchange in done.
  pose proof (EncryptionFacts.randomBytes_length 32 e) as Hk.
  pose proof (EncryptionFacts.randomBytes_bytes 32 e) as Hkb.
  unfold KeyExchange.generateAESKey in *.
  destruct (Node.randomBytes 32 e) as [aesKey e1]. cbn [fst snd] in *.
  unfold KeyExchange.encryptWithAES in done.
  pose proof (EncryptionFacts.randomBytes_length 12 e1) as Hi.
  pose proof (EncryptionFacts.randomBytes_bytes 12 e1) as Hib.
  destruct (Node.randomBytes 12 e1) as [iv e2]. cbn [fst snd] in *.
  unfold Node.gcm_encrypt in done. rewrite Hk, Hi in done.
  cbn [Nat.eqb negb Js.bind fst snd] in done.
  unfold KeyExchange.encryptWithPublicKey in done.
  destruct (Runtime.publicEncrypt rt guestPublicKey aesKey e2) as [[wrapped|m] e3];
    cbn [Js.bind fst] in done; [|discriminate done].
  apply (f_equal (fun o => match o with Js.Ok r => r | Js.Throw _ => result end))
    in done.
  cbv beta iota in done. subst result. unfold Gcm.encrypt.
  cbn [fst snd KeyExchange.encryptedFile KeyExchange.encryptedAESKey KeyExchange.data
       KeyExchange.iv KeyExchange.authTag].
  split.
  - rewrite !HexFacts.of_hex_to_hex;
      [| apply GcmBytes.tag_bytes; exact Hkb | exact Hib
       | apply GcmBytes.crypt_bytes; assumption].
    apply DownloadFacts.decryptFile_sealed; [exact Hk|].
    rewrite Hi. discriminate.
  - exists wrapped. split; reflexivity.
Qed.

(** On the sample ciphertext. *)
Lemma X25_witness :
  Encryption.decryptFile
    (Buffer.of_hex (KeyExchange.data (KeyExchange.encryptedFile ExchangeSample.result)))
    (Buffer.of_hex (KeyExchange.iv (KeyExchange.encryptedFile ExchangeSample.result)))
    (Buffer.of_hex
       (KeyExchange.authTag (KeyExchange.encryptedFile ExchangeSample.result)))
    (fst (KeyExchange.generateAESKey Sample.source))
  = Js.Ok KeyExchangeSample.blob.
Proof.
  assert (data_bytes : Forall Buffer.is_byte KeyExchangeSample.blob)
    by (apply SampleFacts.bytes_check; vm_compute; reflexivity).
  assert (done :
            fst (KeyExchange.encryptForKeyExchange Sample.runtime
                   KeyExchangeSample.blob ExchangeSample.guestPublicKey
                   Sample.source)
            = Js.Ok ExchangeSample.result) by (vm_compute; reflexivity).
  destruct (X25_key_exchange_payload Sample.runtime KeyExchangeSample.blob
              ExchangeSample.guestPublicKey Sample.source ExchangeSample.result
              data_bytes done) as [Hopen _].
  exact Hopen.
Defined.


